(** * Task/team management backend: authorization, numbering and audit model

    A shallow embedding of the service layer of the Express/MongoDB backend
    (models, repositories and services of the users, projects, tasks,
    activity and search modules), followed by the properties established
    about it.

    Conventions of the embedding:
    - a collection of the document store is a list of documents in
      insertion order; [Model.findById] is the first document with that
      [_id], [countDocuments] the length of the filtered list;
    - an [async] service method is a function in the monad [Async]: it
      threads the store and either resolves with a value or rejects with an
      error.  A rejection keeps the store as it was at the point of the
      [throw]: nothing in the code rolls a write back;
    - an [ObjectId] is the string the store prints for it, and identifiers
      are compared through this form, as the code does with [toString()].
      The store also reads an identifier that a request spells with
      upper-case hexadecimal digits; a lookup in the model finds a
      document only under the printed form of its identifier, so a
      property that depends on the spelling says so (see [printed]);
    - a [Date] is a number of milliseconds. *)

From Stdlib Require Import List String Ascii Arith Bool Lia ZArith.
From Stdlib Require Import DecimalString DecimalNat.
Import ListNotations.
Open Scope string_scope.

Set Implicit Arguments.

(** ** Identifiers, dates and closed enumerations *)

Definition ObjectId := string.
Definition Date := nat.

(** JavaScript truthiness of a string value: only the empty string is falsy. *)
Definition truthy (s : string) : bool := negb (s =? "").

(** Template-literal rendering of a number, [`${n}`]. *)
Definition showNat (n : nat) : string := NilEmpty.string_of_uint (Nat.to_uint n).

(** ASCII white space, as removed by [trim]. *)
Definition isWhitespace (c : ascii) : bool :=
  let n := nat_of_ascii c in
  Nat.eqb n 32 || (Nat.leb 9 n && Nat.leb n 13).

Fixpoint trimStart (s : string) : string :=
  match s with
  | String c r => if isWhitespace c then trimStart r else s
  | EmptyString => EmptyString
  end.

Fixpoint trimEnd (s : string) : string :=
  match s with
  | String c r =>
      match trimEnd r with
      | EmptyString => if isWhitespace c then EmptyString else String c EmptyString
      | r' => String c r'
      end
  | EmptyString => EmptyString
  end.

(** [s.trim()] *)
Definition trim (s : string) : string := trimEnd (trimStart s).

Definition isUpper (c : ascii) : bool :=
  Nat.leb 65 (nat_of_ascii c) && Nat.leb (nat_of_ascii c) 90.

Definition isLower (c : ascii) : bool :=
  Nat.leb 97 (nat_of_ascii c) && Nat.leb (nat_of_ascii c) 122.

Definition isDigit (c : ascii) : bool :=
  Nat.leb 48 (nat_of_ascii c) && Nat.leb (nat_of_ascii c) 57.

Definition toUpper (c : ascii) : ascii :=
  if isLower c then ascii_of_nat (nat_of_ascii c - 32) else c.

(** [s.toUpperCase()] on ASCII text. *)
Fixpoint toUpperCase (s : string) : string :=
  match s with
  | String c r => String (toUpper c) (toUpperCase r)
  | EmptyString => EmptyString
  end.

(** middleware/rbac.js: [Roles] and [roleHierarchy]. *)
Module Roles.
Inductive t := ADMIN | MEMBER | VIEWER.

Definition eqb (a b : t) : bool :=
  match a, b with
  | ADMIN, ADMIN | MEMBER, MEMBER | VIEWER, VIEWER => true
  | _, _ => false
  end.

(** Position in [roleHierarchy = [VIEWER, MEMBER, ADMIN]]. *)
Definition indexOf (r : t) : nat :=
  match r with VIEWER => 0 | MEMBER => 1 | ADMIN => 2 end.

(** The string a role is stored and compared as. *)
Definition toString (r : t) : string :=
  match r with ADMIN => "admin" | MEMBER => "member" | VIEWER => "viewer" end.
End Roles.

(** Project.model.js: the [role] enum of [projectMemberSchema]. *)
Module MemberRole.
Inductive t := owner | admin | member | viewer.

Definition eqb (a b : t) : bool :=
  match a, b with
  | owner, owner | admin, admin | member, member | viewer, viewer => true
  | _, _ => false
  end.
End MemberRole.

Module Visibility.
Inductive t := private | public.

Definition eqb (a b : t) : bool :=
  match a, b with
  | private, private | public, public => true
  | _, _ => false
  end.

Definition toString (v : t) : string :=
  match v with private => "private" | public => "public" end.
End Visibility.

(** Task.model.js: the [status] and [priority] enums. *)
Module Status.
Inductive t := backlog | todo | in_progress | in_review | done | cancelled.

Definition eqb (a b : t) : bool :=
  match a, b with
  | backlog, backlog | todo, todo | in_progress, in_progress
  | in_review, in_review | done, done | cancelled, cancelled => true
  | _, _ => false
  end.

Definition toString (s : t) : string :=
  match s with
  | backlog => "backlog"
  | todo => "todo"
  | in_progress => "in_progress"
  | in_review => "in_review"
  | done => "done"
  | cancelled => "cancelled"
  end.
End Status.

Module Priority.
Inductive t := low | medium | high | urgent.

Definition eqb (a b : t) : bool :=
  match a, b with
  | low, low | medium, medium | high, high | urgent, urgent => true
  | _, _ => false
  end.

Definition toString (p : t) : string :=
  match p with low => "low" | medium => "medium" | high => "high" | urgent => "urgent" end.
End Priority.

(** ** Errors

    utils/ApiError.js: an [ApiError] carries an HTTP status code and a
    message.  Failures raised below the services (the driver, schema
    validation) are separate constructors; middleware/errorHandler.js maps
    them to an [ApiError] with [convertError]. *)

Module ApiError.
Record t := new { statusCode : nat; message : string; isOperational : bool }.

Definition badRequest (msg : string) : t := new 400 msg true.
Definition unauthorized (msg : string) : t := new 401 msg true.
Definition forbidden (msg : string) : t := new 403 msg true.
Definition notFound (msg : string) : t := new 404 msg true.
Definition conflict (msg : string) : t := new 409 msg true.
Definition internal (msg : string) : t := new 500 msg false.
End ApiError.

Inductive Error :=
| EApi (e : ApiError.t)              (* thrown by a service or a middleware *)
| EValidation (msg : string)         (* mongoose.Error.ValidationError *)
| EDuplicateKey (field : string)     (* driver error with code 11000 *)
| EDriver (msg : string).            (* any other failure of the store *)

Definition convertError (err : Error) : ApiError.t :=
  match err with
  | EApi e => e
  | EValidation msg => ApiError.badRequest ("Validation error: " ++ msg)
  | EDuplicateKey field => ApiError.conflict (field ++ " already exists")
  | EDriver msg => ApiError.internal msg
  end.

(** The error kinds named by the specification, read off the status code
    the error handler answers with. *)
Definition answeredWith (code : nat) (err : Error) : bool :=
  Nat.eqb (ApiError.statusCode (convertError err)) code.

Definition isBadRequest : Error -> bool := answeredWith 400.
Definition isForbidden : Error -> bool := answeredWith 403.
Definition isNotFound : Error -> bool := answeredWith 404.
Definition isConflict : Error -> bool := answeredWith 409.

(** ** Documents *)

(** users/User.model.js *)
Module User.
Record t := new {
  _id : ObjectId;
  email : string;
  firstName : string;
  lastName : string;
  role : Roles.t;
  isActive : bool;
  createdAt : Date
}.

Definition set_role (r : Roles.t) (u : t) : t :=
  new (_id u) (email u) (firstName u) (lastName u) r (isActive u) (createdAt u).

Definition set_isActive (b : bool) (u : t) : t :=
  new (_id u) (email u) (firstName u) (lastName u) (role u) b (createdAt u).

(** The [fullName] virtual. *)
Definition fullName (u : t) : string := firstName u ++ " " ++ lastName u.
End User.

(** projects/Project.model.js.  [settings], [startDate] and [endDate] take
    no part in any rule below and are left out of the record. *)
Module ProjectMember.
Record t := new { user : ObjectId; role : MemberRole.t; joinedAt : Date }.

Definition set_role (r : MemberRole.t) (m : t) : t := new (user m) r (joinedAt m).
End ProjectMember.

Module ProjectStatus.
Inductive t := active | archived | completed.

Definition toString (s : t) : string :=
  match s with
  | active => "active"
  | archived => "archived"
  | completed => "completed"
  end.
End ProjectStatus.

Module Project.
Record t := new {
  _id : ObjectId;
  name : string;
  description : string;
  key : string;
  owner : ObjectId;
  members : list ProjectMember.t;
  status : ProjectStatus.t;
  visibility : Visibility.t;
  taskCount : Z;
  completedTaskCount : nat;
  updatedAt : Date
}.

Definition set_members (ms : list ProjectMember.t) (p : t) : t :=
  new (_id p) (name p) (description p) (key p) (owner p) ms (status p)
      (visibility p) (taskCount p) (completedTaskCount p) (updatedAt p).

Definition set_taskCount (n : Z) (p : t) : t :=
  new (_id p) (name p) (description p) (key p) (owner p) (members p) (status p)
      (visibility p) n (completedTaskCount p) (updatedAt p).

(** The [timestamps] option of the schema: every update of a project
    through the model stamps [updatedAt]. *)
Definition set_updatedAt (now : Date) (p : t) : t :=
  new (_id p) (name p) (description p) (key p) (owner p) (members p) (status p)
      (visibility p) (taskCount p) (completedTaskCount p) now.

(** [projectSchema.methods.isMember] *)
Definition isMember (p : t) (userId : ObjectId) : bool :=
  (owner p =? userId)
  || existsb (fun m => ProjectMember.user m =? userId) (members p).

(** [projectSchema.methods.getMemberRole]; [None] is JavaScript's [null]. *)
Definition getMemberRole (p : t) (userId : ObjectId) : option MemberRole.t :=
  if owner p =? userId then Some MemberRole.owner
  else
    match find (fun m => ProjectMember.user m =? userId) (members p) with
    | Some m => Some (ProjectMember.role m)
    | None => None
    end.

(** The [match] of the [key] path, [/^[A-Z][A-Z0-9]{1,9}$/]. *)
Definition keyMatches (k : string) : bool :=
  match k with
  | String c r =>
      isUpper c
      && Nat.leb 1 (String.length r) && Nat.leb (String.length r) 9
      && forallb (fun x => isUpper x || isDigit x) (list_ascii_of_string r)
  | EmptyString => false
  end.
End Project.

(** tasks/Task.model.js.  [taskNumber] is [None] until the pre-save hook
    assigns it; [labels] and [type] take no part in any rule below and are
    left out of the record. *)
Module Task.
Record t := new {
  _id : ObjectId;
  title : string;
  description : string;
  taskNumber : option string;
  project : ObjectId;
  assignee : option ObjectId;
  reporter : ObjectId;
  status : Status.t;
  priority : Priority.t;
  dueDate : option Date;
  estimatedHours : option nat;
  parentTask : option ObjectId;
  completedAt : option Date;
  createdAt : Date;
  updatedAt : Date
}.

Definition set_taskNumber (n : option string) (d : t) : t :=
  new (_id d) (title d) (description d) n (project d) (assignee d) (reporter d)
      (status d) (priority d) (dueDate d) (estimatedHours d) (parentTask d)
      (completedAt d) (createdAt d) (updatedAt d).

Definition set_completedAt (c : option Date) (d : t) : t :=
  new (_id d) (title d) (description d) (taskNumber d) (project d) (assignee d)
      (reporter d) (status d) (priority d) (dueDate d) (estimatedHours d)
      (parentTask d) c (createdAt d) (updatedAt d).

Definition set_status (s : Status.t) (d : t) : t :=
  new (_id d) (title d) (description d) (taskNumber d) (project d) (assignee d)
      (reporter d) s (priority d) (dueDate d) (estimatedHours d)
      (parentTask d) (completedAt d) (createdAt d) (updatedAt d).

(** The [isOverdue] virtual, read when the clock shows [now]. *)
Definition isOverdue (now : Date) (d : t) : bool :=
  match dueDate d with
  | None => false
  | Some due =>
      if Status.eqb (status d) Status.done || Status.eqb (status d) Status.cancelled
      then false
      else Nat.ltb due now
  end.
End Task.

(** comments/Comment.model.js, the fields the search reads. *)
Module Comment.
Record t := new {
  _id : ObjectId;
  content : string;
  task : ObjectId;
  author : ObjectId;
  isDeleted : bool;
  createdAt : Date
}.
End Comment.

(** activity/Activity.model.js.  [changes] holds the before and after
    snapshots as field/value lists; a value [None] is [undefined] or [null]. *)
Module Activity.
Definition snapshot := list (string * option string).

Record t := new {
  action : string;
  actor : ObjectId;
  entityType : string;
  entityId : ObjectId;
  project : option ObjectId;
  changes : snapshot * snapshot;
  metadata : list (string * string);
  createdAt : Date
}.

(** The [enum] of the [action] path. *)
Definition actionValues : list string :=
  [ "user.login"; "user.logout"; "user.register"; "user.password_change";
    "user.update"; "user.delete"; "user.role_change";
    "project.create"; "project.update"; "project.delete"; "project.archive";
    "project.member_add"; "project.member_remove"; "project.member_role_change";
    "task.create"; "task.update"; "task.delete"; "task.status_change";
    "task.assign"; "task.unassign"; "task.priority_change";
    "task.label_add"; "task.label_remove";
    "comment.create"; "comment.update"; "comment.delete";
    "comment.reaction_add"; "comment.reaction_remove";
    "label.create"; "label.update"; "label.delete" ].

(** The [enum] of the [entityType] path. *)
Definition entityTypeValues : list string :=
  [ "user"; "project"; "task"; "comment"; "label" ].
End Activity.

(** ** The store and the environment of a request *)

Module Db.
Record t := new {
  users : list User.t;
  projects : list Project.t;
  tasks : list Task.t;
  comments : list Comment.t;
  activities : list Activity.t
}.


Definition set_users (us : list User.t) (db : t) : t :=
  new us (projects db) (tasks db) (comments db) (activities db).
Definition set_projects (ps : list Project.t) (db : t) : t :=
  new (users db) ps (tasks db) (comments db) (activities db).
Definition set_tasks (ts : list Task.t) (db : t) : t :=
  new (users db) (projects db) ts (comments db) (activities db).
Definition set_activities (acts : list Activity.t) (db : t) : t :=
  new (users db) (projects db) (tasks db) (comments db) acts.
End Db.

(** What a request reads from outside the program: the clock behind
    [new Date()], the [ObjectId] the driver generates for the next created
    document, and whether the store accepts a write to the activities
    collection at this moment. *)
Module Env.
Record t := new {
  now : Date;
  newId : ObjectId;
  activityWriteFails : bool
}.
End Env.

(** ** The monad of [async] methods

    A promise settles as [Resolved] or [Rejected]; the store it leaves
    behind is returned in both cases. *)

Inductive Outcome (A : Type) :=
| Resolved (a : A)
| Rejected (e : Error).

Arguments Resolved {A} a.
Arguments Rejected {A} e.

Definition Async (A : Type) : Type := Env.t -> Db.t -> Db.t * Outcome A.

Definition ret {A} (a : A) : Async A := fun _ db => (db, Resolved a).

Definition throw {A} (e : Error) : Async A := fun _ db => (db, Rejected e).

Definition bind {A B} (m : Async A) (k : A -> Async B) : Async B :=
  fun env db =>
    match m env db with
    | (db', Resolved a) => k a env db'
    | (db', Rejected e) => (db', Rejected e)
    end.

Definition getDb : Async Db.t := fun _ db => (db, Resolved db).
Definition modifyDb (f : Db.t -> Db.t) : Async unit := fun _ db => (f db, Resolved tt).
Definition getEnv : Async Env.t := fun env db => (db, Resolved env).

Declare Scope async_scope.
Delimit Scope async_scope with async.
Notation "x <- m ;; k" := (bind m (fun x => k))
  (at level 61, m at next level, right associativity) : async_scope.
Notation "m ;; k" := (bind m (fun _ => k))
  (at level 61, right associativity) : async_scope.
Open Scope async_scope.

(** [if (c) throw e;] *)
Definition throwIf (c : bool) (e : Error) : Async unit :=
  if c then throw e else ret tt.

(** The request succeeded for its caller. *)
Definition resolved {A} (r : Db.t * Outcome A) : bool :=
  match snd r with Resolved _ => true | Rejected _ => false end.

(** The request failed for its caller with an error of the given kind. *)
Definition rejectedWith {A} (kind : Error -> bool) (r : Db.t * Outcome A) : bool :=
  match snd r with Resolved _ => false | Rejected e => kind e end.

(** ** Collection primitives of the driver *)

(** [findOneAndUpdate]: the first matching document is replaced. *)
Fixpoint updateFirst {A} (p : A -> bool) (f : A -> A) (l : list A) : list A :=
  match l with
  | [] => []
  | x :: r => if p x then f x :: r else x :: updateFirst p f r
  end.

(** [findOneAndDelete]: the first matching document is removed. *)
Fixpoint removeFirst {A} (p : A -> bool) (l : list A) : list A :=
  match l with
  | [] => []
  | x :: r => if p x then r else x :: removeFirst p r
  end.

(** [countDocuments(filter)] *)
Definition countDocuments {A} (p : A -> bool) (l : list A) : nat :=
  List.length (filter p l).

(** A field of an object read with a default: the value if the field is
    present, the default otherwise. *)
Definition orElse {A} (o : option A) (d : A) : A :=
  match o with Some a => a | None => d end.

(** Truthiness of a string that may be [null] or [undefined]. *)
Definition truthyOpt (o : option string) : bool :=
  match o with Some s => truthy s | None => false end.

(** Truthiness of an object reference that may be [null]. *)
Definition isSome {A} (o : option A) : bool :=
  match o with Some _ => true | None => false end.

(** Equality of index keys: a missing field is indexed as [null]. *)
Definition optStringEqb (a b : option string) : bool :=
  match a, b with
  | Some x, Some y => x =? y
  | None, None => true
  | _, _ => false
  end.

(** [l.includes(x)] *)
Definition includes (x : string) (l : list string) : bool :=
  existsb (String.eqb x) l.

(** ** The regular expressions behind [new RegExp(query, 'i')]

    The search hands the compiled pattern to the store, which matches it
    anywhere in a string field.  The fragment modelled here is: literal
    characters, [.], alternation [|], groups [( )], the greedy quantifiers
    [*], [+], [?] on an atom, and a backslash before a character that is
    neither a letter nor a digit.  [compile] answers [None] on anything
    else (classes, anchors, an opening brace, escapes such as [\d], a
    quantifier with nothing to repeat or stacked on another one); no
    property below is stated about such patterns other than that the
    search does not depend on who asks. *)

Module RegExp.
Inductive t :=
| Eps
| Chr (c : ascii)
| Dot
| Alt (a b : t)
| Cat (a b : t)
| Star (a : t)
| Fail.

Definition toLower (c : ascii) : ascii :=
  let n := nat_of_ascii c in
  if Nat.leb 65 n && Nat.leb n 90 then ascii_of_nat (n + 32) else c.

Definition isLineTerminator (c : ascii) : bool :=
  Nat.eqb (nat_of_ascii c) 10 || Nat.eqb (nat_of_ascii c) 13.

Fixpoint nullable (r : t) : bool :=
  match r with
  | Eps | Star _ => true
  | Chr _ | Dot | Fail => false
  | Alt a b => nullable a || nullable b
  | Cat a b => nullable a && nullable b
  end.

(** Derivative with respect to one character, under the [i] flag. *)
Fixpoint deriv (x : ascii) (r : t) : t :=
  match r with
  | Eps | Fail => Fail
  | Chr c => if Ascii.eqb (toLower c) (toLower x) then Eps else Fail
  | Dot => if isLineTerminator x then Fail else Eps
  | Alt a b => Alt (deriv x a) (deriv x b)
  | Cat a b =>
      if nullable a then Alt (Cat (deriv x a) b) (deriv x b)
      else Cat (deriv x a) b
  | Star a => Cat (deriv x a) (Star a)
  end.

(** Some prefix of [s] matches [r]. *)
Fixpoint matchesPrefix (r : t) (s : string) : bool :=
  nullable r
  || match s with
     | EmptyString => false
     | String x s' => matchesPrefix (deriv x r) s'
     end.

(** [regex.test(s)]: the pattern matches somewhere in [s]. *)
Fixpoint test (r : t) (s : string) : bool :=
  matchesPrefix r s
  || match s with
     | EmptyString => false
     | String _ s' => test r s'
     end.

Definition backslash : ascii := ascii_of_nat 92.

(** The characters that do not stand for themselves in a pattern.  Outside
    a class, a hyphen and a slash are ordinary characters, and so is a
    closing bracket or brace that closes nothing. *)
Definition isSyntaxChar (c : ascii) : bool :=
  Ascii.eqb c backslash
  || includes (String c EmptyString)
       [ "."; "|"; "("; ")"; "*"; "+"; "?"; "["; "{"; "^"; "$" ].

(** A backslash before a character that is neither a letter nor a digit
    stands for that character. *)
Definition isIdentityEscape (e : ascii) : bool :=
  negb (isUpper e || isLower e || isDigit e).

Definition seqWith (seq : t) (last : option (t * bool)) : t :=
  match last with
  | Some (a, _) => Cat seq a
  | None => seq
  end.

Definition close (alts : option t) (seq : t) (last : option (t * bool)) : t :=
  match alts with
  | Some a => Alt a (seqWith seq last)
  | None => seqWith seq last
  end.

(** Quantifier on the last atom; [None] when there is nothing to repeat
    or the atom already carries a quantifier. *)
Definition quantify (q : t -> t) (last : option (t * bool)) : option (t * bool) :=
  match last with
  | Some (a, false) => Some (q a, true)
  | _ => None
  end.

(** One pass over the source.  [alts] are the alternatives closed so
    far, [seq] the current concatenation without its last atom, [last]
    that atom and whether it is quantified, [inGroup] whether a [)] is
    awaited.  Returns the expression and the unread rest. *)
Fixpoint parse (fuel : nat) (s : list ascii) (alts : option t) (seq : t)
         (last : option (t * bool)) (inGroup : bool) : option (t * list ascii) :=
  match fuel with
  | 0 => None
  | S fuel =>
      match s with
      | [] => if inGroup then None else Some (close alts seq last, [])
      | c :: r =>
          let atom a := parse fuel r alts (seqWith seq last) (Some (a, false)) inGroup in
          let quantified q :=
            match quantify q last with
            | Some l => parse fuel r alts seq (Some l) inGroup
            | None => None
            end in
          if Ascii.eqb c ")" then
            if inGroup then Some (close alts seq last, r) else None
          else if Ascii.eqb c "|" then
            parse fuel r (Some (close alts seq last)) Eps None inGroup
          else if Ascii.eqb c "(" then
            match parse fuel r None Eps None true with
            | Some (g, r') =>
                parse fuel r' alts (seqWith seq last) (Some (g, false)) inGroup
            | None => None
            end
          else if Ascii.eqb c "*" then quantified Star
          else if Ascii.eqb c "+" then quantified (fun a => Cat a (Star a))
          else if Ascii.eqb c "?" then quantified (fun a => Alt a Eps)
          else if Ascii.eqb c "." then atom Dot
          else if Ascii.eqb c backslash then
            match r with
            | e :: r' =>
                if isIdentityEscape e
                then parse fuel r' alts (seqWith seq last) (Some (Chr e, false)) inGroup
                else None
            | [] => None
            end
          else if isSyntaxChar c then None
          else atom (Chr c)
      end
  end.

(** [new RegExp(source, 'i')] *)
Definition compile (source : string) : option t :=
  let s := list_ascii_of_string source in
  match parse (S (List.length s)) s None Eps None false with
  | Some (r, _) => Some r
  | None => None
  end.
End RegExp.

(** ** Query plumbing: sort and limit *)

Fixpoint insertBy {A} (before : A -> A -> bool) (x : A) (l : list A) : list A :=
  match l with
  | [] => [x]
  | y :: r => if before x y then x :: l else y :: insertBy before x r
  end.

(** [.sort(...)]: documents with equal keys keep their collection order. *)
Definition sortBy {A} (before : A -> A -> bool) (l : list A) : list A :=
  fold_right (insertBy before) [] l.

(** [.limit(n)]: a limit of [0] is no limit. *)
Definition limitTo {A} (n : nat) (l : list A) : list A :=
  if Nat.eqb n 0 then l else firstn n l.

(** [{ $regex: search, $options: 'i' }] when a search string is given:
    the store compiles the pattern and refuses an invalid one.  As for
    [RegExp.compile], a pattern outside the modelled fragment is answered
    like an invalid one, and no property is stated about such patterns. *)
Definition compileSearch (search : option string) : Async (option RegExp.t) :=
  if truthyOpt search then
    match RegExp.compile (orElse search "") with
    | Some r => ret (Some r)
    | None => throw (EDriver "Regular expression is invalid")
    end
  else ret None.

(** [const skip = (page - 1) * limit]; the store refuses a negative skip. *)
Definition skipOf (page limit : nat) : Async nat :=
  if Nat.eqb page 0 && negb (Nat.eqb limit 0)
  then throw (EDriver "Skip value must be non-negative")
  else ret ((page - 1) * limit)%nat.

(** [options.page || 1], [options.limit || 10]: zero is falsy. *)
Definition orDefault (o : option nat) (d : nat) : nat :=
  match o with
  | Some (S n) => S n
  | _ => d
  end.

(** Sort order of an optional date: [null] sorts before every date. *)
Definition optDateLeb (a b : option Date) : bool :=
  match a, b with
  | None, _ => true
  | Some _, None => false
  | Some x, Some y => Nat.leb x y
  end.

(** ** Activity.model.js: [activitySchema.statics.log] *)

Module ActivityModel.
Record data := mkData {
  action : string;
  actor : ObjectId;
  entityType : string;
  entityId : ObjectId;
  project : option ObjectId;
  changes : Activity.snapshot * Activity.snapshot;
  metadata : list (string * string)
}.

(** Schema validation run by [create]: the two enumerated paths. *)
Definition validate (d : data) : bool :=
  includes (action d) Activity.actionValues
  && includes (entityType d) Activity.entityTypeValues.

(** [this.create(data)]: validate, then insert.  The promise rejects when
    validation fails or when the store refuses the write. *)
Definition create (d : data) : Async Activity.t :=
  env <- getEnv ;;
  throwIf (negb (validate d)) (EValidation "Invalid action type") ;;
  throwIf (Env.activityWriteFails env) (EDriver "activity write failed") ;;
  let doc := Activity.new (action d) (actor d) (entityType d) (entityId d)
                          (project d) (changes d) (metadata d) (Env.now env) in
  modifyDb (fun db => Db.set_activities (Db.activities db ++ [doc])%list db) ;;
  ret doc.

Definition log (d : data) : Async Activity.t := create d.
End ActivityModel.

(** ** users/repositories/user.repository.js *)

Module userRepository.
Definition hasId (id : ObjectId) (u : User.t) : bool := User._id u =? id.

(** [User.findById(id)], for an identifier in its printed form. *)
Definition findById (id : ObjectId) : Async (option User.t) :=
  db <- getDb ;;
  ret (find (hasId id) (Db.users db)).

(** [User.findByIdAndUpdate(id, { role }, { new: true, runValidators:
    true })]; a role of the enumeration passes the validators. *)
Definition updateById (id : ObjectId) (newRole : Roles.t) : Async (option User.t) :=
  modifyDb (fun db =>
    Db.set_users (updateFirst (hasId id) (User.set_role newRole) (Db.users db)) db) ;;
  findById id.

(** [User.findByIdAndUpdate(id, { isActive: false }, { new: true })] *)
Definition softDelete (id : ObjectId) : Async (option User.t) :=
  modifyDb (fun db =>
    Db.set_users (updateFirst (hasId id) (User.set_isActive false) (Db.users db)) db) ;;
  findById id.

Definition activeWithRole (r : Roles.t) (u : User.t) : bool :=
  User.isActive u && Roles.eqb (User.role u) r.

(** [countByRole]: the aggregation groups the active users by role, so a
    role without an active user has no key in the returned object;
    reading it gives [undefined], here [None]. *)
Definition countByRole : Async (Roles.t -> option nat) :=
  db <- getDb ;;
  ret (fun r =>
         match countDocuments (activeWithRole r) (Db.users db) with
         | 0 => None
         | c => Some c
         end).

(** The paths [findAll] may sort by. *)
Inductive sortField := byCreatedAt | byEmail | byFirstName | byLastName | byRole.

Record options := mkOptions {
  q_page : option nat;
  q_limit : option nat;
  q_sortBy : option sortField;
  q_sortOrder : option string;
  q_role : option Roles.t;
  q_isActive : option bool;
  q_search : option string
}.

Definition keyLeb (f : sortField) (a b : User.t) : bool :=
  match f with
  | byCreatedAt => Nat.leb (User.createdAt a) (User.createdAt b)
  | byEmail => String.leb (User.email a) (User.email b)
  | byFirstName => String.leb (User.firstName a) (User.firstName b)
  | byLastName => String.leb (User.lastName a) (User.lastName b)
  | byRole => String.leb (Roles.toString (User.role a)) (Roles.toString (User.role b))
  end.

(** [.sort({ [sortBy]: sortOrder === 'asc' ? 1 : -1 })] *)
Definition sortedBefore (f : sortField) (order : string) (a b : User.t) : bool :=
  if order =? "asc" then keyLeb f a b else keyLeb f b a.

(** The [filter] object built from the options. *)
Definition matchesFilter (o : options) (searchRegex : option RegExp.t) (u : User.t) : bool :=
  match q_role o with
  | Some r => Roles.eqb (User.role u) r
  | None => true
  end
  && match q_isActive o with
     | Some b => Bool.eqb (User.isActive u) b
     | None => true
     end
  && match searchRegex with
     | Some r =>
         RegExp.test r (User.firstName u)
         || RegExp.test r (User.lastName u)
         || RegExp.test r (User.email u)
     | None => true
     end.

Definition findAll (o : options) : Async (list User.t * nat) :=
  let page := orElse (q_page o) 1 in
  let limit := orElse (q_limit o) 10 in
  let field := orElse (q_sortBy o) byCreatedAt in
  let order := orElse (q_sortOrder o) "desc" in
  searchRegex <- compileSearch (q_search o) ;;
  skip <- skipOf page limit ;;
  db <- getDb ;;
  let matching := filter (matchesFilter o searchRegex) (Db.users db) in
  ret (limitTo limit (skipn skip (sortBy (sortedBefore field order) matching)),
       List.length matching).
End userRepository.

(** JavaScript's [x <= 1] where [x] may be [undefined]: the comparison with
    [undefined] is false. *)
Definition leqOne (x : option nat) : bool :=
  match x with
  | Some c => Nat.leb c 1
  | None => false
  end.

(** The result of [x.toJSON()] on what a repository returned; calling it on
    [null] is a [TypeError]. *)
Definition toJSON {A} (x : option A) : Async A :=
  match x with
  | Some a => ret a
  | None => throw (EDriver "TypeError: Cannot read properties of null")
  end.

(** ** users/services/user.service.js *)

Module UserService.
Definition roleString (r : Roles.t) : string :=
  match r with
  | Roles.ADMIN => "admin"
  | Roles.MEMBER => "member"
  | Roles.VIEWER => "viewer"
  end.

Definition updateRole (userId : ObjectId) (newRole : Roles.t) (actorId : ObjectId)
  : Async User.t :=
  user <- userRepository.findById userId ;;
  match user with
  | None => throw (EApi (ApiError.notFound "User not found"))
  | Some user =>
      (* Prevent demoting the last admin *)
      (if Roles.eqb (User.role user) Roles.ADMIN && negb (Roles.eqb newRole Roles.ADMIN)
       then
         roleCounts <- userRepository.countByRole ;;
         throwIf (leqOne (roleCounts Roles.ADMIN))
                 (EApi (ApiError.badRequest "Cannot demote the last admin user"))
       else ret tt) ;;
      let beforeRole := User.role user in
      updatedUser <- userRepository.updateById userId newRole ;;
      ActivityModel.log
        (ActivityModel.mkData "user.role_change" actorId "user" userId None
           ([("role", Some (roleString beforeRole))],
            [("role", Some (roleString newRole))]) []) ;;
      toJSON updatedUser
  end.

Definition deactivateUser (userId : ObjectId) (actorId : ObjectId) : Async unit :=
  user <- userRepository.findById userId ;;
  match user with
  | None => throw (EApi (ApiError.notFound "User not found"))
  | Some user =>
      (* Prevent deactivating the last admin *)
      (if Roles.eqb (User.role user) Roles.ADMIN
       then
         roleCounts <- userRepository.countByRole ;;
         throwIf (leqOne (roleCounts Roles.ADMIN))
                 (EApi (ApiError.badRequest "Cannot deactivate the last admin user"))
       else ret tt) ;;
      userRepository.softDelete userId ;;
      ActivityModel.log
        (ActivityModel.mkData "user.delete" actorId "user" userId None ([], []) []) ;;
      ret tt
  end.

Definition getUserById (userId : ObjectId) : Async User.t :=
  user <- userRepository.findById userId ;;
  match user with
  | None => throw (EApi (ApiError.notFound "User not found"))
  | Some user => ret user
  end.

Record userPage := mkPage {
  users : list User.t;
  total : nat;
  page : nat;
  limit : nat
}.

Definition listUsers (options : userRepository.options) : Async userPage :=
  found <- userRepository.findAll options ;;
  ret (mkPage (fst found) (snd found)
              (orDefault (userRepository.q_page options) 1)
              (orDefault (userRepository.q_limit options) 10)).

Record statistics := mkStatistics {
  statTotal : nat;
  byRole : Roles.t -> option nat
}.

Definition getStatistics : Async statistics :=
  roleCounts <- userRepository.countByRole ;;
  found <- userRepository.findAll
             (userRepository.mkOptions None (Some 1) None None None None None) ;;
  ret (mkStatistics (snd found) roleCounts).
End UserService.

(** ** projects/repositories/project.repository.js *)

Module projectRepository.
Definition hasId (id : ObjectId) (p : Project.t) : bool := Project._id p =? id.

Definition isUser (userId : ObjectId) (m : ProjectMember.t) : bool :=
  ProjectMember.user m =? userId.

Definition findById (id : ObjectId) : Async (option Project.t) :=
  db <- getDb ;;
  ret (find (hasId id) (Db.projects db)).

(** The body the update endpoint accepts; an absent field is [None]. *)
Record updateData := mkUpdate {
  name : option string;
  description : option string;
  status : option ProjectStatus.t;
  visibility : option Visibility.t
}.

(** The [trim] setters of the schema, which the model applies to the
    values of an update when it casts them. *)
Definition setters (u : updateData) : updateData :=
  mkUpdate (option_map trim (name u)) (option_map trim (description u))
           (status u) (visibility u).

(** The update validators ([runValidators: true]) on the paths an update
    sets: a name is required and at most 100 characters long, a
    description at most 1000. *)
Definition validUpdate (u : updateData) : bool :=
  match name u with
  | Some n => truthy n && Nat.leb (String.length n) 100
  | None => true
  end
  && match description u with
     | Some d => Nat.leb (String.length d) 1000
     | None => true
     end.

Definition applyUpdate (u : updateData) (now : Date) (p : Project.t) : Project.t :=
  Project.new (Project._id p)
    (orElse (name u) (Project.name p))
    (orElse (description u) (Project.description p))
    (Project.key p) (Project.owner p) (Project.members p)
    (orElse (status u) (Project.status p))
    (orElse (visibility u) (Project.visibility p))
    (Project.taskCount p) (Project.completedTaskCount p) now.

(** [Project.findByIdAndUpdate(id, updateData, { new: true, runValidators:
    true })]: the update is cast, validated and, if valid, written. *)
Definition updateById (id : ObjectId) (u : updateData) : Async (option Project.t) :=
  env <- getEnv ;;
  let u := setters u in
  throwIf (negb (validUpdate u)) (EValidation "Validation failed") ;;
  modifyDb (fun db =>
    Db.set_projects
      (updateFirst (hasId id) (applyUpdate u (Env.now env)) (Db.projects db)) db) ;;
  findById id.

(** [{ $pull: { members: { user: userId } } }]: every entry of the user
    is pulled; the schema's timestamps stamp [updatedAt] on the update. *)
Definition pullMember (userId : ObjectId) (now : Date) (p : Project.t) : Project.t :=
  Project.set_updatedAt now
    (Project.set_members
       (filter (fun m => negb (isUser userId m)) (Project.members p)) p).

Definition removeMember (projectId userId : ObjectId) : Async (option Project.t) :=
  env <- getEnv ;;
  modifyDb (fun db =>
    Db.set_projects
      (updateFirst (hasId projectId) (pullMember userId (Env.now env)) (Db.projects db))
      db) ;;
  findById projectId.

(** [{ $set: { 'members.$.role': newRole } }] on the first project that
    has the id and lists the user: the positional operator addresses the
    first matching entry; the schema's timestamps stamp [updatedAt]. *)
Definition setMemberRole (userId : ObjectId) (newRole : MemberRole.t) (now : Date)
           (p : Project.t) : Project.t :=
  Project.set_updatedAt now
    (Project.set_members
       (updateFirst (isUser userId) (ProjectMember.set_role newRole) (Project.members p))
       p).

Definition listsUser (projectId userId : ObjectId) (p : Project.t) : bool :=
  hasId projectId p && existsb (isUser userId) (Project.members p).

Definition updateMemberRole (projectId userId : ObjectId) (newRole : MemberRole.t)
  : Async (option Project.t) :=
  env <- getEnv ;;
  modifyDb (fun db =>
    Db.set_projects
      (updateFirst (listsUser projectId userId)
                   (setMemberRole userId newRole (Env.now env))
                   (Db.projects db)) db) ;;
  db <- getDb ;;
  ret (find (listsUser projectId userId) (Db.projects db)).

(** [Project.findOne({ key: key.toUpperCase() })]: the model casts the
    filter with the schema, so the [trim] and [uppercase] setters of the
    [key] path are applied to the value looked for. *)
Definition findByKey (key : string) : Async (option Project.t) :=
  db <- getDb ;;
  ret (find (fun p => Project.key p =? toUpperCase (trim (toUpperCase key)))
            (Db.projects db)).

(** What [create] is given: the validated body and the owner. *)
Record projectData := mkData {
  d_name : string;
  d_description : option string;
  d_key : string;
  d_visibility : option Visibility.t
}.

(** [new Project(projectData)]: the [trim] and [uppercase] setters and the
    schema defaults. *)
Definition construct (env : Env.t) (d : projectData) (owner : ObjectId) : Project.t :=
  Project.new (Env.newId env) (trim (d_name d)) (trim (orElse (d_description d) ""))
    (toUpperCase (trim (d_key d))) owner []
    ProjectStatus.active (orElse (d_visibility d) Visibility.private)
    0 0 (Env.now env).

(** The validators of the schema on the modelled paths. *)
Definition valid (p : Project.t) : bool :=
  truthy (Project.name p)
  && Nat.leb (String.length (Project.name p)) 100
  && Nat.leb (String.length (Project.description p)) 1000
  && Project.keyMatches (Project.key p).

(** [Project.create(projectData)]: construct, validate, insert under the
    unique indexes on [_id] and [key]. *)
Definition create (d : projectData) (owner : ObjectId) : Async Project.t :=
  env <- getEnv ;;
  let doc := construct env d owner in
  throwIf (negb (valid doc)) (EValidation "Project validation failed") ;;
  db <- getDb ;;
  throwIf (existsb (hasId (Project._id doc)) (Db.projects db)) (EDuplicateKey "_id") ;;
  throwIf (existsb (fun p => Project.key p =? Project.key doc) (Db.projects db))
          (EDuplicateKey "key") ;;
  modifyDb (fun db => Db.set_projects (Db.projects db ++ [doc])%list db) ;;
  ret doc.

(** [Project.findByIdAndDelete(id)] *)
Definition deleteById (id : ObjectId) : Async unit :=
  modifyDb (fun db => Db.set_projects (removeFirst (hasId id) (Db.projects db)) db).

(** The body of the add-member request, after validation has filled in
    the role. *)
Record memberData := mkMember {
  userId : ObjectId;
  role : MemberRole.t
}.

(** [{ $push: { members: { user, role, joinedAt: new Date() } } }]; the
    schema's timestamps stamp [updatedAt] on the update. *)
Definition pushMember (m : memberData) (now : Date) (p : Project.t) : Project.t :=
  Project.new (Project._id p) (Project.name p) (Project.description p) (Project.key p)
    (Project.owner p)
    (Project.members p ++ [ProjectMember.new (userId m) (role m) now])%list
    (Project.status p) (Project.visibility p) (Project.taskCount p)
    (Project.completedTaskCount p) now.

Definition addMember (projectId : ObjectId) (m : memberData) : Async (option Project.t) :=
  env <- getEnv ;;
  modifyDb (fun db =>
    Db.set_projects
      (updateFirst (hasId projectId) (pushMember m (Env.now env)) (Db.projects db)) db) ;;
  findById projectId.
End projectRepository.

(** ** projects/services/project.service.js *)

Module ProjectService.
Definition roleIsAdmin (r : option MemberRole.t) : bool :=
  match r with Some MemberRole.admin => true | _ => false end.

Definition roleString (r : MemberRole.t) : string :=
  match r with
  | MemberRole.owner => "owner"
  | MemberRole.admin => "admin"
  | MemberRole.member => "member"
  | MemberRole.viewer => "viewer"
  end.

Definition snapshotOfUpdate (u : projectRepository.updateData) : Activity.snapshot :=
  (match projectRepository.name u with Some v => [("name", Some v)] | None => [] end
   ++ match projectRepository.description u with
      | Some v => [("description", Some v)] | None => [] end
   ++ match projectRepository.status u with
      | Some v => [("status", Some (ProjectStatus.toString v))] | None => [] end
   ++ match projectRepository.visibility u with
      | Some v => [("visibility", Some (Visibility.toString v))] | None => [] end)%list.

Definition updateProject (projectId : ObjectId) (updateData : projectRepository.updateData)
           (userId : ObjectId) : Async Project.t :=
  project <- projectRepository.findById projectId ;;
  match project with
  | None => throw (EApi (ApiError.notFound "Project not found"))
  | Some project =>
      (* Check permission (owner or admin only) *)
      let memberRole := Project.getMemberRole project userId in
      throwIf (negb (Project.owner project =? userId) && negb (roleIsAdmin memberRole))
              (EApi (ApiError.forbidden
                       "Only project owner or admins can update the project")) ;;
      let beforeData :=
        [ ("name", Some (Project.name project));
          ("description", Some (Project.description project));
          ("status", Some (ProjectStatus.toString (Project.status project)));
          ("visibility", Some (Visibility.toString (Project.visibility project))) ] in
      updatedProject <- projectRepository.updateById projectId updateData ;;
      ActivityModel.log
        (ActivityModel.mkData "project.update" userId "project" projectId
           (Some projectId) (beforeData, snapshotOfUpdate updateData) []) ;;
      toJSON updatedProject
  end.

Definition removeMember (projectId memberId actorId : ObjectId) : Async Project.t :=
  project <- projectRepository.findById projectId ;;
  match project with
  | None => throw (EApi (ApiError.notFound "Project not found"))
  | Some project =>
      (* Check permission (owner or admin only, or self-removal) *)
      let actorRole := Project.getMemberRole project actorId in
      let isSelfRemoval := actorId =? memberId in
      throwIf (negb isSelfRemoval && negb (Project.owner project =? actorId)
               && negb (roleIsAdmin actorRole))
              (EApi (ApiError.forbidden
                       "Only project owner or admins can remove members")) ;;
      (* Cannot remove owner *)
      throwIf (Project.owner project =? memberId)
              (EApi (ApiError.badRequest "Cannot remove the project owner")) ;;
      (* Check if user is actually a member *)
      throwIf (negb (Project.isMember project memberId))
              (EApi (ApiError.notFound "User is not a member of this project")) ;;
      updatedProject <- projectRepository.removeMember projectId memberId ;;
      ActivityModel.log
        (ActivityModel.mkData "project.member_remove" actorId "project" projectId
           (Some projectId) ([], []) [("removedUserId", memberId)]) ;;
      toJSON updatedProject
  end.

Definition updateMemberRole (projectId memberId : ObjectId) (newRole : MemberRole.t)
           (actorId : ObjectId) : Async Project.t :=
  project <- projectRepository.findById projectId ;;
  match project with
  | None => throw (EApi (ApiError.notFound "Project not found"))
  | Some project =>
      (* Only owner can change roles *)
      throwIf (negb (Project.owner project =? actorId))
              (EApi (ApiError.forbidden
                       "Only the project owner can change member roles")) ;;
      (* Cannot change owner's role *)
      throwIf (Project.owner project =? memberId)
              (EApi (ApiError.badRequest "Cannot change the project owner's role")) ;;
      (* Check if user is actually a member *)
      match find (projectRepository.isUser memberId) (Project.members project) with
      | None => throw (EApi (ApiError.notFound "User is not a member of this project"))
      | Some member =>
          let beforeRole := ProjectMember.role member in
          updatedProject <- projectRepository.updateMemberRole projectId memberId newRole ;;
          ActivityModel.log
            (ActivityModel.mkData "project.member_role_change" actorId "project"
               projectId (Some projectId)
               ([("role", Some (roleString beforeRole))],
                [("role", Some (roleString newRole))])
               [("memberId", memberId)]) ;;
          toJSON updatedProject
      end
  end.

Definition createProject (projectData : projectRepository.projectData) (ownerId : ObjectId)
  : Async Project.t :=
  (* Check if key already exists *)
  existingProject <- projectRepository.findByKey (projectRepository.d_key projectData) ;;
  throwIf (isSome existingProject)
          (EApi (ApiError.conflict "Project key already exists")) ;;
  project <- projectRepository.create projectData ownerId ;;
  ActivityModel.log
    (ActivityModel.mkData "project.create" ownerId "project" (Project._id project)
       (Some (Project._id project)) ([], [])
       [ ("projectName", Project.name project); ("projectKey", Project.key project) ]) ;;
  ret project.

Definition deleteProject (projectId userId : ObjectId) : Async unit :=
  project <- projectRepository.findById projectId ;;
  match project with
  | None => throw (EApi (ApiError.notFound "Project not found"))
  | Some project =>
      (* Only owner can delete *)
      throwIf (negb (Project.owner project =? userId))
              (EApi (ApiError.forbidden "Only the project owner can delete the project")) ;;
      projectRepository.deleteById projectId ;;
      ActivityModel.log
        (ActivityModel.mkData "project.delete" userId "project" projectId None ([], [])
           [ ("projectName", Project.name project);
             ("projectKey", Project.key project) ]) ;;
      ret tt
  end.

Definition addMember (projectId : ObjectId) (memberData : projectRepository.memberData)
           (actorId : ObjectId) : Async Project.t :=
  project <- projectRepository.findById projectId ;;
  match project with
  | None => throw (EApi (ApiError.notFound "Project not found"))
  | Some project =>
      (* Check permission (owner or admin only) *)
      let actorRole := Project.getMemberRole project actorId in
      throwIf (negb (Project.owner project =? actorId) && negb (roleIsAdmin actorRole))
              (EApi (ApiError.forbidden "Only project owner or admins can add members")) ;;
      (* Check if user exists *)
      user <- userRepository.findById (projectRepository.userId memberData) ;;
      match user with
      | None => throw (EApi (ApiError.notFound "User not found"))
      | Some user =>
          (* Check if already a member *)
          throwIf (Project.isMember project (projectRepository.userId memberData))
                  (EApi (ApiError.conflict "User is already a member of this project")) ;;
          updatedProject <- projectRepository.addMember projectId memberData ;;
          ActivityModel.log
            (ActivityModel.mkData "project.member_add" actorId "project" projectId
               (Some projectId) ([], [])
               [ ("addedUserId", projectRepository.userId memberData);
                 ("addedUserName", User.fullName user);
                 ("role", roleString (projectRepository.role memberData)) ]) ;;
          toJSON updatedProject
      end
  end.
End ProjectService.

(** ** tasks/Task.model.js: the save middleware *)

Module TaskModel.
Definition hasId (id : ObjectId) (d : Task.t) : bool := Task._id d =? id.

Definition inProject (projectId : ObjectId) (d : Task.t) : bool :=
  Task.project d =? projectId.

(** [$inc: { taskCount: delta }]; the schema's timestamps stamp
    [updatedAt] on the update. *)
Definition addTaskCount (delta : Z) (now : Date) (p : Project.t) : Project.t :=
  Project.set_updatedAt now (Project.set_taskCount (Project.taskCount p + delta)%Z p).

(** [Project.findByIdAndUpdate(id, { $inc: { taskCount: delta } })] *)
Definition incTaskCount (projectId : ObjectId) (delta : Z) : Async unit :=
  env <- getEnv ;;
  modifyDb (fun db =>
    Db.set_projects
      (updateFirst (projectRepository.hasId projectId) (addTaskCount delta (Env.now env))
         (Db.projects db)) db).

(** First half of [taskSchema.pre('save')]: generate the task number. *)
Definition generateTaskNumber (isNew : bool) (doc : Task.t) : Async Task.t :=
  if isNew && negb (truthyOpt (Task.taskNumber doc)) then
    project <- projectRepository.findById (Task.project doc) ;;
    match project with
    | Some project =>
        db <- getDb ;;
        let count := countDocuments (inProject (Task.project doc)) (Db.tasks db) in
        (* Update project task count *)
        incTaskCount (Task.project doc) 1 ;;
        ret (Task.set_taskNumber
               (Some (Project.key project ++ "-" ++ showNat (count + 1))) doc)
    | None => ret doc
    end
  else ret doc.

(** Second half of [taskSchema.pre('save')]: track completion.
    [statusModified] is [this.isModified('status')]; a [Date] object is
    always truthy, so [!this.completedAt] holds exactly for [null]. *)
Definition trackCompletion (now : Date) (statusModified : bool) (doc : Task.t) : Task.t :=
  if statusModified then
    if Status.eqb (Task.status doc) Status.done && negb (isSome (Task.completedAt doc))
    then Task.set_completedAt (Some now) doc
    else if negb (Status.eqb (Task.status doc) Status.done)
         then Task.set_completedAt None doc
         else doc
  else doc.

(** [taskSchema.pre('save')] *)
Definition preSave (isNew statusModified : bool) (doc : Task.t) : Async Task.t :=
  doc <- generateTaskNumber isNew doc ;;
  env <- getEnv ;;
  ret (trackCompletion (Env.now env) statusModified doc).

(** What [Task.create] is given. *)
Record taskData := mkData {
  title : string;
  description : option string;
  project : ObjectId;
  assignee : option ObjectId;
  reporter : ObjectId;
  parentTask : option ObjectId;
  status : option Status.t;
  priority : option Priority.t;
  dueDate : option Date;
  estimatedHours : option nat
}.

(** [new Task(taskData)]: the [trim] setters are applied and the schema
    defaults fill the absent paths. *)
Definition construct (env : Env.t) (d : taskData) : Task.t :=
  Task.new (Env.newId env) (trim (title d))
    (trim (orElse (description d) ""))
    None (project d) (assignee d) (reporter d)
    (orElse (status d) Status.todo)
    (orElse (priority d) Priority.medium)
    (dueDate d) (estimatedHours d) (parentTask d)
    None (Env.now env) (Env.now env).

(** The [unique] indexes: [_id] and [taskNumber]. *)
Definition insert (doc : Task.t) : Async unit :=
  db <- getDb ;;
  throwIf (existsb (hasId (Task._id doc)) (Db.tasks db)) (EDuplicateKey "_id") ;;
  throwIf (existsb (fun d => optStringEqb (Task.taskNumber d) (Task.taskNumber doc))
                   (Db.tasks db))
          (EDuplicateKey "taskNumber") ;;
  modifyDb (fun db => Db.set_tasks (Db.tasks db ++ [doc])%list db).

(** The validators of the schema on [title] and [description]: a title
    is required and at most 200 characters long, a description at most
    5000. *)
Definition validText (title description : string) : bool :=
  truthy title
  && Nat.leb (String.length title) 200
  && Nat.leb (String.length description) 5000.

Definition valid (doc : Task.t) : bool :=
  validText (Task.title doc) (Task.description doc).

(** [Task.create(taskData)]: construct, validate, run the pre-save hook,
    insert.  On a new document [isModified('status')]
    holds when the status was given; a defaulted status is [todo], for
    which the hook leaves [completedAt] at [null] either way.  The
    post-save hook only rewrites the project's [completedTaskCount] and is
    not part of this model. *)
Definition create (d : taskData) : Async Task.t :=
  env <- getEnv ;;
  let doc := construct env d in
  throwIf (negb (valid doc)) (EValidation "Task validation failed") ;;
  doc <- preSave true (isSome (status d)) doc ;;
  insert doc ;;
  ret doc.
End TaskModel.

(** ** tasks/repositories/task.repository.js *)

Module taskRepository.
(** A task as returned with [populate: ['project']]: the reference is
    replaced by the project document, or by [null] if it is gone. *)
Record populated := mkPopulated {
  doc : Task.t;
  projectDoc : option Project.t
}.

Definition findById (id : ObjectId) : Async (option populated) :=
  db <- getDb ;;
  ret (match find (TaskModel.hasId id) (Db.tasks db) with
       | Some d =>
           Some (mkPopulated d
                   (find (projectRepository.hasId (Task.project d)) (Db.projects db)))
       | None => None
       end).

Definition create (d : TaskModel.taskData) : Async (option populated) :=
  task <- TaskModel.create d ;;
  findById (Task._id task).

(** The update document the service hands over: [assignee] is absent
    ([None]), [null] ([Some None]) or a user. *)
Record updateData := mkUpdate {
  title : option string;
  description : option string;
  assignee : option (option ObjectId);
  status : option Status.t;
  priority : option Priority.t;
  dueDate : option (option Date)
}.

(** The [trim] setters of the schema, which the model applies to the
    values of an update when it casts them. *)
Definition setters (u : updateData) : updateData :=
  mkUpdate (option_map trim (title u)) (option_map trim (description u))
           (assignee u) (status u) (priority u) (dueDate u).

(** The update validators ([runValidators: true]) on the paths an update
    sets: a title is required and at most 200 characters long, a
    description at most 5000. *)
Definition validUpdate (u : updateData) : bool :=
  match title u with
  | Some t => truthy t && Nat.leb (String.length t) 200
  | None => true
  end
  && match description u with
     | Some d => Nat.leb (String.length d) 5000
     | None => true
     end.

Definition applyUpdate (u : updateData) (now : Date) (d : Task.t) : Task.t :=
  Task.new (Task._id d)
    (orElse (title u) (Task.title d))
    (orElse (description u) (Task.description d))
    (Task.taskNumber d) (Task.project d)
    (orElse (assignee u) (Task.assignee d))
    (Task.reporter d)
    (orElse (status u) (Task.status d))
    (orElse (priority u) (Task.priority d))
    (orElse (dueDate u) (Task.dueDate d))
    (Task.estimatedHours d) (Task.parentTask d) (Task.completedAt d)
    (Task.createdAt d) now.

(** [Task.findByIdAndUpdate(id, updateData, { new: true, runValidators:
    true })].  This is a query, not [save()]: the document middleware of
    the schema is not run; the update is cast, validated and, if valid,
    the given paths are set in place. *)
Definition updateById (id : ObjectId) (u : updateData) : Async (option populated) :=
  env <- getEnv ;;
  let u := setters u in
  throwIf (negb (validUpdate u)) (EValidation "Validation failed") ;;
  modifyDb (fun db =>
    Db.set_tasks
      (updateFirst (TaskModel.hasId id) (applyUpdate u (Env.now env)) (Db.tasks db)) db) ;;
  findById id.

(** [Task.findByIdAndDelete(id)] *)
Definition deleteById (id : ObjectId) : Async unit :=
  modifyDb (fun db => Db.set_tasks (removeFirst (TaskModel.hasId id) (Db.tasks db)) db).

(** The paths [findAll] may sort by. *)
Inductive sortField := byCreatedAt | byDueDate | byPriority | byStatus | byTitle | byUpdatedAt.

(** The [status] option: one status or an array of them. *)
Inductive statusFilter := oneStatus (s : Status.t) | anyOf (l : list Status.t).

(** The options of [findAll]; the [type] option filters on a path the
    record leaves out and is not modelled. *)
Record options := mkOptions {
  q_page : option nat;
  q_limit : option nat;
  q_sortBy : option sortField;
  q_sortOrder : option string;
  q_projectId : option ObjectId;
  q_status : option statusFilter;
  q_priority : option Priority.t;
  q_assigneeId : option ObjectId;
  q_search : option string;
  q_overdue : option bool
}.

Definition keyLeb (f : sortField) (a b : Task.t) : bool :=
  match f with
  | byCreatedAt => Nat.leb (Task.createdAt a) (Task.createdAt b)
  | byDueDate => optDateLeb (Task.dueDate a) (Task.dueDate b)
  | byPriority =>
      String.leb (Priority.toString (Task.priority a)) (Priority.toString (Task.priority b))
  | byStatus =>
      String.leb (Status.toString (Task.status a)) (Status.toString (Task.status b))
  | byTitle => String.leb (Task.title a) (Task.title b)
  | byUpdatedAt => Nat.leb (Task.updatedAt a) (Task.updatedAt b)
  end.

(** [.sort({ [sortBy]: sortOrder === 'asc' ? 1 : -1 })] *)
Definition sortedBefore (f : sortField) (order : string) (a b : Task.t) : bool :=
  if order =? "asc" then keyLeb f a b else keyLeb f b a.

(** [overdue === true] *)
Definition wantsOverdue (o : options) : bool :=
  match q_overdue o with Some true => true | _ => false end.

(** [filter.status] as the options leave it: the [status] option, replaced
    by [{ $nin: ['done', 'cancelled'] }] when [overdue] is set. *)
Definition statusAllowed (o : options) (st : Status.t) : bool :=
  if wantsOverdue o
  then negb (Status.eqb st Status.done || Status.eqb st Status.cancelled)
  else match q_status o with
       | Some (oneStatus s') => Status.eqb st s'
       | Some (anyOf l) => existsb (Status.eqb st) l
       | None => true
       end.

(** [filter.dueDate = { $lt: new Date() }] when [overdue] is set; a task
    without due date does not compare below a date. *)
Definition dueAllowed (o : options) (now : Date) (due : option Date) : bool :=
  if wantsOverdue o
  then match due with Some d => Nat.ltb d now | None => false end
  else true.

(** The [filter] object built from the options. *)
Definition matchesFilter (o : options) (now : Date) (searchRegex : option RegExp.t)
           (d : Task.t) : bool :=
  (if truthyOpt (q_projectId o) then Task.project d =? orElse (q_projectId o) "" else true)
  && statusAllowed o (Task.status d)
  && match q_priority o with
     | Some p => Priority.eqb (Task.priority d) p
     | None => true
     end
  && (if truthyOpt (q_assigneeId o)
      then optStringEqb (Task.assignee d) (q_assigneeId o)
      else true)
  && dueAllowed o now (Task.dueDate d)
  && match searchRegex with
     | Some r =>
         RegExp.test r (Task.title d)
         || RegExp.test r (Task.description d)
         || match Task.taskNumber d with Some n => RegExp.test r n | None => false end
     | None => true
     end.

Definition findAll (o : options) : Async (list Task.t * nat) :=
  let page := orElse (q_page o) 1 in
  let limit := orElse (q_limit o) 10 in
  let field := orElse (q_sortBy o) byCreatedAt in
  let order := orElse (q_sortOrder o) "desc" in
  env <- getEnv ;;
  searchRegex <- compileSearch (q_search o) ;;
  skip <- skipOf page limit ;;
  db <- getDb ;;
  let matching := filter (matchesFilter o (Env.now env) searchRegex) (Db.tasks db) in
  ret (limitTo limit (skipn skip (sortBy (sortedBefore field order) matching)),
       List.length matching).

(** The [updates] of a bulk request.  [assigneeId] is accepted by the
    request schema but is no path of the task schema: the update never
    reaches [assignee]. *)
Record bulkUpdates := mkBulk {
  b_status : option Status.t;
  b_priority : option Priority.t;
  b_assigneeId : option (option ObjectId)
}.

Definition applyBulk (u : bulkUpdates) (now : Date) (d : Task.t) : Task.t :=
  Task.new (Task._id d) (Task.title d) (Task.description d) (Task.taskNumber d)
    (Task.project d) (Task.assignee d) (Task.reporter d)
    (orElse (b_status u) (Task.status d))
    (orElse (b_priority u) (Task.priority d))
    (Task.dueDate d) (Task.estimatedHours d) (Task.parentTask d) (Task.completedAt d)
    (Task.createdAt d) now.

(** Whether the update changes the document, which is what
    [modifiedCount] counts. *)
Definition changedBy (u : bulkUpdates) (now : Date) (d : Task.t) : bool :=
  negb (Status.eqb (orElse (b_status u) (Task.status d)) (Task.status d)
        && Priority.eqb (orElse (b_priority u) (Task.priority d)) (Task.priority d)
        && Nat.eqb now (Task.updatedAt d)).

(** [Task.updateMany({ _id: { $in: taskIds } }, { $set: updateData })]:
    every selected task is written, no document middleware runs. *)
Definition bulkUpdate (taskIds : list ObjectId) (u : bulkUpdates) : Async nat :=
  env <- getEnv ;;
  db <- getDb ;;
  let selected d := includes (Task._id d) taskIds in
  let modifiedCount :=
    countDocuments (fun d => selected d && changedBy u (Env.now env) d) (Db.tasks db) in
  modifyDb (fun db =>
    Db.set_tasks
      (map (fun d => if selected d then applyBulk u (Env.now env) d else d) (Db.tasks db))
      db) ;;
  ret modifiedCount.
End taskRepository.

(** ** tasks/services/task.service.js *)

Module TaskService.

Definition statusString (s : Status.t) : string :=
  match s with
  | Status.backlog => "backlog"
  | Status.todo => "todo"
  | Status.in_progress => "in_progress"
  | Status.in_review => "in_review"
  | Status.done => "done"
  | Status.cancelled => "cancelled"
  end.

Definition priorityString (p : Priority.t) : string :=
  match p with
  | Priority.low => "low"
  | Priority.medium => "medium"
  | Priority.high => "high"
  | Priority.urgent => "urgent"
  end.

(** [x || null] on an optional identifier. *)
Definition orNull (o : option ObjectId) : option ObjectId :=
  if truthyOpt o then o else None.

Record taskData := mkData {
  projectId : ObjectId;
  assigneeId : option ObjectId;
  parentTaskId : option ObjectId;
  (* ...rest *)
  title : string;
  description : option string;
  status : option Status.t;
  priority : option Priority.t;
  dueDate : option Date;
  estimatedHours : option nat
}.

Definition taskMetadata (d : Task.t) : list (string * string) :=
  [ ("taskNumber", orElse (Task.taskNumber d) "undefined");
    ("taskTitle", Task.title d) ].

Definition createTask (d : taskData) (reporterId : ObjectId) : Async Task.t :=
  (* Verify project exists and user has access *)
  project <- projectRepository.findById (projectId d) ;;
  match project with
  | None => throw (EApi (ApiError.notFound "Project not found"))
  | Some project =>
      throwIf (negb (Project.isMember project reporterId)
               && negb (Visibility.eqb (Project.visibility project) Visibility.public))
              (EApi (ApiError.forbidden "You do not have access to this project")) ;;
      (* Verify parent task if provided *)
      (if truthyOpt (parentTaskId d) then
         parentTask <- taskRepository.findById
                         (orElse (parentTaskId d) "") ;;
         match parentTask with
         | None => throw (EApi (ApiError.notFound "Parent task not found"))
         | Some parentTask =>
             throwIf (negb (Task.project (taskRepository.doc parentTask) =? projectId d))
                     (EApi (ApiError.badRequest
                              "Parent task must be in the same project"))
         end
       else ret tt) ;;
      task <- taskRepository.create
                (TaskModel.mkData (title d) (description d) (projectId d)
                   (orNull (assigneeId d)) reporterId (orNull (parentTaskId d))
                   (status d) (priority d) (dueDate d) (estimatedHours d)) ;;
      task <- toJSON task ;;
      ActivityModel.log
        (ActivityModel.mkData "task.create" reporterId "task"
           (Task._id (taskRepository.doc task)) (Some (projectId d)) ([], [])
           (taskMetadata (taskRepository.doc task))) ;;
      ret (taskRepository.doc task)
  end.

Definition getTaskById (taskId userId : ObjectId) : Async taskRepository.populated :=
  task <- taskRepository.findById taskId ;;
  match task with
  | None => throw (EApi (ApiError.notFound "Task not found"))
  | Some task => ret task
  end.

(** The body the update endpoint accepts.  [assigneeId] is absent
    ([None], JavaScript's [undefined]), [null] ([Some None]) or a user. *)
Record updateData := mkUpdate {
  u_title : option string;
  u_description : option string;
  u_assigneeId : option (option ObjectId);
  u_status : option Status.t;
  u_priority : option Priority.t;
  u_dueDate : option (option Date)
}.

Definition statusChanges (u : updateData) (task : Task.t) : bool :=
  match u_status u with
  | Some s => negb (Status.eqb s (Task.status task))
  | None => false
  end.

Definition priorityChanges (u : updateData) (task : Task.t) : bool :=
  match u_priority u with
  | Some p => negb (Priority.eqb p (Task.priority task))
  | None => false
  end.

(** "Determine action type based on changes": the three [if] statements
    in the order of the source, each overwriting [actionType] and
    extending [changes]. *)
Definition determineAction (u : updateData) (task : Task.t)
  : string * (Activity.snapshot * Activity.snapshot) :=
  let actionType := "task.update" in
  let before := [] in
  let after := [] in
  let '(actionType, before, after) :=
    if statusChanges u task then
      ("task.status_change",
       (before ++ [("status", Some (statusString (Task.status task)))])%list,
       (after ++ [("status", option_map statusString (u_status u))])%list)
    else (actionType, before, after) in
  let '(actionType, before, after) :=
    match u_assigneeId u with
    | Some assigneeId =>
        let actionType :=
          if truthyOpt assigneeId && negb (isSome (Task.assignee task))
          then "task.assign"
          else if negb (truthyOpt assigneeId) && isSome (Task.assignee task)
               then "task.unassign"
               else actionType in
        (actionType,
         (before ++ [("assignee", Task.assignee task)])%list,
         (after ++ [("assignee", assigneeId)])%list)
    | None => (actionType, before, after)
    end in
  let '(actionType, before, after) :=
    if priorityChanges u task then
      ("task.priority_change",
       (before ++ [("priority", Some (priorityString (Task.priority task)))])%list,
       (after ++ [("priority", option_map priorityString (u_priority u))])%list)
    else (actionType, before, after) in
  (actionType, (before, after)).

Definition actionType (u : updateData) (task : Task.t) : string :=
  fst (determineAction u task).

(** [updateData.assignee = updateData.assigneeId; delete
    updateData.assigneeId]: the object passed on to the repository. *)
Definition toRepositoryUpdate (u : updateData) : taskRepository.updateData :=
  taskRepository.mkUpdate (u_title u) (u_description u) (u_assigneeId u)
                          (u_status u) (u_priority u) (u_dueDate u).

(** [task.project._id] on a populated task. *)
Definition projectIdOf (task : taskRepository.populated) : Async ObjectId :=
  match taskRepository.projectDoc task with
  | Some p => ret (Project._id p)
  | None => throw (EDriver "TypeError: Cannot read properties of null (reading '_id')")
  end.

Definition updateTask (taskId : ObjectId) (u : updateData) (userId : ObjectId)
  : Async Task.t :=
  task <- taskRepository.findById taskId ;;
  match task with
  | None => throw (EApi (ApiError.notFound "Task not found"))
  | Some task =>
      let '(actionType, changes) := determineAction u (taskRepository.doc task) in
      updatedTask <- taskRepository.updateById taskId (toRepositoryUpdate u) ;;
      (* Log activity *)
      project <- projectIdOf task ;;
      ActivityModel.log
        (ActivityModel.mkData actionType userId "task" taskId (Some project) changes
           (taskMetadata (taskRepository.doc task))) ;;
      updatedTask <- toJSON updatedTask ;;
      ret (taskRepository.doc updatedTask)
  end.

Definition deleteTask (taskId userId : ObjectId) : Async unit :=
  task <- taskRepository.findById taskId ;;
  match task with
  | None => throw (EApi (ApiError.notFound "Task not found"))
  | Some task =>
      taskRepository.deleteById taskId ;;
      (* Update project task count *)
      project <- projectIdOf task ;;
      TaskModel.incTaskCount project (-1) ;;
      (* Log activity *)
      ActivityModel.log
        (ActivityModel.mkData "task.delete" userId "task" taskId (Some project) ([], [])
           (taskMetadata (taskRepository.doc task))) ;;
      ret tt
  end.

Record taskPage := mkPage {
  tasks : list Task.t;
  total : nat;
  page : nat;
  limit : nat
}.

Definition listTasks (options : taskRepository.options) : Async taskPage :=
  found <- taskRepository.findAll options ;;
  ret (mkPage (fst found) (snd found)
              (orDefault (taskRepository.q_page options) 1)
              (orDefault (taskRepository.q_limit options) 10)).

(** [{ ...options, assigneeId: userId }] *)
Definition withAssignee (userId : ObjectId) (o : taskRepository.options)
  : taskRepository.options :=
  taskRepository.mkOptions
    (taskRepository.q_page o) (taskRepository.q_limit o) (taskRepository.q_sortBy o)
    (taskRepository.q_sortOrder o) (taskRepository.q_projectId o)
    (taskRepository.q_status o) (taskRepository.q_priority o) (Some userId)
    (taskRepository.q_search o) (taskRepository.q_overdue o).

Definition getUserTasks (userId : ObjectId) (options : taskRepository.options)
  : Async taskPage :=
  listTasks (withAssignee userId options).

Definition bulkUpdateTasks (taskIds : list ObjectId) (updates : taskRepository.bulkUpdates)
           (userId : ObjectId) : Async nat :=
  modifiedCount <- taskRepository.bulkUpdate taskIds updates ;;
  ret modifiedCount.
End TaskService.

(** ** middleware/rbac.js and tasks/routes/task.routes.js

    [req.user] as the authentication middleware leaves it. *)

Module Middleware.
Record reqUser := mkUser { userId : ObjectId; role : Roles.t }.

Definition authorizeMinRole (minimumRole : Roles.t) (user : option reqUser) : Async unit :=
  match user with
  | None => throw (EApi (ApiError.unauthorized "Authentication required"))
  | Some user =>
      throwIf (Nat.ltb (Roles.indexOf (role user)) (Roles.indexOf minimumRole))
              (EApi (ApiError.forbidden "Access denied. Minimum required role"))
  end.

(** [authorize(...allowedRoles)] *)
Definition authorize (allowedRoles : list Roles.t) (user : option reqUser) : Async unit :=
  match user with
  | None => throw (EApi (ApiError.unauthorized "Authentication required"))
  | Some user =>
      throwIf (negb (existsb (Roles.eqb (role user)) allowedRoles))
              (EApi (ApiError.forbidden "Access denied. Required role"))
  end.
End Middleware.

Module TaskRoutes.
Import Middleware.

(** [router.post('/', authorizeMinRole(Roles.MEMBER), ..., createTask)] *)
Definition post (user : reqUser) (body : TaskService.taskData) : Async Task.t :=
  authorizeMinRole Roles.MEMBER (Some user) ;;
  TaskService.createTask body (userId user).

(** [router.get('/:id', ..., getTaskById)] *)
Definition getById (user : reqUser) (id : ObjectId) : Async taskRepository.populated :=
  TaskService.getTaskById id (userId user).

(** [router.patch('/:id', ..., updateTask)] *)
Definition patch (user : reqUser) (id : ObjectId) (body : TaskService.updateData)
  : Async Task.t :=
  TaskService.updateTask id body (userId user).

(** [router.delete('/:id', ..., deleteTask)] *)
Definition delete (user : reqUser) (id : ObjectId) : Async unit :=
  TaskService.deleteTask id (userId user).

(** [router.patch('/bulk', authorizeMinRole(Roles.MEMBER), ..., bulkUpdateTasks)] *)
Definition patchBulk (user : reqUser) (taskIds : list ObjectId)
           (updates : taskRepository.bulkUpdates) : Async nat :=
  authorizeMinRole Roles.MEMBER (Some user) ;;
  TaskService.bulkUpdateTasks taskIds updates (userId user).

(** [router.get('/', ..., listTasks)] *)
Definition list (user : reqUser) (query : taskRepository.options)
  : Async TaskService.taskPage :=
  TaskService.listTasks query.

(** [router.get('/my-tasks', ..., getMyTasks)] *)
Definition myTasks (user : reqUser) (query : taskRepository.options)
  : Async TaskService.taskPage :=
  TaskService.getUserTasks (userId user) query.
End TaskRoutes.

(** ** users/routes/user.routes.js and projects/routes/project.routes.js *)

Module UserRoutes.
Import Middleware.

(** [router.patch('/:id/role', ..., authorize(Roles.ADMIN), ..., updateRole)] *)
Definition patchRole (user : reqUser) (id : ObjectId) (newRole : Roles.t) : Async User.t :=
  authorize [Roles.ADMIN] (Some user) ;;
  UserService.updateRole id newRole (userId user).

(** [router.delete('/:id', ..., authorize(Roles.ADMIN), deactivateUser)] *)
Definition delete (user : reqUser) (id : ObjectId) : Async unit :=
  authorize [Roles.ADMIN] (Some user) ;;
  UserService.deactivateUser id (userId user).

(** [router.get('/statistics', authorize(Roles.ADMIN), getStatistics)] *)
Definition statistics (user : reqUser) : Async UserService.statistics :=
  authorize [Roles.ADMIN] (Some user) ;;
  UserService.getStatistics.
End UserRoutes.

Module ProjectRoutes.
Import Middleware.

(** [router.post('/', authorizeMinRole(Roles.MEMBER), ..., createProject)] *)
Definition post (user : reqUser) (body : projectRepository.projectData) : Async Project.t :=
  authorizeMinRole Roles.MEMBER (Some user) ;;
  ProjectService.createProject body (userId user).

(** [router.delete('/:id', ..., deleteProject)] *)
Definition delete (user : reqUser) (id : ObjectId) : Async unit :=
  ProjectService.deleteProject id (userId user).

(** [router.post('/:id/members', ..., addMember)] *)
Definition postMember (user : reqUser) (id : ObjectId)
           (body : projectRepository.memberData) : Async Project.t :=
  ProjectService.addMember id body (userId user).
End ProjectRoutes.

(** ** search/services/search.service.js

    [.select] and [.populate] shape the fields of a returned document and
    leave the set and order of the returned documents alone; the model
    returns the documents themselves. *)

Module SearchService.
Record options := mkOptions { scope : option string; limit : option nat }.

Record resultsByType := mkResults {
  tasks : option (list Task.t);
  projects : option (list Project.t);
  users : option (list User.t);
  comments : option (list Comment.t)
}.

Record response := mkResponse {
  query : string;
  totalCount : nat;
  results : resultsByType
}.

(** [{ field: searchRegex }] on a string path that may be missing. *)
Definition regexOpt (searchRegex : RegExp.t) (v : option string) : bool :=
  match v with
  | Some s => RegExp.test searchRegex s
  | None => false
  end.

Definition taskMatches (searchRegex : RegExp.t) (d : Task.t) : bool :=
  RegExp.test searchRegex (Task.title d)
  || RegExp.test searchRegex (Task.description d)
  || regexOpt searchRegex (Task.taskNumber d).

Definition _searchTasks (searchRegex : RegExp.t) (limit : nat) : Async (list Task.t) :=
  db <- getDb ;;
  ret (limitTo limit
         (sortBy (fun a b => Nat.leb (Task.updatedAt b) (Task.updatedAt a))
            (filter (taskMatches searchRegex) (Db.tasks db)))).

Definition projectMatches (searchRegex : RegExp.t) (p : Project.t) : bool :=
  RegExp.test searchRegex (Project.name p)
  || RegExp.test searchRegex (Project.description p)
  || RegExp.test searchRegex (Project.key p).

Definition projectVisibleTo (userId : ObjectId) (p : Project.t) : bool :=
  Visibility.eqb (Project.visibility p) Visibility.public
  || (Project.owner p =? userId)
  || existsb (projectRepository.isUser userId) (Project.members p).

Definition _searchProjects (searchRegex : RegExp.t) (limit : nat) (userId : ObjectId)
  : Async (list Project.t) :=
  db <- getDb ;;
  ret (limitTo limit
         (sortBy (fun a b => Nat.leb (Project.updatedAt b) (Project.updatedAt a))
            (filter (fun p => projectMatches searchRegex p && projectVisibleTo userId p)
                    (Db.projects db)))).

Definition userMatches (searchRegex : RegExp.t) (u : User.t) : bool :=
  User.isActive u
  && (RegExp.test searchRegex (User.firstName u)
      || RegExp.test searchRegex (User.lastName u)
      || RegExp.test searchRegex (User.email u)).

Definition _searchUsers (searchRegex : RegExp.t) (limit : nat) : Async (list User.t) :=
  db <- getDb ;;
  ret (limitTo limit
         (sortBy (fun a b => String.leb (User.firstName a) (User.firstName b))
            (filter (userMatches searchRegex) (Db.users db)))).

Definition commentMatches (searchRegex : RegExp.t) (c : Comment.t) : bool :=
  RegExp.test searchRegex (Comment.content c) && negb (Comment.isDeleted c).

Definition _searchComments (searchRegex : RegExp.t) (limit : nat)
  : Async (list Comment.t) :=
  db <- getDb ;;
  ret (limitTo limit
         (sortBy (fun a b => Nat.leb (Comment.createdAt b) (Comment.createdAt a))
            (filter (commentMatches searchRegex) (Db.comments db)))).

Definition inScope (scope name : string) : bool :=
  (scope =? "all") || (scope =? name).

(** [if (scope === 'all' || scope === name) results[name] = await search] *)
Definition branch {A} (scope name : string) (search : Async (list A))
  : Async (option (list A)) :=
  if inScope scope name then (r <- search ;; ret (Some r)) else ret None.

Definition lengthOf {A} (o : option (list A)) : nat :=
  match o with Some l => List.length l | None => 0 end.

Definition globalSearch (query : string) (opts : options) (userId : ObjectId)
  : Async response :=
  let scope := orElse (scope opts) "all" in
  let limit := orElse (limit opts) 10 in
  match RegExp.compile query with
  | None => throw (EDriver "SyntaxError: Invalid regular expression")
  | Some searchRegex =>
      tasks <- branch scope "tasks" (_searchTasks searchRegex limit) ;;
      projects <- branch scope "projects" (_searchProjects searchRegex limit userId) ;;
      users <- branch scope "users" (_searchUsers searchRegex limit) ;;
      comments <- branch scope "comments" (_searchComments searchRegex limit) ;;
      (* Calculate total results count *)
      let totalCount :=
        (lengthOf tasks + lengthOf projects + lengthOf users + lengthOf comments)%nat in
      ret (mkResponse query totalCount (mkResults tasks projects users comments))
  end.
End SearchService.

(** ** Literal search, as the specification words it

    "case-insensitive substring match across task title/description/number":
    the reading of the query as a plain string, to compare
    [SearchService._searchTasks] with. *)

Module LiteralSearch.
Definition lower (s : string) : string :=
  string_of_list_ascii (map RegExp.toLower (list_ascii_of_string s)).

Fixpoint startsWith (q s : string) : bool :=
  match q, s with
  | EmptyString, _ => true
  | String a q', String b s' => Ascii.eqb a b && startsWith q' s'
  | String _ _, EmptyString => false
  end.

Fixpoint contains (q s : string) : bool :=
  startsWith q s
  || match s with
     | EmptyString => false
     | String _ s' => contains q s'
     end.

(** [s] contains [q], ignoring case. *)
Definition containsCI (q s : string) : bool := contains (lower q) (lower s).

Definition taskMatches (q : string) (d : Task.t) : bool :=
  containsCI q (Task.title d)
  || containsCI q (Task.description d)
  || match Task.taskNumber d with Some n => containsCI q n | None => false end.

Definition searchTasks (q : string) (limit : nat) (db : Db.t) : list Task.t :=
  limitTo limit
    (sortBy (fun a b => Nat.leb (Task.updatedAt b) (Task.updatedAt a))
       (filter (taskMatches q) (Db.tasks db))).
End LiteralSearch.

(** * Scenarios and auxiliary notions

    The concrete stores, requests and derived notions the properties are
    stated with. *)

(** A project whose members list stores the role [owner] for a user other
    than the owner; the [role] enum of [projectMemberSchema] admits it. *)
Definition coOwnedProject : Project.t :=
  Project.new "p1" "Apollo" "" "APO" "u1"
    [ ProjectMember.new "u2" MemberRole.owner 5;
      ProjectMember.new "u3" MemberRole.viewer 6 ]
    ProjectStatus.active Visibility.private 0 0 7.

(** The number of active users whose system role is [admin]. *)
Definition activeAdmins (db : Db.t) : nat :=
  countDocuments (userRepository.activeWithRole Roles.ADMIN) (Db.users db).

(** A system with a single active admin ["a1"] and one member. *)
Definition soleAdminDb : Db.t :=
  Db.new
    [ User.new "a1" "root@example.com" "Ada" "Root" Roles.ADMIN true 1;
      User.new "m1" "mem@example.com" "Max" "Member" Roles.MEMBER true 2 ]
    [] [] [] [].

(** A request during which the activities collection accepts writes. *)
Definition quietEnv : Env.t := Env.new 100 "n1" false.

(** Two active admins: the guard lets the demotion of one of them through. *)
Definition twoAdminsDb : Db.t :=
  Db.new
    [ User.new "a1" "root@example.com" "Ada" "Root" Roles.ADMIN true 1;
      User.new "a2" "ops@example.com" "Bob" "Ops" Roles.ADMIN true 2 ]
    [] [] [] [].

(** A private project of ["u1"] with an admin ["u2"] and a viewer ["u3"]. *)
Definition teamProject : Project.t :=
  Project.new "p1" "Apollo" "" "APO" "u1"
    [ ProjectMember.new "u2" MemberRole.admin 5;
      ProjectMember.new "u3" MemberRole.viewer 6 ]
    ProjectStatus.active Visibility.private 0 0 7.

(** A store that holds [teamProject] only. *)
Definition teamDb : Db.t := Db.new [] [teamProject] [] [] [].

(** The tag the assignee part of a patch asks for: [task.assign] when a
    user is given to an unassigned task, [task.unassign] when a falsy
    assignee is given to an assigned task, none otherwise. *)
Definition assignmentTag (u : TaskService.updateData) (task : Task.t) : option string :=
  match TaskService.u_assigneeId u with
  | Some assigneeId =>
      if truthyOpt assigneeId && negb (isSome (Task.assignee task)) then Some "task.assign"
      else if negb (truthyOpt assigneeId) && isSome (Task.assignee task)
           then Some "task.unassign"
           else None
  | None => None
  end.

(** An unassigned, medium-priority task in [todo]. *)
Definition openTask : Task.t :=
  Task.new "t1" "Write report" "" (Some "APO-1") "p1" None "u1"
           Status.todo Priority.medium None None None None 10 10.

(** A patch that assigns ["u2"] and raises the priority. *)
Definition assignAndEscalate : TaskService.updateData :=
  TaskService.mkUpdate None None (Some (Some "u2")) None (Some Priority.high) None.

(** A request during which the write to the activities collection fails. *)
Definition failingAuditEnv : Env.t := Env.new 100 "n1" true.

(** The error the failing append rejects with. *)
Definition auditError : Error := EDriver "activity write failed".



(** The patch of a task passes the update validators once the setters
    have trimmed it. *)
Definition taskPatchValid (u : TaskService.updateData) : bool :=
  taskRepository.validUpdate (taskRepository.setters (TaskService.toRepositoryUpdate u)).




(** Likewise for [updateRole]. *)
Definition roleUpdated (userId : ObjectId) (newRole : Roles.t) (db : Db.t) : Db.t :=
  Db.set_users
    (updateFirst (userRepository.hasId userId) (User.set_role newRole) (Db.users db)) db.

(** [teamProject] with its one task [openTask]. *)
Definition taskDb : Db.t := Db.new [] [teamProject] [openTask] [] [].

(** A patch that only sets the status to [in_review]. *)
Definition moveToReview : TaskService.updateData :=
  TaskService.mkUpdate None None None (Some Status.in_review) None None.

(** A fresh project with key ["ABC"], owned by ["u1"]. *)
Definition abcProject : Project.t :=
  Project.new "pA" "Alphabet" "" "ABC" "u1" [] ProjectStatus.active Visibility.private 0 0 1.

(** A store that holds [abcProject] and no task. *)
Definition abcDb : Db.t := Db.new [] [abcProject] [] [] [].

(** A creation request for [abcProject] that only gives a title. *)
Definition newTask (title : string) : TaskService.taskData :=
  TaskService.mkData "pA" None None title None None None None None.

(** The request environment in which the driver hands out [id]. *)
Definition envWithId (id : ObjectId) : Env.t := Env.new 100 id false.

(** The store after a request. *)
Definition after {A} (m : Async A) (env : Env.t) (db : Db.t) : Db.t := fst (m env db).

(** The task numbers in the store, in insertion order. *)
Definition taskNumbers (db : Db.t) : list (option string) :=
  map Task.taskNumber (Db.tasks db).

(** Three tasks created one after the other in the fresh project. *)
Definition abcThree : Db.t :=
  after (TaskService.createTask (newTask "third") "u1") (envWithId "t3")
    (after (TaskService.createTask (newTask "second") "u1") (envWithId "t2")
       (after (TaskService.createTask (newTask "first") "u1") (envWithId "t1") abcDb)).

(** Two tasks created one after the other in the fresh project. *)
Definition abcTwo : Db.t :=
  after (TaskService.createTask (newTask "second") "u1") (envWithId "t2")
    (after (TaskService.createTask (newTask "first") "u1") (envWithId "t1") abcDb).

(** An authenticated user with the lowest system role who is neither the
    owner nor a member of the private project ["p1"]. *)
Definition stranger : Middleware.reqUser := Middleware.mkUser "u9" Roles.VIEWER.

(** The same stranger holding the member system role. *)
Definition strangerMember : Middleware.reqUser := Middleware.mkUser "u9" Roles.MEMBER.

(** Patches that only set the status. *)
Definition moveToDone : TaskService.updateData :=
  TaskService.mkUpdate None None None (Some Status.done) None None.

Definition moveToTodo : TaskService.updateData :=
  TaskService.mkUpdate None None None (Some Status.todo) None None.

(** A task created in [done]: the hook ran on creation and stamped it. *)
Definition createdDone : Db.t :=
  after (TaskService.createTask
           (TaskService.mkData "pA" None None "shipped" None (Some Status.done)
                               None None None) "u1")
        (envWithId "t1") abcDb.

(** A private project of ["u1"] holding one task, and a searcher ["u9"]
    with no role in it. *)
Definition secretTask : Task.t :=
  Task.new "t7" "Quarterly report" "figures for the board" (Some "APO-7") "p1" None "u1"
           Status.todo Priority.high None None None None 20 30.

(** [teamProject] with its one task [secretTask]. *)
Definition secretDb : Db.t := Db.new [] [teamProject] [secretTask] [] [].

(** Three tasks whose titles tell a pattern from a literal query. *)
Definition patternDb : Db.t :=
  Db.new [] [teamProject]
    [ Task.new "t1" "ARC welding" "" (Some "APO-1") "p1" None "u1"
               Status.todo Priority.medium None None None None 1 1;
      Task.new "t2" "yellow paint" "" (Some "APO-2") "p1" None "u1"
               Status.todo Priority.medium None None None None 2 2;
      Task.new "t3" "compute a+b" "" (Some "APO-3") "p1" None "u1"
               Status.todo Priority.medium None None None None 3 3 ]
    [] [].

(** The identifiers of the tasks the global search returns for a query
    with scope ["tasks"]. *)
Definition searchedTaskIds (query : string) (db : Db.t) : option (list ObjectId) :=
  match snd (SearchService.globalSearch query
               (SearchService.mkOptions (Some "tasks") None) "u1" quietEnv db) with
  | Resolved resp =>
      option_map (map Task._id) (SearchService.tasks (SearchService.results resp))
  | Rejected _ => None
  end.

(** The identifiers of the tasks that contain the query as a substring. *)
Definition literalTaskIds (query : string) (db : Db.t) : list ObjectId :=
  map Task._id (LiteralSearch.searchTasks query 10 db).

(** The task number [key-i]. *)
Definition numberOf (key : string) (i : nat) : option string :=
  Some (key ++ "-" ++ showNat i).

(** A creation request that only names the project and the title. *)
Definition plainTask (projectId : ObjectId) (title : string) : TaskService.taskData :=
  TaskService.mkData projectId None None title None None None None None.

(** Tasks created one after the other by [reporterId] in one project:
    each request gives the title and the identifier the driver generates. *)
Definition createAll (projectId reporterId : ObjectId) (now : Date)
           (reqs : list (string * ObjectId)) (db : Db.t) : Db.t :=
  fold_left
    (fun db req =>
       after (TaskService.createTask (plainTask projectId (fst req)) reporterId)
             (Env.new now (snd req) false) db)
    reqs db.

(** The project after [{ $inc: { taskCount: 1 } }] at time [now]. *)
Definition bumpTaskCount (now : Date) (p : Project.t) : Project.t :=
  TaskModel.addTaskCount 1 now p.

(** The text of a creation request passes the validators of the task
    schema once the setters have trimmed it. *)
Definition accepted (d : TaskService.taskData) : bool :=
  TaskModel.validText (trim (TaskService.title d))
                      (trim (orElse (TaskService.description d) "")).

(** ** Further notions and stores *)

(** The users listed in the members array of a project. *)
Definition memberUsers (p : Project.t) : list ObjectId :=
  map ProjectMember.user (Project.members p).

(** No user is listed twice and the owner is not listed. *)
Definition wellFormed (p : Project.t) : Prop :=
  NoDup (memberUsers p) /\ ~ In (Project.owner p) (memberUsers p).

(** An identifier written the way the store prints it, without upper-case
    letters.  The store reads the identifiers of a request in either
    letter case, while [isMember] and [getMemberRole] compare printed
    forms; on identifiers written this way the two agree. *)
Definition printed (id : ObjectId) : bool :=
  forallb (fun c => negb (isUpper c)) (list_ascii_of_string id).

(** The number a role maps to in the object [countByRole] returns, read as
    [counts[role] || 0]. *)
Definition countOf (counts : Roles.t -> option nat) (r : Roles.t) : nat :=
  orElse (counts r) 0.


(** The query [{ ...o, status: s }]. *)
Definition withStatus (s : option taskRepository.statusFilter) (o : taskRepository.options)
  : taskRepository.options :=
  taskRepository.mkOptions
    (taskRepository.q_page o) (taskRepository.q_limit o) (taskRepository.q_sortBy o)
    (taskRepository.q_sortOrder o) (taskRepository.q_projectId o)
    s (taskRepository.q_priority o)
    (taskRepository.q_assigneeId o) (taskRepository.q_search o)
    (taskRepository.q_overdue o).

(** The tasks of a listing, nothing when the request rejected. *)
Definition listed (r : Db.t * Outcome TaskService.taskPage) : list Task.t :=
  match snd r with
  | Resolved pg => TaskService.tasks pg
  | Rejected _ => []
  end.


(** The query [{ overdue: true }]. *)
Definition overdueOnly : taskRepository.options :=
  taskRepository.mkOptions None None None None None None None None None (Some true).

(** What a request did to the audit log: one entry by [actor] about
    [entityType] appended when it resolved, nothing when it rejected. *)
Definition auditedBy {A} (actor : ObjectId) (entityType : string) (db : Db.t)
           (r : Db.t * Outcome A) : Prop :=
  match snd r with
  | Resolved _ =>
      exists a, Db.activities (fst r) = (Db.activities db ++ [a])%list
                /\ Activity.actor a = actor
                /\ Activity.entityType a = entityType
  | Rejected _ => Db.activities (fst r) = Db.activities db
  end.

(** How far the [taskCount] of a project is ahead of the number of tasks
    the store holds for it; [None] when the project does not exist. *)
Definition drift (db : Db.t) (projectId : ObjectId) : option Z :=
  option_map
    (fun p => (Project.taskCount p
               - Z.of_nat (countDocuments (TaskModel.inProject projectId) (Db.tasks db)))%Z)
    (find (projectRepository.hasId projectId) (Db.projects db)).

(** The store after [{ $inc: { taskCount: 1 } }] on a project at time
    [now]. *)
Definition counted (now : Date) (projectId : ObjectId) (db : Db.t) : Db.t :=
  Db.set_projects
    (updateFirst (projectRepository.hasId projectId) (bumpTaskCount now) (Db.projects db))
    db.

(** The document [createTask] hands to the store for a project [p]: the
    constructed task after the pre-save hook has numbered and stamped it. *)
Definition newDocument (env : Env.t) (db : Db.t) (d : TaskService.taskData)
           (reporterId : ObjectId) (p : Project.t) : Task.t :=
  TaskModel.trackCompletion (Env.now env) (isSome (TaskService.status d))
    (Task.set_taskNumber
       (numberOf (Project.key p)
          (countDocuments (TaskModel.inProject (TaskService.projectId d)) (Db.tasks db) + 1))
       (TaskModel.construct env
          (TaskModel.mkData (TaskService.title d) (TaskService.description d)
             (TaskService.projectId d) (TaskService.orNull (TaskService.assigneeId d))
             reporterId (TaskService.orNull (TaskService.parentTaskId d))
             (TaskService.status d) (TaskService.priority d) (TaskService.dueDate d)
             (TaskService.estimatedHours d)))).

(** The parent check of [createTask] passes: no parent is given, or the
    parent exists and belongs to the same project. *)
Definition parentAccepted (db : Db.t) (d : TaskService.taskData) : bool :=
  if truthyOpt (TaskService.parentTaskId d)
  then match find (TaskModel.hasId (orElse (TaskService.parentTaskId d) "")) (Db.tasks db) with
       | Some parent => Task.project parent =? TaskService.projectId d
       | None => false
       end
  else true.

(** The access check of [createTask] passes. *)
Definition mayCreateIn (p : Project.t) (reporterId : ObjectId) : bool :=
  Project.isMember p reporterId || Visibility.eqb (Project.visibility p) Visibility.public.

(** The strings a pattern matches as a whole, under the [i] flag. *)
Inductive Matches : RegExp.t -> string -> Prop :=
| MEps : Matches RegExp.Eps ""
| MChr c x : RegExp.toLower c = RegExp.toLower x -> Matches (RegExp.Chr c) (String x "")
| MDot x : RegExp.isLineTerminator x = false -> Matches RegExp.Dot (String x "")
| MAltL a b s : Matches a s -> Matches (RegExp.Alt a b) s
| MAltR a b s : Matches b s -> Matches (RegExp.Alt a b) s
| MCat a b s1 s2 : Matches a s1 -> Matches b s2 -> Matches (RegExp.Cat a b) (s1 ++ s2)
| MStar0 a : Matches (RegExp.Star a) ""
| MStarS a s1 s2 :
    Matches a s1 -> Matches (RegExp.Star a) s2 -> Matches (RegExp.Star a) (s1 ++ s2).

(** A query in which every character stands for itself. *)
Definition isPlain (query : string) : bool :=
  forallb (fun c => negb (RegExp.isSyntaxChar c)) (list_ascii_of_string query).

(** The pattern a plain query compiles to: its characters in sequence. *)
Definition literal (cs : list ascii) : RegExp.t :=
  fold_left (fun acc c => RegExp.Cat acc (RegExp.Chr c)) cs RegExp.Eps.

(** [teamProject] together with its three users and a fourth user, ["u4"],
    who has been deactivated. *)
Definition staffedDb : Db.t :=
  Db.new
    [ User.new "u1" "olga@example.com" "Olga" "Owner" Roles.MEMBER true 1;
      User.new "u2" "adam@example.com" "Adam" "Admin" Roles.MEMBER true 2;
      User.new "u3" "vera@example.com" "Vera" "Viewer" Roles.VIEWER true 3;
      User.new "u4" "nick@example.com" "Nick" "Newcomer" Roles.MEMBER false 4 ]
    [teamProject] [] [] [].

(** A request to add ["u4"] as a plain member. *)
Definition addNewcomer : projectRepository.memberData :=
  projectRepository.mkMember "u4" MemberRole.member.

(** A creation request whose name and key are padded and in lower case. *)
Definition launchData : projectRepository.projectData :=
  projectRepository.mkData " Launch pad " None " lp1 " None.

(** The project the store holds for [launchData] when ["u1"] creates it. *)
Definition launchProject : Project.t :=
  Project.new "n1" "Launch pad" "" "LP1" "u1" [] ProjectStatus.active Visibility.private
              0 0 100.

(** A creation request for the key of [teamProject], padded and in lower
    case, with a blank name. *)
Definition apolloAgain : projectRepository.projectData :=
  projectRepository.mkData "  " None " apo " None.




(** Four tasks of [teamProject]: two open ones past their due date, one
    done past its due date, one without due date. *)
Definition dueDb : Db.t :=
  Db.new [] [teamProject]
    [ Task.new "t1" "late" "" (Some "APO-1") "p1" (Some "u2") "u1"
               Status.todo Priority.medium (Some 50) None None None 1 1;
      Task.new "t2" "later" "" (Some "APO-2") "p1" (Some "u3") "u1"
               Status.in_progress Priority.high (Some 60) None None None 2 2;
      Task.new "t3" "closed" "" (Some "APO-3") "p1" (Some "u2") "u1"
               Status.done Priority.low (Some 40) None None (Some 45) 3 3;
      Task.new "t4" "someday" "" (Some "APO-4") "p1" None "u1"
               Status.todo Priority.low None None None None 4 4 ]
    [] [].


(** An overdue listing that also asks for the status [done]. *)
Definition overdueAndDone : taskRepository.options :=
  taskRepository.mkOptions None None None None None
    (Some (taskRepository.oneStatus Status.done)) None None None (Some true).

(** A listing that asks for the tasks of ["u3"]. *)
Definition tasksOfU3 : taskRepository.options :=
  taskRepository.mkOptions None None None None None None None (Some "u3") None None.

(** [abcThree] after its second task has been deleted. *)
Definition abcGap : Db.t := after (TaskService.deleteTask "t2" "u1") quietEnv abcThree.

(** * Properties *)

Unset Implicit Arguments.

(** Unfolding of the monad and of the store accessors. *)
Ltac run :=
  cbv beta iota delta
    [bind ret throw throwIf getDb getEnv modifyDb toJSON
     userRepository.findById userRepository.updateById userRepository.softDelete
     userRepository.countByRole
     projectRepository.findById projectRepository.updateById
     projectRepository.removeMember projectRepository.updateMemberRole
     taskRepository.findById taskRepository.updateById taskRepository.deleteById
     ActivityModel.log ActivityModel.create].

(** [countDocuments] is kept folded so that hypotheses about counts apply,
    and so are the validators. *)
Arguments countDocuments : simpl never.
Arguments projectRepository.validUpdate : simpl never.
Arguments taskRepository.validUpdate : simpl never.
Arguments TaskModel.validText : simpl never.
Arguments TaskModel.valid : simpl never.

(** ** Basic facts about the enumerations and the driver primitives *)

Lemma Roles_eqb_eq a b : Roles.eqb a b = true <-> a = b.
Proof. destruct a, b; simpl; split; congruence. Qed.

Lemma Roles_eqb_neq a b : Roles.eqb a b = false <-> a <> b.
Proof. destruct a, b; simpl; split; congruence. Qed.

Lemma Status_eqb_eq a b : Status.eqb a b = true <-> a = b.
Proof. destruct a, b; simpl; split; congruence. Qed.

Lemma Status_eqb_neq a b : Status.eqb a b = false <-> a <> b.
Proof. destruct a, b; simpl; split; congruence. Qed.

Lemma Priority_eqb_eq a b : Priority.eqb a b = true <-> a = b.
Proof. destruct a, b; simpl; split; congruence. Qed.

Section Collections.
Context {A : Type}.
Variable p : A -> bool.
Variable f : A -> A.

(** The update keeps the selector: it never rewrites [_id]. *)
Hypothesis keeps : forall x, p (f x) = p x.

Lemma find_updateFirst (l : list A) :
  find p (updateFirst p f l) = option_map f (find p l).
Proof using keeps.
  induction l as [|x r IH]; simpl; [reflexivity|].
  destruct (p x) eqn:E; simpl.
  - now rewrite keeps, E.
  - now rewrite E.
Qed.

Lemma updateFirst_absent (l : list A) :
  find p l = None -> updateFirst p f l = l.
Proof.
  induction l as [|x r IH]; simpl; [reflexivity|].
  destruct (p x); [discriminate|].
  intros H. now rewrite IH.
Qed.

Lemma length_updateFirst (l : list A) :
  List.length (updateFirst p f l) = List.length l.
Proof.
  induction l as [|x r IH]; simpl; [reflexivity|].
  destruct (p x); simpl; congruence.
Qed.
End Collections.

(** Rewriting the first selected document changes a count by at most the
    contribution of that one document. *)
Lemma count_updateFirst {A} (p q : A -> bool) (f : A -> A) (l : list A) (x : A) :
  find p l = Some x ->
  countDocuments q (updateFirst p f l) + (if q x then 1 else 0)
  = countDocuments q l + (if q (f x) then 1 else 0).
Proof.
  unfold countDocuments.
  induction l as [|y r IH]; simpl; [discriminate|].
  destruct (p y) eqn:E.
  - intros [= ->]. simpl. destruct (q x), (q (f x)); simpl; lia.
  - intros H. specialize (IH H). simpl. destruct (q y); simpl; lia.
Qed.

Lemma find_some_holds {A} (p : A -> bool) (l : list A) (x : A) :
  find p l = Some x -> p x = true.
Proof. intros H. now apply find_some in H. Qed.

(** ** Role resolution *)

Lemma find_none_not_listed (U : ObjectId) (ms : list ProjectMember.t) :
  (forall m, In m ms -> ProjectMember.user m <> U) ->
  find (projectRepository.isUser U) ms = None.
Proof.
  induction ms as [|m r IH]; simpl; intros H; [reflexivity|].
  unfold projectRepository.isUser at 1.
  destruct (String.eqb_spec (ProjectMember.user m) U) as [E|_].
  - exfalso. apply (H m); auto.
  - apply IH. intros m' Hm'. apply H. now right.
Qed.

(** C7, as stated, fails: [getMemberRole] answers ["owner"] for a user who
    is not the project's owner when that user's members entry stores the
    role ["owner"]. *)
Lemma getMemberRole_owner_for_non_owner :
  ~ (Project.getMemberRole coOwnedProject "u2" = Some MemberRole.owner
     <-> "u2" = Project.owner coOwnedProject).
Proof.
  intros [H _]. specialize (H eq_refl). discriminate H.
Qed.

(** C7 (amended): [getMemberRole P U] is ["owner"] whenever [U] is the
    owner of [P]; for any other [U] it is exactly the role stored in the
    first members entry of [U], and [null] when [U] is not listed.  The
    answer ["owner"] identifies the owner in every project none of whose
    members entries stores the role ["owner"]. *)
Theorem getMemberRole_resolves (P : Project.t) (U : ObjectId) :
  (U = Project.owner P -> Project.getMemberRole P U = Some MemberRole.owner)
  /\ (U <> Project.owner P ->
      Project.getMemberRole P U
      = option_map ProjectMember.role
          (find (projectRepository.isUser U) (Project.members P)))
  /\ (U <> Project.owner P ->
      (forall m, In m (Project.members P) -> ProjectMember.user m <> U) ->
      Project.getMemberRole P U = None)
  /\ ((forall m, In m (Project.members P) -> ProjectMember.role m <> MemberRole.owner) ->
      (Project.getMemberRole P U = Some MemberRole.owner <-> U = Project.owner P)).
Proof.
  assert (Hother : U <> Project.owner P ->
                   Project.getMemberRole P U
                   = option_map ProjectMember.role
                       (find (projectRepository.isUser U) (Project.members P))).
  { intros Hne. unfold Project.getMemberRole.
    destruct (String.eqb_spec (Project.owner P) U) as [E|_]; [now subst|].
    unfold projectRepository.isUser.
    now destruct (find _ (Project.members P)). }
  assert (Hown : U = Project.owner P -> Project.getMemberRole P U = Some MemberRole.owner).
  { intros ->. unfold Project.getMemberRole. now rewrite String.eqb_refl. }
  repeat split.
  - exact Hown.
  - exact Hother.
  - intros Hne Hnot. rewrite (Hother Hne), find_none_not_listed; auto.
  - intros Hrole.
    destruct (String.eqb_spec U (Project.owner P)) as [E|Hne]; [assumption|].
    rewrite (Hother Hne) in Hrole.
    destruct (find _ (Project.members P)) as [m|] eqn:F; [|discriminate].
    apply find_some in F. destruct F as [Hin _].
    simpl in Hrole. injection Hrole as Hrole.
    now destruct (H m Hin).
  - exact Hown.
Qed.

(** The resolution at the owner, at a listed viewer and at a stranger of
    [coOwnedProject]. *)
Lemma getMemberRole_resolves_witness :
  Project.getMemberRole coOwnedProject "u1" = Some MemberRole.owner
  /\ Project.getMemberRole coOwnedProject "u3" = Some MemberRole.viewer
  /\ Project.getMemberRole coOwnedProject "u9" = None.
Proof.
  destruct (getMemberRole_resolves coOwnedProject "u1") as (Hown & _).
  destruct (getMemberRole_resolves coOwnedProject "u3") as (_ & Hrole & _).
  destruct (getMemberRole_resolves coOwnedProject "u9") as (_ & _ & Hnone & _).
  split; [|split].
  - apply Hown. reflexivity.
  - rewrite Hrole; [reflexivity|]. discriminate.
  - apply Hnone; [discriminate|].
    simpl. intros m [<-|[<-|[]]]; discriminate.
Defined.

(** ** Last-admin guard *)

Lemma hasId_set_role id r u :
  userRepository.hasId id (User.set_role r u) = userRepository.hasId id u.
Proof. reflexivity. Qed.

Lemma hasId_set_isActive id b u :
  userRepository.hasId id (User.set_isActive b u) = userRepository.hasId id u.
Proof. reflexivity. Qed.

(** C5, as stated, fails: demoting or deactivating the only active admin
    is rejected, but with a 400 Bad Request, not with a 409 Conflict. *)
Lemma last_admin_rejection_is_not_conflict :
  activeAdmins soleAdminDb = 1
  /\ rejectedWith isConflict
       (UserService.updateRole "a1" Roles.MEMBER "a1" quietEnv soleAdminDb) = false
  /\ rejectedWith isBadRequest
       (UserService.updateRole "a1" Roles.MEMBER "a1" quietEnv soleAdminDb) = true
  /\ rejectedWith isConflict
       (UserService.deactivateUser "a1" "a1" quietEnv soleAdminDb) = false.
Proof. repeat split; vm_compute; reflexivity. Qed.

(** C5 (amended): with exactly one active admin, demoting that admin to a
    non-admin role or deactivating them is rejected with a Bad Request
    error (status 400, not Conflict) and the store is left unchanged.
    With two or more active admins, demoting one of them passes the guard
    and is applied whether or not the audit append succeeds: the stored
    user carries the new role and the system has one active admin less, so
    at least one remains.  The call resolves with the updated user when
    the audit append succeeds and rejects with the error of the append
    when it fails. *)
Theorem last_admin_guard (env : Env.t) (db : Db.t) (userId actorId : ObjectId)
        (user : User.t) (newRole : Roles.t) :
  find (userRepository.hasId userId) (Db.users db) = Some user ->
  User.role user = Roles.ADMIN ->
  User.isActive user = true ->
  newRole <> Roles.ADMIN ->
  (activeAdmins db = 1 ->
   (exists e, UserService.updateRole userId newRole actorId env db = (db, Rejected e)
              /\ isBadRequest e = true /\ isConflict e = false)
   /\ (exists e, UserService.deactivateUser userId actorId env db = (db, Rejected e)
                 /\ isBadRequest e = true /\ isConflict e = false))
  /\ (2 <= activeAdmins db ->
      UserService.updateRole userId newRole actorId env db
      = (if Env.activityWriteFails env
         then (roleUpdated userId newRole db, Rejected auditError)
         else (Db.set_activities
                 (Db.activities db
                  ++ [Activity.new "user.role_change" actorId "user" userId None
                        ([("role", Some (UserService.roleString (User.role user)))],
                         [("role", Some (UserService.roleString newRole))])
                        [] (Env.now env)])%list
                 (roleUpdated userId newRole db),
               Resolved (User.set_role newRole user)))
      /\ find (userRepository.hasId userId) (Db.users (roleUpdated userId newRole db))
         = Some (User.set_role newRole user)
      /\ activeAdmins (roleUpdated userId newRole db) + 1 = activeAdmins db
      /\ 1 <= activeAdmins (roleUpdated userId newRole db)).
Proof.
  intros Hfind Hrole Hactive Hnew.
  apply Roles_eqb_neq in Hnew.
  unfold activeAdmins.
  split.
  - intros Hone. split.
    + eexists. unfold UserService.updateRole. run.
      rewrite Hfind, Hrole, Hnew. simpl. rewrite Hone. simpl. repeat split.
    + eexists. unfold UserService.deactivateUser. run.
      rewrite Hfind, Hrole. simpl. rewrite Hone. simpl. repeat split.
  - intros Htwo.
    pose proof (count_updateFirst (userRepository.hasId userId)
                  (userRepository.activeWithRole Roles.ADMIN)
                  (User.set_role newRole) (Db.users db) user Hfind) as Hcount.
    assert (Hbefore : userRepository.activeWithRole Roles.ADMIN user = true).
    { unfold userRepository.activeWithRole. now rewrite Hactive, Hrole. }
    assert (Hafter : userRepository.activeWithRole Roles.ADMIN (User.set_role newRole user)
                     = false).
    { unfold userRepository.activeWithRole. simpl. now rewrite Hnew, andb_false_r. }
    rewrite Hbefore, Hafter in Hcount.
    assert (Hstored : find (userRepository.hasId userId)
                        (Db.users (roleUpdated userId newRole db))
                      = Some (User.set_role newRole user)).
    { unfold roleUpdated. cbn [Db.users Db.set_users].
      now rewrite (find_updateFirst _ _ (hasId_set_role userId newRole)), Hfind. }
    split; [|split; [exact Hstored|unfold roleUpdated; cbn [Db.users Db.set_users]; lia]].
    unfold UserService.updateRole. run.
    rewrite Hfind, Hrole, Hnew. simpl.
    destruct (countDocuments _ (Db.users db)) as [|[|c]] eqn:Hc; [lia|lia|].
    simpl.
    rewrite (find_updateFirst _ _ (hasId_set_role userId newRole)), Hfind. simpl.
    destruct (Env.activityWriteFails env); reflexivity.
Qed.

(** The guard at work on [soleAdminDb] and on [twoAdminsDb]. *)
Lemma last_admin_guard_witness :
  (exists e, UserService.updateRole "a1" Roles.MEMBER "a2" quietEnv soleAdminDb
             = (soleAdminDb, Rejected e) /\ isBadRequest e = true /\ isConflict e = false)
  /\ option_map User.role
       (find (userRepository.hasId "a1")
          (Db.users (fst (UserService.updateRole "a1" Roles.VIEWER "a2" quietEnv
                            twoAdminsDb))))
     = Some Roles.VIEWER
  /\ activeAdmins (fst (UserService.updateRole "a1" Roles.VIEWER "a2" failingAuditEnv
                          twoAdminsDb)) = 1.
Proof.
  pose (ada := User.new "a1" "root@example.com" "Ada" "Root" Roles.ADMIN true 1).
  split; [|split].
  - destruct (last_admin_guard quietEnv soleAdminDb "a1" "a2" ada Roles.MEMBER
                eq_refl eq_refl eq_refl ltac:(discriminate)) as [Hone _].
    destruct (Hone eq_refl) as [Hdemote _]. exact Hdemote.
  - destruct (last_admin_guard quietEnv twoAdminsDb "a1" "a2" ada Roles.VIEWER
                eq_refl eq_refl eq_refl ltac:(discriminate)) as [_ Htwo].
    destruct (Htwo ltac:(vm_compute; lia)) as (Hrun & Hstored & _).
    rewrite Hrun. cbn [quietEnv Env.activityWriteFails fst Db.users Db.set_activities].
    rewrite Hstored. reflexivity.
  - destruct (last_admin_guard failingAuditEnv twoAdminsDb "a1" "a2" ada Roles.VIEWER
                eq_refl eq_refl eq_refl ltac:(discriminate)) as [_ Htwo].
    destruct (Htwo ltac:(vm_compute; lia)) as (Hrun & _ & Hless & _).
    rewrite Hrun. cbn [failingAuditEnv Env.activityWriteFails fst].
    apply (Nat.add_cancel_r _ _ 1). rewrite Hless. reflexivity.
Defined.

(** ** Owner protections *)

(** C6, as stated, fails: when the actor is a plain member or a stranger,
    the attempt on the owner is refused by the permission check that comes
    first, with Forbidden and not with Bad Request. *)
Lemma owner_protection_answers_forbidden :
  rejectedWith isBadRequest (ProjectService.removeMember "p1" "u1" "u3" quietEnv teamDb)
  = false
  /\ rejectedWith isForbidden (ProjectService.removeMember "p1" "u1" "u3" quietEnv teamDb)
     = true
  /\ rejectedWith isBadRequest
       (ProjectService.updateMemberRole "p1" "u1" MemberRole.viewer "u2" quietEnv teamDb)
     = false
  /\ rejectedWith isForbidden
       (ProjectService.updateMemberRole "p1" "u1" MemberRole.viewer "u2" quietEnv teamDb)
     = true.
Proof. repeat split; vm_compute; reflexivity. Qed.

(** C6 (amended): for every actor, removing the owner through
    [removeMember] and changing the owner's role through [updateMemberRole]
    fail and leave the store unchanged.  The error is Bad Request when the
    actor passes the permission check of the method (the owner or a project
    admin for [removeMember], the owner for [updateMemberRole]) and
    Forbidden otherwise. *)
Theorem owner_is_protected (env : Env.t) (db : Db.t) (projectId actorId : ObjectId)
        (project : Project.t) (newRole : MemberRole.t) :
  find (projectRepository.hasId projectId) (Db.projects db) = Some project ->
  (exists e,
      ProjectService.removeMember projectId (Project.owner project) actorId env db
      = (db, Rejected e)
      /\ (if (actorId =? Project.owner project)
             || ProjectService.roleIsAdmin (Project.getMemberRole project actorId)
          then isBadRequest e = true
          else isForbidden e = true))
  /\ (exists e,
         ProjectService.updateMemberRole projectId (Project.owner project) newRole
                                         actorId env db
         = (db, Rejected e)
         /\ (if actorId =? Project.owner project
             then isBadRequest e = true
             else isForbidden e = true)).
Proof.
  intros Hfind. split.
  - unfold ProjectService.removeMember. run. rewrite Hfind.
    rewrite (String.eqb_sym (Project.owner project) actorId).
    destruct (actorId =? Project.owner project) eqn:Eown; simpl.
    + rewrite String.eqb_refl. simpl. eexists. split; reflexivity.
    + destruct (ProjectService.roleIsAdmin (Project.getMemberRole project actorId));
        simpl.
      * rewrite String.eqb_refl. simpl. eexists. split; reflexivity.
      * eexists. split; reflexivity.
  - unfold ProjectService.updateMemberRole. run. rewrite Hfind.
    rewrite (String.eqb_sym (Project.owner project) actorId).
    destruct (actorId =? Project.owner project) eqn:Eown; simpl.
    + rewrite String.eqb_refl. simpl. eexists. split; reflexivity.
    + eexists. split; reflexivity.
Qed.

(** The project admin and the owner themselves get Bad Request on
    [teamProject]. *)
Lemma owner_is_protected_witness :
  (exists e,
      ProjectService.removeMember "p1" "u1" "u2" quietEnv teamDb = (teamDb, Rejected e)
      /\ isBadRequest e = true)
  /\ (exists e,
         ProjectService.updateMemberRole "p1" "u1" MemberRole.member "u1" quietEnv teamDb
         = (teamDb, Rejected e)
         /\ isBadRequest e = true).
Proof.
  split.
  - destruct (owner_is_protected quietEnv teamDb "p1" "u2" teamProject MemberRole.member
                eq_refl) as [Hremove _].
    exact Hremove.
  - destruct (owner_is_protected quietEnv teamDb "p1" "u1" teamProject MemberRole.member
                eq_refl) as [_ Hrole].
    exact Hrole.
Defined.

(** ** Activity tag of a task update *)

(** C3, as stated, fails: a patch that changes both the assignee and the
    priority is tagged [task.priority_change], not [task.assign]. *)
Lemma assign_with_priority_is_priority_change :
  TaskService.actionType assignAndEscalate openTask = "task.priority_change"
  /\ TaskService.actionType assignAndEscalate openTask <> "task.assign".
Proof. split; [reflexivity | discriminate]. Qed.

(** C3 (amended): the tag of a task update is selected in the order
    priority-change > assignment-change > status-change > generic update,
    evaluated on the incoming patch: a changed priority gives
    [task.priority_change] whatever else the patch changes; otherwise an
    assignment or unassignment gives [task.assign] / [task.unassign] even
    when the status changes too; otherwise a changed status gives
    [task.status_change]; otherwise [task.update]. *)
Theorem actionType_precedence (u : TaskService.updateData) (task : Task.t) :
  TaskService.actionType u task
  = if TaskService.priorityChanges u task then "task.priority_change"
    else match assignmentTag u task with
         | Some tag => tag
         | None => if TaskService.statusChanges u task then "task.status_change"
                   else "task.update"
         end.
Proof.
  unfold TaskService.actionType, TaskService.determineAction, assignmentTag.
  destruct (TaskService.statusChanges u task);
    destruct (TaskService.u_assigneeId u) as [a|];
    try destruct (truthyOpt a && negb (isSome (Task.assignee task)));
    try destruct (negb (truthyOpt a) && isSome (Task.assignee task));
    destruct (TaskService.priorityChanges u task); reflexivity.
Qed.

(** Every tag [updateTask] can compute is in the [action] enum, so the
    audit entry of a task update always passes schema validation. *)
Lemma actionType_valid (u : TaskService.updateData) (task : Task.t) :
  includes (TaskService.actionType u task) Activity.actionValues = true.
Proof.
  unfold TaskService.actionType, TaskService.determineAction.
  destruct (TaskService.statusChanges u task);
    destruct (TaskService.u_assigneeId u) as [a|];
    try destruct (truthyOpt a && negb (isSome (Task.assignee task)));
    try destruct (negb (truthyOpt a) && isSome (Task.assignee task));
    destruct (TaskService.priorityChanges u task); reflexivity.
Qed.

(** ** Audit append and the primary mutation *)





(** ** Task numbering *)

(** The number the pre-save hook gives a new task is the project key
    followed by one more than the number of tasks the project holds at
    that moment. *)
Lemma generateTaskNumber_counts (env : Env.t) (db : Db.t) (doc : Task.t) (p : Project.t) :
  Task.taskNumber doc = None ->
  find (projectRepository.hasId (Task.project doc)) (Db.projects db) = Some p ->
  option_map Task.taskNumber
    (match snd (TaskModel.generateTaskNumber true doc env db) with
     | Resolved d => Some d
     | Rejected _ => None
     end)
  = Some (Some (Project.key p ++ "-"
                ++ showNat (countDocuments (TaskModel.inProject (Task.project doc))
                              (Db.tasks db) + 1))).
Proof.
  intros Hnone Hproject.
  unfold TaskModel.generateTaskNumber, TaskModel.incTaskCount. run.
  rewrite Hnone. simpl. rewrite Hproject. reflexivity.
Qed.

(** Deleting a task of the project lowers that count again. *)
Lemma count_after_delete (taskId : ObjectId) (d : Task.t) (ts : list Task.t) :
  find (TaskModel.hasId taskId) ts = Some d ->
  countDocuments (TaskModel.inProject (Task.project d))
                 (removeFirst (TaskModel.hasId taskId) ts) + 1
  = countDocuments (TaskModel.inProject (Task.project d)) ts.
Proof.
  unfold countDocuments.
  induction ts as [|x r IH]; simpl; [discriminate|].
  destruct (TaskModel.hasId taskId x) eqn:E.
  - intros [= ->]. unfold TaskModel.inProject at 2. rewrite String.eqb_refl. simpl. lia.
  - intros H. specialize (IH H). simpl.
    destruct (TaskModel.inProject (Task.project d) x); simpl; lia.
Qed.

(** Hence the number generated right after a deletion is the project key
    followed by the number of tasks the project held before the deletion:
    the number its newest task was created with when nothing had been
    deleted before. *)
Lemma number_after_delete (env env' : Env.t) (db : Db.t) (taskId userId : ObjectId)
      (d doc : Task.t) (p : Project.t) :
  find (TaskModel.hasId taskId) (Db.tasks db) = Some d ->
  find (projectRepository.hasId (Task.project d)) (Db.projects db) = Some p ->
  Task.taskNumber doc = None ->
  Task.project doc = Task.project d ->
  option_map Task.taskNumber
    (match snd (TaskModel.generateTaskNumber true doc env'
                  (after (TaskService.deleteTask taskId userId) env db)) with
     | Resolved d' => Some d'
     | Rejected _ => None
     end)
  = Some (Some (Project.key p ++ "-"
                ++ showNat (countDocuments (TaskModel.inProject (Task.project d))
                              (Db.tasks db)))).
Proof.
  intros Htask Hproject Hnone Hsame.
  pose (db' := after (TaskService.deleteTask taskId userId) env db).
  assert (Htasks : Db.tasks db' = removeFirst (TaskModel.hasId taskId) (Db.tasks db)).
  { unfold db', after, TaskService.deleteTask, TaskService.projectIdOf,
      TaskModel.incTaskCount. run.
    rewrite Htask, Hproject. simpl.
    now destruct (Env.activityWriteFails env). }
  assert (Hprojects :
            find (projectRepository.hasId (Task.project doc)) (Db.projects db')
            = Some (TaskModel.addTaskCount (-1) (Env.now env) p)).
  { unfold db', after, TaskService.deleteTask, TaskService.projectIdOf,
      TaskModel.incTaskCount. run.
    rewrite Htask, Hproject. simpl.
    assert (Hid : Project._id p = Task.project d).
    { apply find_some in Hproject. destruct Hproject as [_ Hp].
      now apply String.eqb_eq in Hp. }
    rewrite Hid, Hsame.
    destruct (Env.activityWriteFails env); simpl;
      now rewrite (find_updateFirst (projectRepository.hasId (Task.project d))
                     (TaskModel.addTaskCount (-1) (Env.now env))
                     (fun x => eq_refl)), Hproject. }
  fold db'.
  rewrite (generateTaskNumber_counts env' db' doc _ Hnone Hprojects).
  rewrite Htasks, Hsame.
  cbn [Project.key Project.set_taskCount Project.set_updatedAt TaskModel.addTaskCount].
  now rewrite (count_after_delete taskId d (Db.tasks db) Htask).
Qed.

(** The rendering of numbers and of task numbers is injective. *)
Lemma showNat_inj (n m : nat) : showNat n = showNat m -> n = m.
Proof.
  unfold showNat. intros H.
  apply DecimalNat.Unsigned.to_uint_inj.
  assert (Some (Nat.to_uint n) = Some (Nat.to_uint m)) as [= E]; [|exact E].
  rewrite <- !NilEmpty.usu. now rewrite H.
Qed.

Lemma append_inj_r (a b c : string) : a ++ b = a ++ c -> b = c.
Proof. induction a as [|x a IH]; simpl; [trivial|]. intros [= H]. auto. Qed.

Lemma numberOf_inj (key : string) (i j : nat) : numberOf key i = numberOf key j -> i = j.
Proof.
  unfold numberOf. intros [= H].
  apply append_inj_r in H. injection H as H. now apply showNat_inj.
Qed.

Lemma find_app_fresh {A} (p : A -> bool) (l : list A) (x : A) :
  existsb p l = false -> p x = true -> find p (l ++ [x]) = Some x.
Proof.
  induction l as [|y r IH]; simpl; intros Hl Hx.
  - now rewrite Hx.
  - apply orb_false_iff in Hl. destruct Hl as [-> Hr]. auto.
Qed.

Lemma count_all {A} (p : A -> bool) (l : list A) :
  Forall (fun x => p x = true) l -> countDocuments p l = List.length l.
Proof.
  unfold countDocuments. induction 1 as [|x r Hx _ IH]; simpl; [reflexivity|].
  rewrite Hx. simpl. now rewrite IH.
Qed.


Lemma createTask_appends (db : Db.t) (p : Project.t) (projectId reporterId id : ObjectId)
      (now : Date) (title : string) :
  find (projectRepository.hasId projectId) (Db.projects db) = Some p ->
  Project.isMember p reporterId = true ->
  accepted (plainTask projectId title) = true ->
  existsb (TaskModel.hasId id) (Db.tasks db) = false ->
  existsb (fun d => optStringEqb (Task.taskNumber d)
                      (numberOf (Project.key p)
                         (countDocuments (TaskModel.inProject projectId) (Db.tasks db) + 1)))
          (Db.tasks db) = false ->
  exists doc db',
    TaskService.createTask (plainTask projectId title) reporterId (Env.new now id false) db
    = (db', Resolved doc)
    /\ Db.tasks db' = (Db.tasks db ++ [doc])%list
    /\ Db.projects db'
       = updateFirst (projectRepository.hasId projectId) (bumpTaskCount now)
           (Db.projects db)
    /\ Task._id doc = id
    /\ Task.project doc = projectId
    /\ Task.taskNumber doc
       = numberOf (Project.key p)
           (countDocuments (TaskModel.inProject projectId) (Db.tasks db) + 1).
Proof.
  intros Hproject Hmember Htitle Hid Hnumber.
  unfold numberOf in *.
  unfold TaskService.createTask, taskRepository.create, TaskModel.create,
    TaskModel.preSave, TaskModel.generateTaskNumber, TaskModel.insert,
    TaskModel.incTaskCount.
  run. cbn [plainTask TaskService.projectId TaskService.parentTaskId].
  rewrite Hproject, Hmember.
  cbn -[countDocuments includes append TaskModel.construct TaskModel.valid].
  match goal with
  | |- context [TaskModel.valid (TaskModel.construct ?e ?x)] =>
      change (TaskModel.valid (TaskModel.construct e x))
        with (accepted (plainTask projectId title))
  end.
  rewrite Htitle. unfold TaskModel.construct.
  cbn -[countDocuments includes append trim].
  rewrite Hproject. cbn -[countDocuments includes append].
  rewrite Hid, Hnumber. cbn -[countDocuments includes append].
  rewrite find_app_fresh; [|assumption|apply String.eqb_refl].
  cbn -[countDocuments includes append].
  do 2 eexists. split; [reflexivity|]. cbn -[countDocuments append]. repeat split.
Qed.

Lemma existsb_none {A} (q : A -> bool) (l : list A) :
  (forall x, In x l -> q x = false) -> existsb q l = false.
Proof.
  induction l as [|x r IH]; simpl; intros H; [reflexivity|].
  rewrite (H x (or_introl eq_refl)). apply IH. intros y Hy. apply H. now right.
Qed.

Lemma hasId_bumpTaskCount (id : ObjectId) (now : Date) (p : Project.t) :
  projectRepository.hasId id (bumpTaskCount now p) = projectRepository.hasId id p.
Proof. reflexivity. Qed.

Lemma createAll_cons (projectId reporterId : ObjectId) (now : Date) (title : string)
      (id : ObjectId) (rest : list (string * ObjectId)) (db : Db.t) :
  createAll projectId reporterId now ((title, id) :: rest) db
  = createAll projectId reporterId now rest
      (after (TaskService.createTask (plainTask projectId title) reporterId)
             (Env.new now id false) db).
Proof. reflexivity. Qed.

Lemma createAll_numbers_from (reqs : list (string * ObjectId)) :
  forall (db : Db.t) (p : Project.t) (projectId reporterId : ObjectId) (now : Date) (n : nat),
    find (projectRepository.hasId projectId) (Db.projects db) = Some p ->
    Project.isMember p reporterId = true ->
    Forall (fun req => accepted (plainTask projectId (fst req)) = true) reqs ->
    NoDup (map Task._id (Db.tasks db) ++ map snd reqs) ->
    Forall (fun d => TaskModel.inProject projectId d = true) (Db.tasks db) ->
    taskNumbers db = map (numberOf (Project.key p)) (seq 1 n) ->
    taskNumbers (createAll projectId reporterId now reqs db)
    = map (numberOf (Project.key p)) (seq 1 (n + List.length reqs)).
Proof.
  induction reqs as [|[title id] rest IH];
    intros db p projectId reporterId now n Hproject Hmember Htitles Hids Hin Hnumbers.
  - simpl. now rewrite Nat.add_0_r.
  - inversion Htitles as [|? ? Htitle Hrest]; subst. simpl in Htitle.
    assert (Hlen : List.length (Db.tasks db) = n).
    { unfold taskNumbers in Hnumbers.
      rewrite <- (length_map Task.taskNumber), Hnumbers, length_map. apply length_seq. }
    assert (Hcount : countDocuments (TaskModel.inProject projectId) (Db.tasks db) = n).
    { now rewrite count_all. }
    assert (Hfresh : existsb (TaskModel.hasId id) (Db.tasks db) = false).
    { clear IH. apply existsb_none. intros d Hd. unfold TaskModel.hasId.
      apply String.eqb_neq. intros E.
      simpl in Hids. apply NoDup_remove_2 in Hids. apply Hids.
      apply in_or_app. left. rewrite <- E. now apply in_map. }
    simpl in Hids.
    assert (Hunused :
              existsb (fun d => optStringEqb (Task.taskNumber d)
                                  (numberOf (Project.key p) (n + 1)))
                      (Db.tasks db) = false).
    { apply existsb_none. intros d Hd.
      assert (Hd' : In (Task.taskNumber d) (taskNumbers db)) by now apply in_map.
      rewrite Hnumbers in Hd'. apply in_map_iff in Hd'.
      destruct Hd' as (i & Hi & Hrange). apply in_seq in Hrange.
      rewrite <- Hi. unfold numberOf. simpl.
      apply String.eqb_neq. intros E.
      assert (i = n + 1); [|lia].
      apply (numberOf_inj (Project.key p)). unfold numberOf. simpl. now rewrite E. }
    rewrite <- Hcount in Hunused.
    destruct (createTask_appends db p projectId reporterId id now title
                Hproject Hmember Htitle Hfresh Hunused)
      as (doc & db' & Hrun & Htasks & Hprojects & Hdocid & Hdocproject & Hdocnumber).
    rewrite createAll_cons. unfold after. rewrite Hrun. cbn [fst List.length].
    replace (n + S (List.length rest)) with ((n + 1) + List.length rest) by lia.
    change (Project.key p) with (Project.key (bumpTaskCount now p)).
    apply IH.
    + rewrite Hprojects, (find_updateFirst _ _ (hasId_bumpTaskCount projectId now)),
        Hproject.
      reflexivity.
    + exact Hmember.
    + exact Hrest.
    + rewrite Htasks, map_app, <- app_assoc. simpl. now rewrite Hdocid.
    + rewrite Htasks. apply Forall_app. split; [assumption|].
      constructor; [|constructor]. unfold TaskModel.inProject. rewrite Hdocproject.
      apply String.eqb_refl.
    + unfold taskNumbers in *. rewrite Htasks, map_app, Hnumbers. simpl.
      rewrite Hdocnumber, Hcount, seq_app, map_app. simpl.
      now rewrite Nat.add_comm.
Qed.

(** Sequential creation in a store that holds no task yet: the [n]
    requests are all accepted and the tasks are numbered [key-1] to
    [key-n] in order, without duplicates. *)
Lemma sequential_creation_numbers (db : Db.t) (p : Project.t)
      (projectId reporterId : ObjectId) (now : Date) (reqs : list (string * ObjectId)) :
  Db.tasks db = [] ->
  find (projectRepository.hasId projectId) (Db.projects db) = Some p ->
  Project.isMember p reporterId = true ->
  Forall (fun req => accepted (plainTask projectId (fst req)) = true) reqs ->
  NoDup (map snd reqs) ->
  taskNumbers (createAll projectId reporterId now reqs db)
  = map (numberOf (Project.key p)) (seq 1 (List.length reqs))
  /\ NoDup (taskNumbers (createAll projectId reporterId now reqs db)).
Proof.
  intros Hempty Hproject Hmember Htitles Hids.
  assert (Hnumbers :
            taskNumbers (createAll projectId reporterId now reqs db)
            = map (numberOf (Project.key p)) (seq 1 (List.length reqs))).
  { apply (createAll_numbers_from reqs db p projectId reporterId now 0); auto.
    - now rewrite Hempty.
    - rewrite Hempty. constructor.
    - unfold taskNumbers. now rewrite Hempty. }
  split; [exact Hnumbers|].
  rewrite Hnumbers.
  generalize (seq_NoDup (List.length reqs) 1).
  generalize (seq 1 (List.length reqs)). intros l Hl.
  induction Hl as [|i l Hi _ IH]; simpl; constructor; [|exact IH].
  intros Hdup. apply in_map_iff in Hdup. destruct Hdup as (j & Hj & Hjin).
  apply numberOf_inj in Hj. now subst.
Qed.

(** C1 (the code departs from the claim): three sequential creations give
    ABC-1, ABC-2, ABC-3; after ABC-2 is deleted the hook counts two tasks
    and generates ABC-3 a second time, so the next creation is refused by
    the unique index on [taskNumber] and no task ever receives ABC-4.
    With two tasks, deleting ABC-2 makes the next task receive ABC-2
    again. *)
Theorem task_number_reused_after_delete :
  taskNumbers abcThree = [Some "ABC-1"; Some "ABC-2"; Some "ABC-3"]
  /\ (let db := after (TaskService.deleteTask "t2" "u1") quietEnv abcThree in
      taskNumbers db = [Some "ABC-1"; Some "ABC-3"]
      /\ snd (TaskService.createTask (newTask "fourth") "u1" (envWithId "t4") db)
         = Rejected (EDuplicateKey "taskNumber")
      /\ rejectedWith isConflict
           (TaskService.createTask (newTask "fourth") "u1" (envWithId "t4") db) = true
      /\ taskNumbers
           (after (TaskService.createTask (newTask "fourth") "u1") (envWithId "t4") db)
         = [Some "ABC-1"; Some "ABC-3"])
  /\ (let db := after (TaskService.deleteTask "t2" "u1") quietEnv abcTwo in
      option_map Task.taskNumber
        (match snd (TaskService.createTask (newTask "third") "u1" (envWithId "t3") db) with
         | Resolved d => Some d
         | Rejected _ => None
         end)
      = Some (Some "ABC-2")).
Proof. repeat split; vm_compute; reflexivity. Qed.

(** ** Access to tasks *)

(** C4 (the code departs from the claim): [updateTask], [deleteTask] and
    [getTaskById] never look at the actor.  A stranger to the private
    project reads, updates and deletes its task; only creation, the sibling
    path, checks membership (and the member system role at the route). *)
Theorem stranger_mutates_private_task :
  Project.visibility teamProject = Visibility.private
  /\ Project.getMemberRole teamProject (Middleware.userId stranger) = None
  /\ resolved (TaskRoutes.getById stranger "t1" quietEnv taskDb) = true
  /\ resolved (TaskRoutes.patch stranger "t1" moveToReview quietEnv taskDb) = true
  /\ option_map Task.status
       (find (TaskModel.hasId "t1")
          (Db.tasks (after (TaskRoutes.patch stranger "t1" moveToReview) quietEnv taskDb)))
     = Some Status.in_review
  /\ resolved (TaskRoutes.delete stranger "t1" quietEnv taskDb) = true
  /\ Db.tasks (after (TaskRoutes.delete stranger "t1") quietEnv taskDb) = []
  /\ rejectedWith isForbidden
       (TaskRoutes.post stranger
          (TaskService.mkData "p1" None None "x" None None None None None)
          quietEnv taskDb) = true
  /\ rejectedWith isForbidden
       (TaskRoutes.post strangerMember
          (TaskService.mkData "p1" None None "x" None None None None None)
          quietEnv taskDb) = true.
Proof. repeat split; vm_compute; reflexivity. Qed.

(** The outcome of [updateTask] and [deleteTask] is the same for every
    actor, up to the actor recorded in the audit entry. *)
Lemma updateTask_ignores_actor (env : Env.t) (db : Db.t) (taskId userA userB : ObjectId)
      (u : TaskService.updateData) :
  Db.tasks (after (TaskService.updateTask taskId u userA) env db)
  = Db.tasks (after (TaskService.updateTask taskId u userB) env db)
  /\ resolved (TaskService.updateTask taskId u userA env db)
     = resolved (TaskService.updateTask taskId u userB env db).
Proof.
  unfold after, resolved, TaskService.updateTask, TaskService.projectIdOf. run.
  destruct (find (TaskModel.hasId taskId) (Db.tasks db)) as [d|]; [|split; reflexivity].
  cbn [taskRepository.doc taskRepository.projectDoc].
  destruct (TaskService.determineAction u d) as [tag changes]. cbv beta iota zeta.
  destruct (taskRepository.validUpdate _); cbn [negb]; cbv beta iota;
    [|split; reflexivity].
  destruct (find (projectRepository.hasId (Task.project d)) (Db.projects db)) as [p|];
    [|split; reflexivity].
  unfold ActivityModel.validate.
  cbn [ActivityModel.action ActivityModel.entityType].
  destruct (includes tag Activity.actionValues); simpl; [|split; reflexivity].
  destruct (Env.activityWriteFails env); simpl; [split; reflexivity|].
  destruct (find _ (updateFirst _ _ (Db.tasks db))); split; reflexivity.
Qed.

Lemma deleteTask_ignores_actor (env : Env.t) (db : Db.t) (taskId userA userB : ObjectId) :
  Db.tasks (after (TaskService.deleteTask taskId userA) env db)
  = Db.tasks (after (TaskService.deleteTask taskId userB) env db)
  /\ resolved (TaskService.deleteTask taskId userA env db)
     = resolved (TaskService.deleteTask taskId userB env db).
Proof.
  unfold after, resolved, TaskService.deleteTask, TaskService.projectIdOf,
    TaskModel.incTaskCount. run.
  destruct (find (TaskModel.hasId taskId) (Db.tasks db)) as [d|]; [|split; reflexivity].
  cbn [taskRepository.doc taskRepository.projectDoc].
  destruct (find (projectRepository.hasId (Task.project d)) (Db.projects db)) as [p|];
    [|split; reflexivity].
  simpl. destruct (Env.activityWriteFails env); split; reflexivity.
Qed.

(** Neither method asks for a role: whoever the actor is, the request
    resolves as soon as the task and its project exist and the audit append
    goes through. *)
Lemma updateTask_needs_no_role (env : Env.t) (db : Db.t) (taskId userId : ObjectId)
      (u : TaskService.updateData) (d : Task.t) (p : Project.t) :
  find (TaskModel.hasId taskId) (Db.tasks db) = Some d ->
  find (projectRepository.hasId (Task.project d)) (Db.projects db) = Some p ->
  taskPatchValid u = true ->
  Env.activityWriteFails env = false ->
  resolved (TaskService.updateTask taskId u userId env db) = true.
Proof.
  intros Htask Hproject Hpatch Hwrites. unfold taskPatchValid in Hpatch.
  unfold resolved, TaskService.updateTask, TaskService.projectIdOf. run.
  rewrite Htask, Hproject.
  cbn [taskRepository.doc taskRepository.projectDoc].
  pose proof (actionType_valid u d) as Hvalid.
  unfold TaskService.actionType in Hvalid.
  destruct (TaskService.determineAction u d) as [tag changes].
  cbn [fst] in Hvalid. cbv beta iota zeta.
  unfold ActivityModel.validate.
  cbn [ActivityModel.action ActivityModel.entityType].
  rewrite Hpatch, Hvalid. simpl. rewrite Hwrites. simpl.
  rewrite (find_updateFirst (TaskModel.hasId taskId)
               (taskRepository.applyUpdate
                  (taskRepository.setters (TaskService.toRepositoryUpdate u))
                  (Env.now env))
               (fun x => eq_refl)), Htask.
  reflexivity.
Qed.

Lemma deleteTask_needs_no_role (env : Env.t) (db : Db.t) (taskId userId : ObjectId)
      (d : Task.t) (p : Project.t) :
  find (TaskModel.hasId taskId) (Db.tasks db) = Some d ->
  find (projectRepository.hasId (Task.project d)) (Db.projects db) = Some p ->
  Env.activityWriteFails env = false ->
  resolved (TaskService.deleteTask taskId userId env db) = true.
Proof.
  intros Htask Hproject Hwrites.
  unfold resolved, TaskService.deleteTask, TaskService.projectIdOf,
    TaskModel.incTaskCount. run.
  rewrite Htask, Hproject. simpl. now rewrite Hwrites.
Qed.

(** ** Completion tracking *)

(** What the pre-save hook does when it runs: the three rules of the
    completion tracking. *)
Lemma trackCompletion_enters_done (now : Date) (doc : Task.t) :
  Task.status doc = Status.done ->
  Task.completedAt doc = None ->
  Task.completedAt (TaskModel.trackCompletion now true doc) = Some now.
Proof.
  intros Hs Hc. unfold TaskModel.trackCompletion. now rewrite Hs, Hc.
Qed.

Lemma trackCompletion_leaves_done (now : Date) (doc : Task.t) :
  Task.status doc <> Status.done ->
  Task.completedAt (TaskModel.trackCompletion now true doc) = None.
Proof.
  intros Hs. apply Status_eqb_neq in Hs.
  unfold TaskModel.trackCompletion. now rewrite Hs.
Qed.

Lemma trackCompletion_keeps_done (now : Date) (modified : bool) (doc : Task.t) (c : Date) :
  Task.status doc = Status.done ->
  Task.completedAt doc = Some c ->
  TaskModel.trackCompletion now modified doc = doc.
Proof.
  intros Hs Hc. unfold TaskModel.trackCompletion. rewrite Hs, Hc.
  now destruct modified.
Qed.

(** No update through the repository touches [completedAt]. *)
Lemma applyUpdate_keeps_completedAt (u : taskRepository.updateData) (now : Date)
      (d : Task.t) :
  Task.completedAt (taskRepository.applyUpdate u now d) = Task.completedAt d.
Proof. reflexivity. Qed.

(** Whatever the patch, [updateTask] leaves [completedAt] of the stored
    task as it was. *)
Lemma updateTask_keeps_completedAt (env : Env.t) (db : Db.t) (taskId userId : ObjectId)
      (u : TaskService.updateData) (d : Task.t) :
  find (TaskModel.hasId taskId) (Db.tasks db) = Some d ->
  option_map Task.completedAt
    (find (TaskModel.hasId taskId)
       (Db.tasks (after (TaskService.updateTask taskId u userId) env db)))
  = Some (Task.completedAt d).
Proof.
  intros Htask.
  assert (Hstored :
            option_map Task.completedAt
              (find (TaskModel.hasId taskId)
                 (updateFirst (TaskModel.hasId taskId)
                    (taskRepository.applyUpdate
                       (taskRepository.setters (TaskService.toRepositoryUpdate u))
                       (Env.now env))
                    (Db.tasks db)))
            = Some (Task.completedAt d)).
  { rewrite (find_updateFirst (TaskModel.hasId taskId)
               (taskRepository.applyUpdate
                  (taskRepository.setters (TaskService.toRepositoryUpdate u))
                  (Env.now env))
               (fun x => eq_refl)), Htask.
    reflexivity. }
  unfold after, TaskService.updateTask, TaskService.projectIdOf. run.
  rewrite Htask.
  cbn [taskRepository.doc taskRepository.projectDoc].
  destruct (TaskService.determineAction u d) as [tag changes]. cbv beta iota zeta.
  destruct (taskRepository.validUpdate _); cbn [negb]; cbv beta iota;
    [|cbn [fst]; now rewrite Htask].
  destruct (find (projectRepository.hasId (Task.project d)) (Db.projects db)) as [p|];
    [|exact Hstored].
  unfold ActivityModel.validate.
  cbn [ActivityModel.action ActivityModel.entityType].
  destruct (includes tag Activity.actionValues); simpl; [|exact Hstored].
  destruct (Env.activityWriteFails env); simpl; [exact Hstored|].
  destruct (find _ (updateFirst _ _ (Db.tasks db))) eqn:Hfound; simpl;
    rewrite ?Hfound; exact Hstored.
Qed.

(** C8 (the code departs from the claim): the hook that tracks completion
    is save middleware, and the only status transition of the service,
    [updateTask], writes through [findByIdAndUpdate], which does not run
    it.  A task moved from [todo] to [done] keeps [completedAt = null], and
    a task created in [done] keeps its timestamp when moved back to
    [todo]. *)
Theorem status_update_skips_completion_tracking :
  (let db := after (TaskService.updateTask "t1" moveToDone "u1") quietEnv taskDb in
   resolved (TaskService.updateTask "t1" moveToDone "u1" quietEnv taskDb) = true
   /\ option_map Task.status (find (TaskModel.hasId "t1") (Db.tasks db))
      = Some Status.done
   /\ option_map Task.completedAt (find (TaskModel.hasId "t1") (Db.tasks db))
      = Some None)
  /\ option_map Task.completedAt (find (TaskModel.hasId "t1") (Db.tasks createdDone))
     = Some (Some 100)
  /\ (let db := after (TaskService.updateTask "t1" moveToTodo "u1") quietEnv createdDone in
      option_map Task.status (find (TaskModel.hasId "t1") (Db.tasks db))
      = Some Status.todo
      /\ option_map Task.completedAt (find (TaskModel.hasId "t1") (Db.tasks db))
         = Some (Some 100)).
Proof. repeat split; vm_compute; reflexivity. Qed.

(** ** Global search *)

Section SortAndLimit.
Context {A : Type}.
Variable before : A -> A -> bool.

Lemma In_insertBy (x y : A) (l : list A) :
  In y (insertBy before x l) <-> y = x \/ In y l.
Proof.
  induction l as [|z r IH]; simpl.
  - intuition congruence.
  - destruct (before x z); simpl; rewrite ?IH; intuition congruence.
Qed.

Lemma In_sortBy (y : A) (l : list A) : In y (sortBy before l) <-> In y l.
Proof.
  unfold sortBy. induction l as [|x r IH]; simpl; [reflexivity|].
  rewrite In_insertBy, IH. intuition congruence.
Qed.

Lemma length_insertBy (x : A) (l : list A) :
  List.length (insertBy before x l) = S (List.length l).
Proof.
  induction l as [|z r IH]; simpl; [reflexivity|].
  destruct (before x z); simpl; congruence.
Qed.

Lemma length_sortBy (l : list A) : List.length (sortBy before l) = List.length l.
Proof.
  unfold sortBy. induction l as [|x r IH]; simpl; [reflexivity|].
  now rewrite length_insertBy, IH.
Qed.

Lemma limitTo_all (n : nat) (l : list A) :
  n = 0 \/ List.length l <= n -> limitTo n l = l.
Proof.
  unfold limitTo. intros [-> | Hle]; [reflexivity|].
  destruct (Nat.eqb n 0); [reflexivity|]. now apply firstn_all2.
Qed.

Lemma In_limitTo (n : nat) (x : A) (l : list A) : In x (limitTo n l) -> In x l.
Proof.
  unfold limitTo. destruct (Nat.eqb n 0); [trivial|].
  intros H. rewrite <- (firstn_skipn n l). apply in_or_app. now left.
Qed.
End SortAndLimit.

(** With scope ["tasks"] only the task branch runs. *)
Lemma globalSearch_tasks_scope (query : string) (limit : option nat) (userId : ObjectId)
      (env : Env.t) (db : Db.t) :
  SearchService.globalSearch query (SearchService.mkOptions (Some "tasks") limit) userId
                             env db
  = match RegExp.compile query with
    | None => (db, Rejected (EDriver "SyntaxError: Invalid regular expression"))
    | Some r =>
        let found :=
          limitTo (orElse limit 10)
            (sortBy (fun a b => Nat.leb (Task.updatedAt b) (Task.updatedAt a))
               (filter (SearchService.taskMatches r) (Db.tasks db))) in
        (db, Resolved (SearchService.mkResponse query (List.length found + 0 + 0 + 0)
                         (SearchService.mkResults (Some found) None None None)))
    end.
Proof.
  unfold SearchService.globalSearch. cbn [SearchService.scope SearchService.limit].
  destruct (RegExp.compile query) as [r|]; reflexivity.
Qed.

(** C9: with scope ["tasks"] the answer of the global search is the same
    for every searching user; a matching task of a private project in
    which the searcher has no role is returned all the same (whenever the
    limit does not cut the result), whereas every project the project
    branch returns is public, owned by the searcher or lists the
    searcher. *)
Theorem task_search_ignores_searcher (env : Env.t) (db : Db.t) (query : string)
        (limit : option nat) (userA userB : ObjectId) :
  SearchService.globalSearch query (SearchService.mkOptions (Some "tasks") limit) userA
                             env db
  = SearchService.globalSearch query (SearchService.mkOptions (Some "tasks") limit) userB
                               env db
  /\ (forall r d p,
         RegExp.compile query = Some r ->
         In d (Db.tasks db) ->
         SearchService.taskMatches r d = true ->
         find (projectRepository.hasId (Task.project d)) (Db.projects db) = Some p ->
         Project.visibility p = Visibility.private ->
         Project.getMemberRole p userA = None ->
         orElse limit 10 = 0
         \/ countDocuments (SearchService.taskMatches r) (Db.tasks db)
            <= orElse limit 10 ->
         exists resp found,
           SearchService.globalSearch query
             (SearchService.mkOptions (Some "tasks") limit) userA env db
           = (db, Resolved resp)
           /\ SearchService.tasks (SearchService.results resp) = Some found
           /\ In d found)
  /\ (forall resp found p,
         SearchService.globalSearch query
           (SearchService.mkOptions (Some "projects") limit) userA env db
         = (db, Resolved resp) ->
         SearchService.projects (SearchService.results resp) = Some found ->
         In p found ->
         SearchService.projectVisibleTo userA p = true).
Proof.
  split; [|split].
  - now rewrite !globalSearch_tasks_scope.
  - intros r d p Hcompile Hin Hmatch _ _ _ Hlimit.
    rewrite globalSearch_tasks_scope, Hcompile. cbv zeta.
    do 2 eexists. split; [reflexivity|]. split; [reflexivity|].
    rewrite limitTo_all.
    + apply In_sortBy, filter_In. now split.
    + now rewrite length_sortBy.
  - intros resp found p Hrun Hfound Hin.
    unfold SearchService.globalSearch in Hrun.
    cbn [SearchService.scope SearchService.limit] in Hrun.
    destruct (RegExp.compile query) as [r|]; [|discriminate].
    injection Hrun as <-. cbn in Hfound. injection Hfound as <-.
    apply In_limitTo, In_sortBy, filter_In in Hin.
    destruct Hin as [_ Hboth]. now apply andb_true_iff in Hboth.
Qed.

(** The stranger ["u9"] finds the task of the private [teamProject]. *)
Lemma task_search_ignores_searcher_witness :
  exists resp found,
    SearchService.globalSearch "report" (SearchService.mkOptions (Some "tasks") None) "u9"
                               quietEnv secretDb
    = (secretDb, Resolved resp)
    /\ SearchService.tasks (SearchService.results resp) = Some found
    /\ In secretTask found.
Proof.
  destruct (task_search_ignores_searcher quietEnv secretDb "report" None "u9" "u1")
    as (_ & Hleak & _).
  apply (Hleak
           (match RegExp.compile "report" with Some r => r | None => RegExp.Fail end)
           secretTask teamProject).
  - vm_compute. reflexivity.
  - left. reflexivity.
  - vm_compute. reflexivity.
  - reflexivity.
  - reflexivity.
  - reflexivity.
  - right. vm_compute. lia.
Defined.

(** C10: the query is compiled as it stands into a case-insensitive
    pattern, so the result differs from case-insensitive substring search:
    for ["a.c"] and for ["x|y"] a task is returned that does not contain
    the query, and for ["a+b"] the task that contains the query is
    missed. *)
Theorem search_query_is_a_pattern :
  (forall query limit userId env db r,
      RegExp.compile query = Some r ->
      exists resp,
        SearchService.globalSearch query (SearchService.mkOptions (Some "tasks") limit)
                                   userId env db
        = (db, Resolved resp)
        /\ SearchService.tasks (SearchService.results resp)
           = Some (limitTo (orElse limit 10)
                     (sortBy (fun a b => Nat.leb (Task.updatedAt b) (Task.updatedAt a))
                        (filter (fun d =>
                                   RegExp.test r (Task.title d)
                                   || RegExp.test r (Task.description d)
                                   || SearchService.regexOpt r (Task.taskNumber d))
                                (Db.tasks db)))))
  /\ (searchedTaskIds "a.c" patternDb = Some ["t1"]
      /\ literalTaskIds "a.c" patternDb = [])
  /\ (searchedTaskIds "x|y" patternDb = Some ["t2"]
      /\ literalTaskIds "x|y" patternDb = [])
  /\ (searchedTaskIds "a+b" patternDb = Some []
      /\ literalTaskIds "a+b" patternDb = ["t3"]).
Proof.
  split.
  - intros query limit userId env db r Hcompile.
    rewrite globalSearch_tasks_scope, Hcompile. cbv zeta.
    eexists. split; reflexivity.
  - repeat split; vm_compute; reflexivity.
Qed.

(** The query ["x|y"] on [patternDb]. *)
Lemma search_query_is_a_pattern_witness :
  exists resp,
    SearchService.globalSearch "x|y" (SearchService.mkOptions (Some "tasks") None)
                               "u1" quietEnv patternDb
    = (patternDb, Resolved resp)
    /\ option_map (map Task._id) (SearchService.tasks (SearchService.results resp))
       = Some ["t2"].
Proof.
  destruct search_query_is_a_pattern as (Hcompiled & _).
  destruct (Hcompiled "x|y" None "u1" quietEnv patternDb
              (match RegExp.compile "x|y" with Some r => r | None => RegExp.Fail end)
              ltac:(vm_compute; reflexivity)) as (resp & Hrun & Hfound).
  exists resp. split; [exact Hrun|].
  rewrite Hfound. vm_compute. reflexivity.
Defined.

(** ** Project membership *)

Lemma existsb_isSome_find {A} (q : A -> bool) (l : list A) :
  existsb q l = isSome (find q l).
Proof.
  induction l as [|x r IH]; simpl; [reflexivity|].
  now destruct (q x).
Qed.

Lemma isMember_isSome_role (p : Project.t) (u : ObjectId) :
  Project.isMember p u = isSome (Project.getMemberRole p u).
Proof.
  unfold Project.isMember, Project.getMemberRole.
  destruct (Project.owner p =? u); simpl; [reflexivity|].
  rewrite existsb_isSome_find. now destruct (find _ (Project.members p)).
Qed.

(** X1: [isMember] and [getMemberRole] agree: a user is a member of a
    project exactly when [getMemberRole] resolves a role for them, and a
    non-member exactly when it answers [null]. *)
Theorem isMember_iff_role (p : Project.t) (u : ObjectId) :
  (Project.isMember p u = true <-> exists r, Project.getMemberRole p u = Some r)
  /\ (Project.isMember p u = false <-> Project.getMemberRole p u = None).
Proof.
  rewrite isMember_isSome_role.
  destruct (Project.getMemberRole p u) as [r|]; simpl; split; split;
    try discriminate; try reflexivity; eauto.
  intros [r H]. discriminate H.
Qed.

Lemma getMemberRole_find (p : Project.t) (u : ObjectId) :
  Project.getMemberRole p u
  = if Project.owner p =? u then Some MemberRole.owner
    else option_map ProjectMember.role
           (find (projectRepository.isUser u) (Project.members p)).
Proof.
  unfold Project.getMemberRole, projectRepository.isUser.
  destruct (Project.owner p =? u); [reflexivity|].
  now destruct (find _ (Project.members p)).
Qed.

Lemma find_pull_other (u memberId : ObjectId) (ms : list ProjectMember.t) :
  u <> memberId ->
  find (projectRepository.isUser u)
       (filter (fun m => negb (projectRepository.isUser memberId m)) ms)
  = find (projectRepository.isUser u) ms.
Proof.
  intros Hne. unfold projectRepository.isUser.
  induction ms as [|m r IH]; simpl; [reflexivity|].
  destruct (String.eqb_spec (ProjectMember.user m) memberId) as [E|E]; simpl.
  - destruct (String.eqb_spec (ProjectMember.user m) u) as [E'|E']; [congruence|exact IH].
  - destruct (ProjectMember.user m =? u); [reflexivity|exact IH].
Qed.

Lemma existsb_pull_self (memberId : ObjectId) (ms : list ProjectMember.t) :
  existsb (fun m => ProjectMember.user m =? memberId)
          (filter (fun m => negb (projectRepository.isUser memberId m)) ms) = false.
Proof.
  unfold projectRepository.isUser.
  induction ms as [|m r IH]; simpl; [reflexivity|].
  destruct (ProjectMember.user m =? memberId) eqn:E; simpl; [exact IH|].
  now rewrite E.
Qed.

Lemma hasId_pullMember id u now p :
  projectRepository.hasId id (projectRepository.pullMember u now p)
  = projectRepository.hasId id p.
Proof. reflexivity. Qed.

(** X2: when [removeMember] passes its checks (the actor removes
    themselves, or is the owner or a project admin; the target is a member
    other than the owner) and the audit append succeeds, it resolves with
    the stored project, in which the removed user has no role and is no
    member any more, while every other user resolves to the same role as
    before.  The tasks of the store, assignments included, are left as
    they were. *)
Theorem removeMember_removes (env : Env.t) (db : Db.t) (projectId memberId actorId : ObjectId)
        (project : Project.t) :
  find (projectRepository.hasId projectId) (Db.projects db) = Some project ->
  (actorId =? memberId) || (Project.owner project =? actorId)
  || ProjectService.roleIsAdmin (Project.getMemberRole project actorId) = true ->
  Project.owner project <> memberId ->
  Project.isMember project memberId = true ->
  Env.activityWriteFails env = false ->
  exists db' p',
    ProjectService.removeMember projectId memberId actorId env db = (db', Resolved p')
    /\ find (projectRepository.hasId projectId) (Db.projects db') = Some p'
    /\ Project.isMember p' memberId = false
    /\ Project.getMemberRole p' memberId = None
    /\ (forall u, u <> memberId ->
                  Project.getMemberRole p' u = Project.getMemberRole project u)
    /\ Db.tasks db' = Db.tasks db.
Proof.
  intros Hfind Hallowed Hnotowner Hmember Hwrites.
  assert (Hgate : negb (actorId =? memberId) && negb (Project.owner project =? actorId)
                  && negb (ProjectService.roleIsAdmin
                             (Project.getMemberRole project actorId)) = false).
  { rewrite <- !negb_orb. now rewrite Hallowed. }
  apply String.eqb_neq in Hnotowner.
  unfold ProjectService.removeMember. run.
  rewrite Hfind, Hgate, Hnotowner, Hmember. simpl. rewrite Hwrites. simpl.
  rewrite (find_updateFirst (projectRepository.hasId projectId)
             (projectRepository.pullMember memberId (Env.now env))
             (hasId_pullMember projectId memberId (Env.now env))),
    Hfind.
  simpl. do 2 eexists. split; [reflexivity|]. simpl.
  rewrite (find_updateFirst (projectRepository.hasId projectId)
             (projectRepository.pullMember memberId (Env.now env))
             (hasId_pullMember projectId memberId (Env.now env))),
    Hfind.
  assert (Hgone : Project.isMember (projectRepository.pullMember memberId (Env.now env) project)
                                   memberId
                  = false).
  { unfold Project.isMember. simpl. rewrite Hnotowner. simpl. apply existsb_pull_self. }
  repeat split.
  - exact Hgone.
  - rewrite isMember_isSome_role in Hgone.
    now destruct (Project.getMemberRole _ memberId).
  - intros u Hu. rewrite !getMemberRole_find. simpl.
    now rewrite find_pull_other.
Qed.

(** The viewer ["u3"] leaves [teamProject]; the admin keeps their role. *)
Lemma removeMember_removes_witness :
  exists db' p',
    ProjectService.removeMember "p1" "u3" "u3" quietEnv teamDb = (db', Resolved p')
    /\ Project.getMemberRole p' "u3" = None
    /\ Project.getMemberRole p' "u2" = Some MemberRole.admin.
Proof.
  destruct (removeMember_removes quietEnv teamDb "p1" "u3" "u3" teamProject
              eq_refl eq_refl ltac:(discriminate) eq_refl eq_refl)
    as (db' & p' & Hrun & _ & _ & Hgone & Hothers & _).
  exists db', p'. split; [exact Hrun|]. split; [exact Hgone|].
  rewrite Hothers; [reflexivity|discriminate].
Defined.

Lemma isUser_set_role u r m :
  projectRepository.isUser u (ProjectMember.set_role r m) = projectRepository.isUser u m.
Proof. reflexivity. Qed.

Lemma memberUsers_setMemberRole (u : ObjectId) (r : MemberRole.t) (now : Date)
      (p : Project.t) :
  memberUsers (projectRepository.setMemberRole u r now p) = memberUsers p.
Proof.
  unfold memberUsers, projectRepository.setMemberRole. simpl.
  induction (Project.members p) as [|m ms IH]; simpl; [reflexivity|].
  destruct (projectRepository.isUser u m); simpl; [reflexivity|now rewrite IH].
Qed.

Lemma existsb_isUser_memberUsers (u : ObjectId) (p : Project.t) :
  existsb (projectRepository.isUser u) (Project.members p) = true <-> In u (memberUsers p).
Proof.
  unfold memberUsers, projectRepository.isUser. rewrite existsb_exists, in_map_iff.
  split; intros (m & H1 & H2).
  - apply String.eqb_eq in H2. eauto.
  - exists m. split; [assumption|]. now apply String.eqb_eq.
Qed.

Lemma listsUser_setMemberRole projectId u r now p :
  projectRepository.listsUser projectId u (projectRepository.setMemberRole u r now p)
  = projectRepository.listsUser projectId u p.
Proof.
  unfold projectRepository.listsUser. f_equal.
  apply eq_true_iff_eq. rewrite !existsb_isUser_memberUsers.
  now rewrite memberUsers_setMemberRole.
Qed.

Lemma find_listsUser (projectId memberId : ObjectId) (l : list Project.t) (project : Project.t) :
  find (projectRepository.hasId projectId) l = Some project ->
  existsb (projectRepository.isUser memberId) (Project.members project) = true ->
  find (projectRepository.listsUser projectId memberId) l = Some project
  /\ forall f, updateFirst (projectRepository.listsUser projectId memberId) f l
               = updateFirst (projectRepository.hasId projectId) f l.
Proof.
  intros Hfind Hlisted. unfold projectRepository.listsUser.
  induction l as [|x r IH]; simpl in *; [discriminate|].
  destruct (projectRepository.hasId projectId x) eqn:E.
  - injection Hfind as ->. rewrite Hlisted. simpl. split; reflexivity.
  - simpl. destruct (IH Hfind) as [IH1 IH2]. split; [exact IH1|].
    intros f. now rewrite IH2.
Qed.

Lemma find_role_other (u memberId : ObjectId) (r : MemberRole.t) (ms : list ProjectMember.t) :
  u <> memberId ->
  option_map ProjectMember.role
    (find (projectRepository.isUser u)
       (updateFirst (projectRepository.isUser memberId) (ProjectMember.set_role r) ms))
  = option_map ProjectMember.role (find (projectRepository.isUser u) ms).
Proof.
  intros Hne. unfold projectRepository.isUser.
  induction ms as [|m rest IH]; simpl; [reflexivity|].
  destruct (String.eqb_spec (ProjectMember.user m) memberId) as [E|E]; simpl.
  - destruct (String.eqb_spec (ProjectMember.user m) u) as [E'|E']; [congruence|reflexivity].
  - destruct (ProjectMember.user m =? u); [reflexivity|exact IH].
Qed.

Lemma hasId_setMemberRole id u r now p :
  projectRepository.hasId id (projectRepository.setMemberRole u r now p)
  = projectRepository.hasId id p.
Proof. reflexivity. Qed.

(** X3: when the owner changes the role of a listed member and
    the audit append succeeds, [updateMemberRole] resolves with the stored
    project, in which that member resolves to the new role; every other
    user resolves to the same role as before and the list of members is
    the same. *)
Theorem updateMemberRole_sets_role (env : Env.t) (db : Db.t)
        (projectId memberId actorId : ObjectId) (newRole : MemberRole.t)
        (project : Project.t) :
  find (projectRepository.hasId projectId) (Db.projects db) = Some project ->
  Project.owner project = actorId ->
  Project.owner project <> memberId ->
  Project.isMember project memberId = true ->
  Env.activityWriteFails env = false ->
  exists db' p',
    ProjectService.updateMemberRole projectId memberId newRole actorId env db
    = (db', Resolved p')
    /\ find (projectRepository.hasId projectId) (Db.projects db') = Some p'
    /\ Project.getMemberRole p' memberId = Some newRole
    /\ (forall u, u <> memberId ->
                  Project.getMemberRole p' u = Project.getMemberRole project u)
    /\ memberUsers p' = memberUsers project.
Proof.
  intros Hfind Hactor Hnotowner Hmember Hwrites.
  apply String.eqb_neq in Hnotowner.
  assert (Hlisted : existsb (projectRepository.isUser memberId) (Project.members project)
                    = true).
  { unfold Project.isMember in Hmember. now rewrite Hnotowner in Hmember. }
  destruct (find_listsUser projectId memberId (Db.projects db) project Hfind Hlisted)
    as [Hlists Hsame].
  pose proof Hlisted as Hentry. rewrite existsb_isSome_find in Hentry.
  destruct (find (projectRepository.isUser memberId) (Project.members project))
    as [member|] eqn:Hmemberfound; [clear Hentry|discriminate].
  unfold ProjectService.updateMemberRole. run.
  rewrite Hfind, Hactor, String.eqb_refl. simpl.
  rewrite <- Hactor, Hnotowner. simpl. rewrite Hmemberfound. simpl.
  rewrite Hwrites. simpl.
  rewrite (find_updateFirst (projectRepository.listsUser projectId memberId)
             (projectRepository.setMemberRole memberId newRole (Env.now env))
             (listsUser_setMemberRole projectId memberId newRole (Env.now env))), Hlists.
  simpl. do 2 eexists. split; [reflexivity|]. simpl.
  rewrite Hsame.
  rewrite (find_updateFirst (projectRepository.hasId projectId)
             (projectRepository.setMemberRole memberId newRole (Env.now env))
             (hasId_setMemberRole projectId memberId newRole (Env.now env))), Hfind.
  repeat split.
  - rewrite getMemberRole_find. cbn [projectRepository.setMemberRole Project.owner
                                       Project.set_members Project.set_updatedAt
                                       Project.members].
    rewrite Hnotowner.
    rewrite (find_updateFirst (projectRepository.isUser memberId)
               (ProjectMember.set_role newRole) (isUser_set_role memberId newRole)),
      Hmemberfound.
    reflexivity.
  - intros u Hu. rewrite !getMemberRole_find.
    cbn [projectRepository.setMemberRole Project.owner Project.set_members
           Project.set_updatedAt Project.members].
    now rewrite find_role_other.
  - apply memberUsers_setMemberRole.
Qed.

(** The owner promotes the viewer ["u3"] of [teamProject] to member. *)
Lemma updateMemberRole_sets_role_witness :
  exists db' p',
    ProjectService.updateMemberRole "p1" "u3" MemberRole.member "u1" quietEnv teamDb
    = (db', Resolved p')
    /\ Project.getMemberRole p' "u3" = Some MemberRole.member.
Proof.
  destruct (updateMemberRole_sets_role quietEnv teamDb "p1" "u3" "u1" MemberRole.member
              teamProject eq_refl eq_refl ltac:(discriminate) eq_refl eq_refl)
    as (db' & p' & Hrun & _ & Hrole & _).
  exists db', p'. split; assumption.
Defined.

Lemma hasId_pushMember id m now p :
  projectRepository.hasId id (projectRepository.pushMember m now p)
  = projectRepository.hasId id p.
Proof. reflexivity. Qed.

Lemma find_app_last {A} (q : A -> bool) (l : list A) (x : A) :
  find q (l ++ [x]) = match find q l with
                      | Some y => Some y
                      | None => if q x then Some x else None
                      end.
Proof.
  induction l as [|y r IH]; simpl; [reflexivity|].
  now destruct (q y).
Qed.

(** X4: when the owner or a project admin adds an existing user who
    is not yet a member and the audit append succeeds, [addMember] resolves
    with the stored project, in which the new member resolves to the
    requested role and is appended to the members; every other user
    resolves to the same role as before. *)
Theorem addMember_adds (env : Env.t) (db : Db.t) (projectId actorId : ObjectId)
        (m : projectRepository.memberData) (project : Project.t) (user : User.t) :
  find (projectRepository.hasId projectId) (Db.projects db) = Some project ->
  (Project.owner project =? actorId)
  || ProjectService.roleIsAdmin (Project.getMemberRole project actorId) = true ->
  find (userRepository.hasId (projectRepository.userId m)) (Db.users db) = Some user ->
  Project.isMember project (projectRepository.userId m) = false ->
  Env.activityWriteFails env = false ->
  exists db' p',
    ProjectService.addMember projectId m actorId env db = (db', Resolved p')
    /\ find (projectRepository.hasId projectId) (Db.projects db') = Some p'
    /\ Project.getMemberRole p' (projectRepository.userId m)
       = Some (projectRepository.role m)
    /\ (forall u, u <> projectRepository.userId m ->
                  Project.getMemberRole p' u = Project.getMemberRole project u)
    /\ memberUsers p' = (memberUsers project ++ [projectRepository.userId m])%list.
Proof.
  intros Hfind Hallowed Huser Hnew Hwrites.
  assert (Hgate : negb (Project.owner project =? actorId)
                  && negb (ProjectService.roleIsAdmin
                             (Project.getMemberRole project actorId)) = false).
  { rewrite <- negb_orb. now rewrite Hallowed. }
  unfold ProjectService.addMember. run.
  rewrite Hfind, Hgate. simpl. rewrite Huser, Hnew. simpl. rewrite Hwrites. simpl.
  rewrite (find_updateFirst (projectRepository.hasId projectId)
             (projectRepository.pushMember m (Env.now env))
             (hasId_pushMember projectId m (Env.now env))), Hfind.
  simpl. do 2 eexists. split; [reflexivity|]. simpl.
  rewrite (find_updateFirst (projectRepository.hasId projectId)
             (projectRepository.pushMember m (Env.now env))
             (hasId_pushMember projectId m (Env.now env))), Hfind.
  unfold Project.isMember in Hnew. apply orb_false_iff in Hnew.
  destruct Hnew as [Hnotowner Hnotlisted].
  rewrite existsb_isSome_find in Hnotlisted.
  repeat split.
  - rewrite getMemberRole_find. simpl. rewrite Hnotowner, find_app_last.
    unfold projectRepository.isUser at 1.
    destruct (find _ (Project.members project)); [discriminate|].
    unfold projectRepository.isUser. simpl. now rewrite String.eqb_refl.
  - intros u Hu. rewrite !getMemberRole_find. simpl. rewrite find_app_last.
    destruct (find (projectRepository.isUser u) (Project.members project));
      [reflexivity|].
    unfold projectRepository.isUser. simpl.
    destruct (String.eqb_spec (projectRepository.userId m) u); [congruence|reflexivity].
  - unfold memberUsers. simpl. now rewrite map_app.
Qed.

(** The project admin ["u2"] adds the deactivated user ["u4"]. *)
Lemma addMember_adds_witness :
  exists db' p',
    ProjectService.addMember "p1" addNewcomer "u2" quietEnv staffedDb = (db', Resolved p')
    /\ Project.getMemberRole p' "u4" = Some MemberRole.member.
Proof.
  destruct (addMember_adds quietEnv staffedDb "p1" "u2" addNewcomer teamProject
              (User.new "u4" "nick@example.com" "Nick" "Newcomer" Roles.MEMBER false 4)
              eq_refl eq_refl eq_refl eq_refl eq_refl)
    as (db' & p' & Hrun & _ & Hrole & _).
  exists db', p'. split; assumption.
Defined.

(** X5: adding a user who already is a member (the owner
    included) is always rejected and leaves the store unchanged.  The error
    is one of Forbidden, Not Found and Conflict, and it is Conflict
    whenever the actor may add members and the user exists. *)
Theorem addMember_existing_member (env : Env.t) (db : Db.t) (projectId actorId : ObjectId)
        (m : projectRepository.memberData) (project : Project.t) :
  find (projectRepository.hasId projectId) (Db.projects db) = Some project ->
  Project.isMember project (projectRepository.userId m) = true ->
  exists e,
    ProjectService.addMember projectId m actorId env db = (db, Rejected e)
    /\ (isForbidden e = true \/ isNotFound e = true \/ isConflict e = true)
    /\ ((Project.owner project =? actorId)
        || ProjectService.roleIsAdmin (Project.getMemberRole project actorId) = true ->
        isSome (find (userRepository.hasId (projectRepository.userId m)) (Db.users db))
        = true ->
        isConflict e = true).
Proof.
  intros Hfind Hmember.
  unfold ProjectService.addMember. run. rewrite Hfind.
  destruct ((Project.owner project =? actorId)
            || ProjectService.roleIsAdmin (Project.getMemberRole project actorId))
    eqn:Hallowed.
  - assert (Hgate : negb (Project.owner project =? actorId)
                    && negb (ProjectService.roleIsAdmin
                               (Project.getMemberRole project actorId)) = false).
    { rewrite <- negb_orb. now rewrite Hallowed. }
    rewrite Hgate. simpl.
    destruct (find (userRepository.hasId (projectRepository.userId m)) (Db.users db));
      simpl.
    + rewrite Hmember. simpl. eexists. split; [reflexivity|]. split; auto.
    + eexists. split; [reflexivity|]. split; [auto|]. intros _ H. discriminate H.
  - assert (Hgate : negb (Project.owner project =? actorId)
                    && negb (ProjectService.roleIsAdmin
                               (Project.getMemberRole project actorId)) = true).
    { rewrite <- negb_orb. now rewrite Hallowed. }
    rewrite Hgate. simpl. eexists. split; [reflexivity|]. split; [auto|].
    intros H. discriminate H.
Qed.

(** The owner adds ["u3"], who is a member already. *)
Lemma addMember_existing_member_witness :
  exists e,
    ProjectService.addMember "p1" (projectRepository.mkMember "u3" MemberRole.admin) "u1"
                             quietEnv staffedDb
    = (staffedDb, Rejected e)
    /\ isConflict e = true.
Proof.
  destruct (addMember_existing_member quietEnv staffedDb "p1" "u1"
              (projectRepository.mkMember "u3" MemberRole.admin) teamProject
              eq_refl eq_refl)
    as (e & Hrun & _ & Hkind).
  exists e. split; [exact Hrun|]. apply Hkind; reflexivity.
Defined.

Lemma Forall_updateFirst {A} (P : A -> Prop) (q : A -> bool) (f : A -> A) (l : list A) :
  Forall P l ->
  (forall x, find q l = Some x -> P x -> P (f x)) ->
  Forall P (updateFirst q f l).
Proof.
  induction 1 as [|x r Hx Hr IH]; simpl; intros Hf; [constructor|].
  destruct (q x) eqn:E.
  - constructor; [now apply Hf|assumption].
  - constructor; [assumption|]. now apply IH.
Qed.

Lemma Forall_removeFirst {A} (P : A -> Prop) (q : A -> bool) (l : list A) :
  Forall P l -> Forall P (removeFirst q l).
Proof.
  induction 1 as [|x r Hx Hr IH]; simpl; [constructor|].
  destruct (q x); [assumption|]. now constructor.
Qed.

Lemma wellFormed_applyUpdate u now p :
  wellFormed p -> wellFormed (projectRepository.applyUpdate u now p).
Proof. trivial. Qed.

Lemma wellFormed_setMemberRole u r now p :
  wellFormed p -> wellFormed (projectRepository.setMemberRole u r now p).
Proof.
  unfold wellFormed. rewrite memberUsers_setMemberRole. trivial.
Qed.

Lemma wellFormed_pullMember u now p :
  wellFormed p -> wellFormed (projectRepository.pullMember u now p).
Proof.
  unfold wellFormed, memberUsers, projectRepository.pullMember. simpl.
  generalize (Project.owner p). intros o.
  induction (Project.members p) as [|m ms IH]; simpl; [trivial|].
  intros [Hnodup Hnot]. inversion Hnodup as [|? ? Hm Hms]; subst.
  destruct IH as [IH1 IH2]; [split; [assumption|tauto]|].
  assert (Hsub : forall x, In x (map ProjectMember.user
                                   (filter (fun m => negb (projectRepository.isUser u m)) ms))
                           -> In x (map ProjectMember.user ms)).
  { intros x Hx. apply in_map_iff in Hx. destruct Hx as (y & <- & Hy).
    apply filter_In in Hy. apply in_map. tauto. }
  destruct (negb (projectRepository.isUser u m)); simpl.
  - split; [constructor; auto|]. intros [E|Hin]; [tauto|]. apply Hnot. right. auto.
  - split; assumption.
Qed.

Lemma wellFormed_pushMember m now p :
  wellFormed p ->
  Project.isMember p (projectRepository.userId m) = false ->
  wellFormed (projectRepository.pushMember m now p).
Proof.
  unfold wellFormed, projectRepository.pushMember. intros [Hnodup Hnot] Hnew.
  unfold Project.isMember in Hnew. apply orb_false_iff in Hnew.
  destruct Hnew as [Hnotowner Hnotlisted]. apply String.eqb_neq in Hnotowner.
  assert (Hfresh : ~ In (projectRepository.userId m) (memberUsers p)).
  { intros Hin. apply existsb_isUser_memberUsers in Hin.
    unfold projectRepository.isUser in Hin. congruence. }
  unfold memberUsers in *. simpl. rewrite map_app. simpl. split.
  - apply NoDup_app; [assumption|repeat constructor; simpl; tauto|].
    intros x Hx [<-|[]]. contradiction.
  - intros Hin. apply in_app_or in Hin. destruct Hin as [Hin|[E|[]]]; congruence.
Qed.

(** X6: in a store where no project lists a user twice
    or lists its own owner, this still holds after every request to
    [createProject], [updateProject], [deleteProject], [removeMember] and
    [updateMemberRole], whatever its arguments and whether it resolves or
    rejects, and after every request to [addMember] that names the user
    by the printed form of the identifier (an identifier spelled with
    upper-case letters is read by the store as the same user but compared
    as another one by [isMember]; nothing is stated for such a request). *)
Theorem membership_stays_well_formed (env : Env.t) (db : Db.t) :
  Forall wellFormed (Db.projects db) ->
  (forall d ownerId,
      Forall wellFormed (Db.projects (after (ProjectService.createProject d ownerId) env db)))
  /\ (forall projectId u userId,
         Forall wellFormed
           (Db.projects (after (ProjectService.updateProject projectId u userId) env db)))
  /\ (forall projectId userId,
         Forall wellFormed
           (Db.projects (after (ProjectService.deleteProject projectId userId) env db)))
  /\ (forall projectId m actorId,
         printed (projectRepository.userId m) = true ->
         Forall wellFormed
           (Db.projects (after (ProjectService.addMember projectId m actorId) env db)))
  /\ (forall projectId memberId actorId,
         Forall wellFormed
           (Db.projects
              (after (ProjectService.removeMember projectId memberId actorId) env db)))
  /\ (forall projectId memberId newRole actorId,
         Forall wellFormed
           (Db.projects
              (after (ProjectService.updateMemberRole projectId memberId newRole actorId)
                     env db))).
Proof.
  intros Hwf.
  repeat split.
  - intros d ownerId. unfold after, ProjectService.createProject,
      projectRepository.findByKey, projectRepository.create.
    run.
    destruct (isSome (find _ (Db.projects db))); simpl; [assumption|].
    destruct (negb (projectRepository.valid _)); simpl; [assumption|].
    destruct (existsb (projectRepository.hasId _) (Db.projects db)); simpl; [assumption|].
    destruct (existsb _ (Db.projects db)); simpl; [assumption|].
    destruct (Env.activityWriteFails env); simpl;
      (apply Forall_app; split; [assumption|]; repeat constructor; simpl; tauto).
  - intros projectId u userId. unfold after, ProjectService.updateProject. run.
    destruct (find (projectRepository.hasId projectId) (Db.projects db)) as [p|];
      simpl; [|assumption].
    destruct (negb (Project.owner p =? userId) && _); simpl; [assumption|].
    destruct (projectRepository.validUpdate _); simpl; [|assumption].
    assert (Hup : Forall wellFormed
                    (updateFirst (projectRepository.hasId projectId)
                       (projectRepository.applyUpdate (projectRepository.setters u)
                                                      (Env.now env))
                       (Db.projects db))).
    { apply Forall_updateFirst; [assumption|]. intros x _ Hx.
      now apply wellFormed_applyUpdate. }
    destruct (Env.activityWriteFails env); simpl; [assumption|].
    destruct (find _ (updateFirst _ _ (Db.projects db))); simpl; assumption.
  - intros projectId userId. unfold after, ProjectService.deleteProject,
      projectRepository.deleteById. run.
    destruct (find (projectRepository.hasId projectId) (Db.projects db)) as [p|];
      simpl; [|assumption].
    destruct (negb (Project.owner p =? userId)); simpl; [assumption|].
    destruct (Env.activityWriteFails env); simpl; now apply Forall_removeFirst.
  - intros projectId m actorId _. unfold after, ProjectService.addMember,
      projectRepository.addMember. run.
    destruct (find (projectRepository.hasId projectId) (Db.projects db)) as [p|] eqn:Hfind;
      simpl; [|assumption].
    destruct (negb (Project.owner p =? actorId) && _); simpl; [assumption|].
    destruct (find (userRepository.hasId _) (Db.users db)); simpl; [|assumption].
    destruct (Project.isMember p (projectRepository.userId m)) eqn:Hnew; simpl;
      [assumption|].
    assert (Hup : Forall wellFormed
                    (updateFirst (projectRepository.hasId projectId)
                       (projectRepository.pushMember m (Env.now env)) (Db.projects db))).
    { apply Forall_updateFirst; [assumption|]. intros x Hx Hwfx.
      rewrite Hfind in Hx. injection Hx as <-. now apply wellFormed_pushMember. }
    destruct (Env.activityWriteFails env); simpl; [assumption|].
    destruct (find _ (updateFirst _ _ (Db.projects db))); simpl; assumption.
  - intros projectId memberId actorId. unfold after, ProjectService.removeMember. run.
    destruct (find (projectRepository.hasId projectId) (Db.projects db)) as [p|];
      simpl; [|assumption].
    destruct (negb (actorId =? memberId) && _ && _); simpl; [assumption|].
    destruct (Project.owner p =? memberId); simpl; [assumption|].
    destruct (negb (Project.isMember p memberId)); simpl; [assumption|].
    assert (Hup : Forall wellFormed
                    (updateFirst (projectRepository.hasId projectId)
                       (projectRepository.pullMember memberId (Env.now env))
                       (Db.projects db))).
    { apply Forall_updateFirst; [assumption|]. intros x _ Hx.
      now apply wellFormed_pullMember. }
    destruct (Env.activityWriteFails env); simpl; [assumption|].
    destruct (find _ (updateFirst _ _ (Db.projects db))); simpl; assumption.
  - intros projectId memberId newRole actorId.
    unfold after, ProjectService.updateMemberRole. run.
    destruct (find (projectRepository.hasId projectId) (Db.projects db)) as [p|];
      simpl; [|assumption].
    destruct (negb (Project.owner p =? actorId)); simpl; [assumption|].
    destruct (Project.owner p =? memberId); simpl; [assumption|].
    destruct (find (projectRepository.isUser memberId) (Project.members p)); simpl;
      [|assumption].
    assert (Hup : Forall wellFormed
                    (updateFirst (projectRepository.listsUser projectId memberId)
                       (projectRepository.setMemberRole memberId newRole (Env.now env))
                       (Db.projects db))).
    { apply Forall_updateFirst; [assumption|]. intros x _ Hx.
      now apply wellFormed_setMemberRole. }
    destruct (Env.activityWriteFails env); simpl; [assumption|].
    destruct (find _ (updateFirst _ _ (Db.projects db))); simpl; assumption.
Qed.

(** [teamProject] after the owner has added ["u4"]. *)
Lemma membership_stays_well_formed_witness :
  Forall wellFormed
    (Db.projects (after (ProjectService.addMember "p1" addNewcomer "u1") quietEnv staffedDb)).
Proof.
  assert (Hwf : Forall wellFormed (Db.projects staffedDb)).
  { repeat constructor; simpl; intuition discriminate. }
  destruct (membership_stays_well_formed quietEnv staffedDb Hwf)
    as (_ & _ & _ & Hadd & _).
  apply Hadd. reflexivity.
Defined.

(** ** Creating, guarding and deleting projects *)

Lemma toUpper_fixed (c : ascii) : isUpper c || isDigit c = true -> toUpper c = c.
Proof.
  unfold toUpper, isLower, isUpper, isDigit. intros H.
  destruct (Nat.leb 97 (nat_of_ascii c) && Nat.leb (nat_of_ascii c) 122) eqn:E;
    [|reflexivity].
  exfalso.
  apply andb_true_iff in E. destruct E as [E1 E2].
  apply Nat.leb_le in E1.
  apply orb_true_iff in H. destruct H as [H|H]; apply andb_true_iff in H;
    destruct H as [_ H]; apply Nat.leb_le in H; lia.
Qed.

Lemma toUpperCase_fixed (k : string) :
  forallb (fun x => isUpper x || isDigit x) (list_ascii_of_string k) = true ->
  toUpperCase k = k.
Proof.
  induction k as [|c r IH]; simpl; [reflexivity|].
  intros H. apply andb_true_iff in H. destruct H as [Hc Hr].
  now rewrite toUpper_fixed, IH.
Qed.

Lemma keyMatches_upper (k : string) : Project.keyMatches k = true -> toUpperCase k = k.
Proof.
  unfold Project.keyMatches. destruct k as [|c r]; [discriminate|].
  intros H. apply andb_true_iff in H. destruct H as [H Hr].
  apply andb_true_iff in H. destruct H as [H _].
  apply andb_true_iff in H. destruct H as [Hc _].
  cbn [toUpperCase].
  rewrite toUpper_fixed by (now rewrite Hc).
  now rewrite toUpperCase_fixed.
Qed.

Lemma isWhitespace_toUpper (c : ascii) : isWhitespace (toUpper c) = isWhitespace c.
Proof. destruct c as [[] [] [] [] [] [] [] []]; reflexivity. Qed.

Lemma toUpper_idempotent (c : ascii) : toUpper (toUpper c) = toUpper c.
Proof. destruct c as [[] [] [] [] [] [] [] []]; reflexivity. Qed.

Lemma toUpperCase_idempotent (s : string) : toUpperCase (toUpperCase s) = toUpperCase s.
Proof.
  induction s as [|c r IH]; simpl; [reflexivity|].
  now rewrite toUpper_idempotent, IH.
Qed.

Lemma trimStart_toUpperCase (s : string) :
  trimStart (toUpperCase s) = toUpperCase (trimStart s).
Proof.
  induction s as [|c r IH]; simpl; [reflexivity|].
  rewrite isWhitespace_toUpper. now destruct (isWhitespace c).
Qed.

Lemma trimEnd_toUpperCase (s : string) :
  trimEnd (toUpperCase s) = toUpperCase (trimEnd s).
Proof.
  induction s as [|c r IH]; simpl; [reflexivity|].
  rewrite IH, isWhitespace_toUpper.
  destruct (trimEnd r); simpl; [|reflexivity].
  now destruct (isWhitespace c).
Qed.

(** The setters of the [key] path commute: trimming and raising to upper
    case a key that was raised already gives the key trimmed and raised. *)
Lemma key_setters_toUpperCase (s : string) :
  toUpperCase (trim (toUpperCase s)) = toUpperCase (trim s).
Proof.
  unfold trim.
  now rewrite trimStart_toUpperCase, trimEnd_toUpperCase, toUpperCase_idempotent.
Qed.

Lemma trimEnd_fixed (s : string) :
  forallb (fun x => negb (isWhitespace x)) (list_ascii_of_string s) = true ->
  trimEnd s = s.
Proof.
  induction s as [|c r IH]; simpl; [reflexivity|].
  intros H. apply andb_true_iff in H. destruct H as [Hc Hr].
  rewrite (IH Hr). apply negb_true_iff in Hc. rewrite Hc.
  now destruct r.
Qed.

Lemma trim_fixed (s : string) :
  forallb (fun x => negb (isWhitespace x)) (list_ascii_of_string s) = true ->
  trim s = s.
Proof.
  intros H. unfold trim.
  assert (Hstart : trimStart s = s).
  { destruct s as [|c r]; [reflexivity|]. simpl in *.
    apply andb_true_iff in H. destruct H as [Hc _].
    apply negb_true_iff in Hc. now rewrite Hc. }
  rewrite Hstart. now apply trimEnd_fixed.
Qed.

Lemma key_char_not_space (c : ascii) :
  isUpper c || isDigit c = true -> negb (isWhitespace c) = true.
Proof.
  destruct c as [[] [] [] [] [] [] [] []]; vm_compute; intros H;
    first [reflexivity | discriminate H].
Qed.

(** A key that matches the pattern of the schema holds no white space. *)
Lemma keyMatches_trim (k : string) : Project.keyMatches k = true -> trim k = k.
Proof.
  unfold Project.keyMatches. destruct k as [|c r]; [discriminate|].
  intros H. apply andb_true_iff in H. destruct H as [H Hr].
  apply andb_true_iff in H. destruct H as [H _].
  apply andb_true_iff in H. destruct H as [Hc _].
  apply trim_fixed. simpl. apply andb_true_iff. split.
  - apply key_char_not_space. now rewrite Hc.
  - clear Hc. induction (list_ascii_of_string r) as [|x l IH]; simpl in *; [reflexivity|].
    apply andb_true_iff in Hr. destruct Hr as [Hx Hl].
    apply andb_true_iff. split; [now apply key_char_not_space|auto].
Qed.

Lemma existsb_false_forall {A} (q : A -> bool) (l : list A) :
  existsb q l = false -> forall x, In x l -> q x = false.
Proof.
  intros H x Hx. destruct (q x) eqn:E; [|reflexivity].
  assert (existsb q l = true) by (apply existsb_exists; eauto). congruence.
Qed.

(** X7: a project that [createProject] resolves with has the
    requested key trimmed and in upper case, a key that matches the key
    pattern, the creator as owner (resolved to the role [owner]) and no
    members.  It is appended to the store, no other project has its key,
    and [findByKey] finds it under every spelling of the key that agrees
    with it up to letter case. *)
Theorem createProject_resolved (env : Env.t) (db db' : Db.t)
        (d : projectRepository.projectData) (ownerId : ObjectId) (p : Project.t) :
  ProjectService.createProject d ownerId env db = (db', Resolved p) ->
  Project.key p = toUpperCase (trim (projectRepository.d_key d))
  /\ Project.keyMatches (Project.key p) = true
  /\ Project.owner p = ownerId
  /\ Project.members p = []
  /\ Project.getMemberRole p ownerId = Some MemberRole.owner
  /\ Db.projects db' = (Db.projects db ++ [p])%list
  /\ (forall q, In q (Db.projects db) -> Project.key q <> Project.key p)
  /\ (forall k, toUpperCase k = Project.key p ->
                snd (projectRepository.findByKey k env db') = Resolved (Some p))
  /\ toUpperCase (Project.key p) = Project.key p.
Proof.
  unfold ProjectService.createProject, projectRepository.findByKey,
    projectRepository.create.
  run.
  destruct (isSome (find _ (Db.projects db))); simpl; [discriminate|].
  destruct (projectRepository.valid (projectRepository.construct env d ownerId))
    eqn:Hvalid; simpl; [|discriminate].
  destruct (existsb (projectRepository.hasId _) (Db.projects db)); simpl; [discriminate|].
  destruct (existsb _ (Db.projects db)) eqn:Hkey; simpl; [discriminate|].
  destruct (Env.activityWriteFails env); simpl; [discriminate|].
  intros [= <- <-].
  unfold projectRepository.valid in Hvalid.
  repeat (apply andb_true_iff in Hvalid; destruct Hvalid as [Hvalid ?]).
  assert (Hfresh : forall q, In q (Db.projects db) ->
                             Project.key q
                             <> Project.key (projectRepository.construct env d ownerId)).
  { intros q Hq. apply String.eqb_neq.
    exact (existsb_false_forall _ _ Hkey q Hq). }
  repeat split; try assumption.
  - unfold Project.getMemberRole. simpl. now rewrite String.eqb_refl.
  - intros k Hk. simpl. rewrite Hk. f_equal.
    match goal with
    | Hm : Project.keyMatches _ = true |- _ =>
        rewrite (keyMatches_trim _ Hm), (keyMatches_upper _ Hm)
    end.
    apply find_app_fresh; [|apply String.eqb_refl].
    apply existsb_none. intros q Hq. apply String.eqb_neq. now apply Hfresh.
  - now apply keyMatches_upper.
Qed.

(** [launchData] creates [launchProject], found under ["lp1"]. *)
Lemma createProject_resolved_witness :
  Project.key launchProject = "LP1"
  /\ snd (projectRepository.findByKey "lp1" quietEnv
            (after (ProjectService.createProject launchData "u1") quietEnv teamDb))
     = Resolved (Some launchProject).
Proof.
  destruct (createProject_resolved quietEnv teamDb
              (after (ProjectService.createProject launchData "u1") quietEnv teamDb)
              launchData "u1" launchProject eq_refl)
    as (Hkey & _ & _ & _ & _ & _ & _ & Hfind & _).
  split; [exact Hkey|]. apply Hfind. reflexivity.
Defined.

(** X8: when the store already holds a project whose key is
    the requested key trimmed and in upper case, the lookup of
    [createProject] finds it: the request is rejected with 409 Conflict,
    whatever the rest of the data, and the store is left unchanged. *)
Theorem createProject_taken_key (env : Env.t) (db : Db.t)
        (d : projectRepository.projectData) (ownerId : ObjectId) (q : Project.t) :
  In q (Db.projects db) ->
  Project.key q = toUpperCase (trim (projectRepository.d_key d)) ->
  ProjectService.createProject d ownerId env db
  = (db, Rejected (EApi (ApiError.conflict "Project key already exists")))
  /\ isConflict (EApi (ApiError.conflict "Project key already exists")) = true.
Proof.
  intros Hin Hkey. split; [|reflexivity].
  unfold ProjectService.createProject, projectRepository.findByKey. run.
  rewrite key_setters_toUpperCase.
  assert (Hfound : isSome (find (fun p => Project.key p
                                          =? toUpperCase (trim (projectRepository.d_key d)))
                                (Db.projects db)) = true).
  { rewrite <- existsb_isSome_find. apply existsb_exists.
    exists q. split; [assumption|]. now apply String.eqb_eq. }
  now rewrite Hfound.
Qed.

(** The key [" apo "] is the key of [teamProject]; the name given with it
    is blank, which the validators would refuse. *)
Lemma createProject_taken_key_witness :
  ProjectService.createProject apolloAgain "u2" quietEnv teamDb
  = (teamDb, Rejected (EApi (ApiError.conflict "Project key already exists")))
  /\ projectRepository.valid (projectRepository.construct quietEnv apolloAgain "u2") = false.
Proof.
  destruct (createProject_taken_key quietEnv teamDb apolloAgain "u2" teamProject
              (or_introl eq_refl) eq_refl)
    as (Hrun & _).
  split; [exact Hrun|reflexivity].
Defined.

(** X9: for an actor who is not the owner of the project,
    [deleteProject] and [updateMemberRole] are refused with Forbidden and
    leave the store unchanged; if the actor is no project admin either, so
    are [updateProject], [addMember] and every [removeMember] of somebody
    else. *)
Theorem project_mutations_gate (env : Env.t) (db : Db.t) (projectId actorId : ObjectId)
        (project : Project.t) :
  find (projectRepository.hasId projectId) (Db.projects db) = Some project ->
  Project.owner project <> actorId ->
  (exists e, ProjectService.deleteProject projectId actorId env db = (db, Rejected e)
             /\ isForbidden e = true)
  /\ (forall memberId newRole,
         exists e,
           ProjectService.updateMemberRole projectId memberId newRole actorId env db
           = (db, Rejected e)
           /\ isForbidden e = true)
  /\ (Project.getMemberRole project actorId <> Some MemberRole.admin ->
      (forall u,
          exists e, ProjectService.updateProject projectId u actorId env db
                    = (db, Rejected e)
                    /\ isForbidden e = true)
      /\ (forall m,
             exists e, ProjectService.addMember projectId m actorId env db
                       = (db, Rejected e)
                       /\ isForbidden e = true)
      /\ (forall memberId,
             memberId <> actorId ->
             exists e, ProjectService.removeMember projectId memberId actorId env db
                       = (db, Rejected e)
                       /\ isForbidden e = true)).
Proof.
  intros Hfind Hnotowner. apply String.eqb_neq in Hnotowner.
  split; [|split].
  - unfold ProjectService.deleteProject. run. rewrite Hfind, Hnotowner. simpl.
    eexists. split; reflexivity.
  - intros memberId newRole. unfold ProjectService.updateMemberRole. run.
    rewrite Hfind, Hnotowner. simpl. eexists. split; reflexivity.
  - intros Hnotadmin.
    assert (Hrole : ProjectService.roleIsAdmin (Project.getMemberRole project actorId)
                    = false).
    { destruct (Project.getMemberRole project actorId) as [[]|]; try reflexivity.
      now destruct Hnotadmin. }
    split; [|split].
    + intros u. unfold ProjectService.updateProject. run.
      rewrite Hfind, Hnotowner, Hrole. simpl. eexists. split; reflexivity.
    + intros m. unfold ProjectService.addMember. run.
      rewrite Hfind, Hnotowner, Hrole. simpl. eexists. split; reflexivity.
    + intros memberId Hother. apply String.eqb_neq in Hother.
      rewrite String.eqb_sym in Hother.
      unfold ProjectService.removeMember. run.
      rewrite Hfind, Hother, Hnotowner, Hrole. simpl. eexists. split; reflexivity.
Qed.

(** The admin ["u2"] may not delete, the viewer ["u3"] may not add. *)
Lemma project_mutations_gate_witness :
  (exists e, ProjectService.deleteProject "p1" "u2" quietEnv teamDb = (teamDb, Rejected e)
             /\ isForbidden e = true)
  /\ (exists e,
         ProjectService.addMember "p1" addNewcomer "u3" quietEnv teamDb
         = (teamDb, Rejected e)
         /\ isForbidden e = true).
Proof.
  split.
  - destruct (project_mutations_gate quietEnv teamDb "p1" "u2" teamProject eq_refl
                ltac:(discriminate)) as (Hdelete & _).
    exact Hdelete.
  - destruct (project_mutations_gate quietEnv teamDb "p1" "u3" teamProject eq_refl
                ltac:(discriminate)) as (_ & _ & Hrest).
    destruct (Hrest ltac:(discriminate)) as (_ & Hadd & _).
    apply Hadd.
Defined.

Lemma find_absent {A} (q : A -> bool) (l : list A) :
  (forall x, In x l -> q x = false) -> find q l = None.
Proof.
  induction l as [|x r IH]; simpl; intros H; [reflexivity|].
  rewrite (H x (or_introl eq_refl)). apply IH. intros y Hy. apply H. now right.
Qed.

Lemma find_removeFirst_unique (id : ObjectId) (l : list Project.t) :
  NoDup (map Project._id l) ->
  find (projectRepository.hasId id) (removeFirst (projectRepository.hasId id) l) = None.
Proof.
  unfold projectRepository.hasId.
  induction l as [|x r IH]; simpl; [reflexivity|].
  intros Hnodup. inversion Hnodup as [|? ? Hx Hr]; subst.
  destruct (String.eqb_spec (Project._id x) id) as [E|E].
  - apply find_absent. intros y Hy. apply String.eqb_neq. intros E'.
    apply Hx. rewrite E, <- E'. now apply in_map.
  - simpl. destruct (String.eqb_spec (Project._id x) id); [contradiction|]. auto.
Qed.

(** X10: a resolved [deleteProject] removes the project
    document and nothing else: tasks, comments and users of the store are
    exactly as before, so the tasks of the project stay behind.  With
    unique project identifiers the project can no longer be found. *)
Theorem deleteProject_does_not_cascade (env : Env.t) (db db' : Db.t)
        (projectId userId : ObjectId) :
  ProjectService.deleteProject projectId userId env db = (db', Resolved tt) ->
  Db.tasks db' = Db.tasks db
  /\ Db.comments db' = Db.comments db
  /\ Db.users db' = Db.users db
  /\ Db.projects db' = removeFirst (projectRepository.hasId projectId) (Db.projects db)
  /\ (NoDup (map Project._id (Db.projects db)) ->
      find (projectRepository.hasId projectId) (Db.projects db') = None).
Proof.
  unfold ProjectService.deleteProject, projectRepository.deleteById. run.
  destruct (find (projectRepository.hasId projectId) (Db.projects db)) as [p|];
    simpl; [|discriminate].
  destruct (negb (Project.owner p =? userId)); simpl; [discriminate|].
  destruct (Env.activityWriteFails env); simpl; [discriminate|].
  intros [= <-]. simpl. repeat split.
  apply find_removeFirst_unique.
Qed.

(** Deleting [teamProject] leaves [openTask] behind. *)
Lemma deleteProject_does_not_cascade_witness :
  Db.tasks (after (ProjectService.deleteProject "p1" "u1") quietEnv taskDb) = [openTask]
  /\ find (projectRepository.hasId "p1")
       (Db.projects (after (ProjectService.deleteProject "p1" "u1") quietEnv taskDb))
     = None.
Proof.
  destruct (deleteProject_does_not_cascade quietEnv taskDb
              (after (ProjectService.deleteProject "p1" "u1") quietEnv taskDb)
              "p1" "u1" eq_refl)
    as (Htasks & _ & _ & _ & Hgone).
  split; [exact Htasks|]. apply Hgone. repeat constructor. simpl. tauto.
Defined.



(** ** The last admin, for every request *)

(** X12: a system with at least one active admin still has at
    least one after any request to [updateRole] or [deactivateUser],
    whatever user, new role and actor it names and whether it resolves or
    rejects. *)
Theorem active_admin_survives (env : Env.t) (db : Db.t) (userId actorId : ObjectId)
        (newRole : Roles.t) :
  1 <= activeAdmins db ->
  1 <= activeAdmins (after (UserService.updateRole userId newRole actorId) env db)
  /\ 1 <= activeAdmins (after (UserService.deactivateUser userId actorId) env db).
Proof.
  intros Hone. unfold activeAdmins in *. split.
  - unfold after, UserService.updateRole. run.
    destruct (find (userRepository.hasId userId) (Db.users db)) as [user|] eqn:Hfind;
      simpl; [|exact Hone].
    pose proof (count_updateFirst (userRepository.hasId userId)
                  (userRepository.activeWithRole Roles.ADMIN)
                  (User.set_role newRole) (Db.users db) user Hfind) as Hcount.
    assert (Hwritten :
              (Roles.eqb (User.role user) Roles.ADMIN && negb (Roles.eqb newRole Roles.ADMIN)
               = false
               \/ 2 <= countDocuments (userRepository.activeWithRole Roles.ADMIN)
                         (Db.users db)) ->
              1 <= countDocuments (userRepository.activeWithRole Roles.ADMIN)
                     (updateFirst (userRepository.hasId userId) (User.set_role newRole)
                                  (Db.users db))).
    { intros [Hkeep|Htwo].
      - unfold userRepository.activeWithRole in Hcount at 2 4. simpl in Hcount.
        destruct (User.isActive user); simpl in Hcount; [|lia].
        destruct (Roles.eqb (User.role user) Roles.ADMIN); simpl in *.
        + apply negb_false_iff in Hkeep. rewrite Hkeep in Hcount. lia.
        + destruct (Roles.eqb newRole Roles.ADMIN); lia.
      - destruct (userRepository.activeWithRole Roles.ADMIN user),
          (userRepository.activeWithRole Roles.ADMIN (User.set_role newRole user)); lia. }
    destruct (Roles.eqb (User.role user) Roles.ADMIN && negb (Roles.eqb newRole Roles.ADMIN))
      eqn:Hdemote; simpl.
    + destruct (countDocuments (userRepository.activeWithRole Roles.ADMIN) (Db.users db))
        as [|[|c]] eqn:Hc; simpl; try lia.
      lapply Hwritten; [intros Hgoal | right; lia].
      destruct (Env.activityWriteFails env); simpl; [exact Hgoal|].
      destruct (find _ (updateFirst _ _ (Db.users db))); simpl; exact Hgoal.
    + pose proof (Hwritten (or_introl eq_refl)) as Hgoal.
      destruct (Env.activityWriteFails env); simpl; [exact Hgoal|].
      destruct (find _ (updateFirst _ _ (Db.users db))); simpl; exact Hgoal.
  - unfold after, UserService.deactivateUser. run.
    destruct (find (userRepository.hasId userId) (Db.users db)) as [user|] eqn:Hfind;
      simpl; [|exact Hone].
    pose proof (count_updateFirst (userRepository.hasId userId)
                  (userRepository.activeWithRole Roles.ADMIN)
                  (User.set_isActive false) (Db.users db) user Hfind) as Hcount.
    unfold userRepository.activeWithRole in Hcount at 2 4. simpl in Hcount.
    destruct (Roles.eqb (User.role user) Roles.ADMIN) eqn:Hrole; simpl.
    + destruct (countDocuments (userRepository.activeWithRole Roles.ADMIN) (Db.users db))
        as [|[|c]] eqn:Hc; simpl; try lia.
      assert (Hgoal : 1 <= countDocuments (userRepository.activeWithRole Roles.ADMIN)
                             (updateFirst (userRepository.hasId userId)
                                (User.set_isActive false) (Db.users db))).
      { destruct (User.isActive user); simpl in Hcount; lia. }
      destruct (Env.activityWriteFails env); simpl; exact Hgoal.
    + assert (Hgoal : 1 <= countDocuments (userRepository.activeWithRole Roles.ADMIN)
                             (updateFirst (userRepository.hasId userId)
                                (User.set_isActive false) (Db.users db))).
      { rewrite andb_false_r in Hcount. lia. }
      destruct (Env.activityWriteFails env); simpl; exact Hgoal.
Qed.

(** The sole admin stays; of two admins one may be demoted. *)
Lemma active_admin_survives_witness :
  1 <= activeAdmins (after (UserService.deactivateUser "a1" "m1") quietEnv soleAdminDb)
  /\ 1 <= activeAdmins
            (after (UserService.updateRole "a2" Roles.VIEWER "a1") quietEnv twoAdminsDb).
Proof.
  destruct (active_admin_survives quietEnv soleAdminDb "a1" "m1" Roles.MEMBER
              ltac:(vm_compute; lia)) as (_ & Hdeactivate).
  destruct (active_admin_survives quietEnv twoAdminsDb "a2" "a1" Roles.VIEWER
              ltac:(vm_compute; lia)) as (Hdemote & _).
  split; assumption.
Defined.

(** ** Search results and user statistics *)

Lemma length_limitTo {A} (n : nat) (l : list A) :
  0 < n -> List.length (limitTo n l) <= n.
Proof.
  unfold limitTo. intros Hn.
  destruct (Nat.eqb_spec n 0); [lia|]. apply firstn_le_length.
Qed.

Lemma globalSearch_shape (query : string) (opts : SearchService.options)
      (userId : ObjectId) (env : Env.t) (db db' : Db.t) (resp : SearchService.response) :
  SearchService.globalSearch query opts userId env db = (db', Resolved resp) ->
  let scope := orElse (SearchService.scope opts) "all" in
  let lim := orElse (SearchService.limit opts) 10 in
  let results := SearchService.results resp in
  exists r,
    RegExp.compile query = Some r
    /\ db' = db
    /\ SearchService.tasks results
       = (if SearchService.inScope scope "tasks"
          then Some (limitTo lim
                       (sortBy (fun a b => Nat.leb (Task.updatedAt b) (Task.updatedAt a))
                          (filter (SearchService.taskMatches r) (Db.tasks db))))
          else None)
    /\ SearchService.projects results
       = (if SearchService.inScope scope "projects"
          then Some (limitTo lim
                       (sortBy (fun a b => Nat.leb (Project.updatedAt b) (Project.updatedAt a))
                          (filter (fun p => SearchService.projectMatches r p
                                            && SearchService.projectVisibleTo userId p)
                                  (Db.projects db))))
          else None)
    /\ SearchService.users results
       = (if SearchService.inScope scope "users"
          then Some (limitTo lim
                       (sortBy (fun a b => String.leb (User.firstName a) (User.firstName b))
                          (filter (SearchService.userMatches r) (Db.users db))))
          else None)
    /\ SearchService.comments results
       = (if SearchService.inScope scope "comments"
          then Some (limitTo lim
                       (sortBy (fun a b => Nat.leb (Comment.createdAt b) (Comment.createdAt a))
                          (filter (SearchService.commentMatches r) (Db.comments db))))
          else None)
    /\ SearchService.totalCount resp
       = SearchService.lengthOf (SearchService.tasks results)
         + SearchService.lengthOf (SearchService.projects results)
         + SearchService.lengthOf (SearchService.users results)
         + SearchService.lengthOf (SearchService.comments results).
Proof.
  unfold SearchService.globalSearch, SearchService.branch,
    SearchService._searchTasks, SearchService._searchProjects,
    SearchService._searchUsers, SearchService._searchComments.
  destruct (RegExp.compile query) as [r|]; [|discriminate].
  run. cbv zeta. intros Hrun. exists r.
  destruct (SearchService.inScope _ "tasks"), (SearchService.inScope _ "projects"),
    (SearchService.inScope _ "users"), (SearchService.inScope _ "comments");
    injection Hrun as <- <-; repeat split.
Qed.

(** X13: a resolved [globalSearch] leaves the store
    unchanged and, for every scope and limit, returns only documents of the
    store: users that are active, comments that are not deleted, and
    projects that are public, owned by the searcher or list the
    searcher. *)
Theorem search_results_are_filtered (query : string) (opts : SearchService.options)
        (userId : ObjectId) (env : Env.t) (db db' : Db.t) (resp : SearchService.response) :
  SearchService.globalSearch query opts userId env db = (db', Resolved resp) ->
  db' = db
  /\ (forall l u, SearchService.users (SearchService.results resp) = Some l ->
                  In u l -> In u (Db.users db) /\ User.isActive u = true)
  /\ (forall l c, SearchService.comments (SearchService.results resp) = Some l ->
                  In c l -> In c (Db.comments db) /\ Comment.isDeleted c = false)
  /\ (forall l p, SearchService.projects (SearchService.results resp) = Some l ->
                  In p l ->
                  In p (Db.projects db) /\ SearchService.projectVisibleTo userId p = true)
  /\ (forall l d, SearchService.tasks (SearchService.results resp) = Some l ->
                  In d l -> In d (Db.tasks db)).
Proof.
  intros Hrun. apply globalSearch_shape in Hrun. cbv zeta in Hrun.
  destruct Hrun as (r & _ & Hdb & Htasks & Hprojects & Husers & Hcomments & _).
  split; [exact Hdb|]. split; [|split; [|split]].
  - intros l u Hl Hin. rewrite Husers in Hl.
    destruct (SearchService.inScope _ "users"); [|discriminate].
    injection Hl as <-. apply In_limitTo, In_sortBy, filter_In in Hin.
    destruct Hin as [Hin Hm]. split; [exact Hin|].
    unfold SearchService.userMatches in Hm. apply andb_true_iff in Hm. tauto.
  - intros l c Hl Hin. rewrite Hcomments in Hl.
    destruct (SearchService.inScope _ "comments"); [|discriminate].
    injection Hl as <-. apply In_limitTo, In_sortBy, filter_In in Hin.
    destruct Hin as [Hin Hm]. split; [exact Hin|].
    unfold SearchService.commentMatches in Hm. apply andb_true_iff in Hm.
    destruct Hm as [_ Hm]. now apply negb_true_iff in Hm.
  - intros l p Hl Hin. rewrite Hprojects in Hl.
    destruct (SearchService.inScope _ "projects"); [|discriminate].
    injection Hl as <-. apply In_limitTo, In_sortBy, filter_In in Hin.
    destruct Hin as [Hin Hm]. split; [exact Hin|].
    apply andb_true_iff in Hm. tauto.
  - intros l d Hl Hin. rewrite Htasks in Hl.
    destruct (SearchService.inScope _ "tasks"); [|discriminate].
    injection Hl as <-. apply In_limitTo, In_sortBy, filter_In in Hin. tauto.
Qed.

(** The search for ["example"] in [staffedDb] skips the deactivated user. *)
Lemma search_results_are_filtered_witness :
  forallb User.isActive
    (orElse (SearchService.users
               (SearchService.results
                  (match snd (SearchService.globalSearch "example"
                                (SearchService.mkOptions None None) "u9" quietEnv staffedDb)
                   with
                   | Resolved resp => resp
                   | Rejected _ =>
                       SearchService.mkResponse "" 0
                         (SearchService.mkResults None None None None)
                   end))) [])
  = true.
Proof.
  pose (resp := match snd (SearchService.globalSearch "example"
                             (SearchService.mkOptions None None) "u9" quietEnv staffedDb)
                with
                | Resolved resp => resp
                | Rejected _ =>
                    SearchService.mkResponse "" 0
                      (SearchService.mkResults None None None None)
                end).
  destruct (search_results_are_filtered "example" (SearchService.mkOptions None None) "u9"
              quietEnv staffedDb staffedDb resp eq_refl)
    as (_ & Husers & _).
  apply forallb_forall. intros u Hu.
  destruct (Husers _ u eq_refl Hu) as (_ & Hactive). exact Hactive.
Defined.

Lemma lengthOf_capped {A} (c : bool) (n : nat) (l : list A) :
  0 < n -> SearchService.lengthOf (if c then Some (limitTo n l) else None) <= n.
Proof.
  intros Hn. destruct c; simpl; [now apply length_limitTo|lia].
Qed.

(** X14: in the answer of a resolved [globalSearch],
    [totalCount] is the sum of the lengths of the returned lists; with a
    positive limit each list holds at most that many documents, hence at
    most four times the limit in total; and with a scope other than
    ["all"] the lists of all other types are absent. *)
Theorem search_result_sizes (query : string) (opts : SearchService.options)
        (userId : ObjectId) (env : Env.t) (db db' : Db.t) (resp : SearchService.response) :
  SearchService.globalSearch query opts userId env db = (db', Resolved resp) ->
  let results := SearchService.results resp in
  let lim := orElse (SearchService.limit opts) 10 in
  SearchService.totalCount resp
  = SearchService.lengthOf (SearchService.tasks results)
    + SearchService.lengthOf (SearchService.projects results)
    + SearchService.lengthOf (SearchService.users results)
    + SearchService.lengthOf (SearchService.comments results)
  /\ (0 < lim ->
      SearchService.lengthOf (SearchService.tasks results) <= lim
      /\ SearchService.lengthOf (SearchService.projects results) <= lim
      /\ SearchService.lengthOf (SearchService.users results) <= lim
      /\ SearchService.lengthOf (SearchService.comments results) <= lim
      /\ SearchService.totalCount resp <= 4 * lim)
  /\ (forall s, SearchService.scope opts = Some s -> s <> "all" ->
                (s <> "tasks" -> SearchService.tasks results = None)
                /\ (s <> "projects" -> SearchService.projects results = None)
                /\ (s <> "users" -> SearchService.users results = None)
                /\ (s <> "comments" -> SearchService.comments results = None)).
Proof.
  intros Hrun. apply globalSearch_shape in Hrun. cbv zeta in *.
  destruct Hrun as (r & _ & _ & Htasks & Hprojects & Husers & Hcomments & Htotal).
  split; [exact Htotal|]. split.
  - intros Hlim. rewrite Htotal, Htasks, Hprojects, Husers, Hcomments.
    pose proof (lengthOf_capped
                  (SearchService.inScope (orElse (SearchService.scope opts) "all") "tasks")
                  _ (sortBy (fun a b => Nat.leb (Task.updatedAt b) (Task.updatedAt a))
                       (filter (SearchService.taskMatches r) (Db.tasks db))) Hlim) as H1.
    pose proof (lengthOf_capped
                  (SearchService.inScope (orElse (SearchService.scope opts) "all") "projects")
                  _ (sortBy (fun a b => Nat.leb (Project.updatedAt b) (Project.updatedAt a))
                       (filter (fun p => SearchService.projectMatches r p
                                         && SearchService.projectVisibleTo userId p)
                               (Db.projects db))) Hlim) as H2.
    pose proof (lengthOf_capped
                  (SearchService.inScope (orElse (SearchService.scope opts) "all") "users")
                  _ (sortBy (fun a b => String.leb (User.firstName a) (User.firstName b))
                       (filter (SearchService.userMatches r) (Db.users db))) Hlim) as H3.
    pose proof (lengthOf_capped
                  (SearchService.inScope (orElse (SearchService.scope opts) "all") "comments")
                  _ (sortBy (fun a b => Nat.leb (Comment.createdAt b) (Comment.createdAt a))
                       (filter (SearchService.commentMatches r) (Db.comments db))) Hlim)
      as H4.
    lia.
  - intros s Hs Hall.
    assert (Hout : forall name, s <> name ->
                                SearchService.inScope
                                  (orElse (SearchService.scope opts) "all") name = false).
    { intros name Hname. rewrite Hs. simpl. unfold SearchService.inScope.
      apply String.eqb_neq in Hall, Hname. now rewrite Hall, Hname. }
    repeat split; intros Hname.
    + now rewrite Htasks, (Hout _ Hname).
    + now rewrite Hprojects, (Hout _ Hname).
    + now rewrite Husers, (Hout _ Hname).
    + now rewrite Hcomments, (Hout _ Hname).
Qed.

(** A user search with limit 2. *)
Lemma search_result_sizes_witness :
  SearchService.totalCount
    (match snd (SearchService.globalSearch "e"
                  (SearchService.mkOptions (Some "users") (Some 2)) "u9" quietEnv staffedDb)
     with
     | Resolved resp => resp
     | Rejected _ =>
         SearchService.mkResponse "" 0 (SearchService.mkResults None None None None)
     end)
  <= 8.
Proof.
  pose (resp := match snd (SearchService.globalSearch "e"
                             (SearchService.mkOptions (Some "users") (Some 2)) "u9"
                             quietEnv staffedDb)
                with
                | Resolved resp => resp
                | Rejected _ =>
                    SearchService.mkResponse "" 0
                      (SearchService.mkResults None None None None)
                end).
  destruct (search_result_sizes "e" (SearchService.mkOptions (Some "users") (Some 2)) "u9"
              quietEnv staffedDb staffedDb resp eq_refl)
    as (_ & Hcap & _).
  destruct (Hcap ltac:(simpl; lia)) as (_ & _ & _ & _ & Htotal). exact Htotal.
Defined.

Lemma compile_leading_quantifier (c : ascii) (rest : string) :
  c = "*"%char \/ c = "+"%char \/ c = "?"%char ->
  RegExp.compile (String c rest) = None.
Proof.
  intros [-> | [-> | ->]]; reflexivity.
Qed.

(** X15: a search string that starts with one of the
    quantifiers [*], [+] and [?] is no valid pattern: [globalSearch]
    rejects for every scope, limit and searcher, and so do [listTasks] and
    [listUsers] when given it as [search].  The error is answered as a 500
    and the store is unchanged. *)
Theorem search_rejects_leading_quantifier (c : ascii) (rest : string) (env : Env.t)
        (db : Db.t) :
  c = "*"%char \/ c = "+"%char \/ c = "?"%char ->
  (forall opts userId,
      exists e, SearchService.globalSearch (String c rest) opts userId env db
                = (db, Rejected e)
                /\ answeredWith 500 e = true)
  /\ (forall o,
         taskRepository.q_search o = Some (String c rest) ->
         exists e, TaskService.listTasks o env db = (db, Rejected e)
                   /\ answeredWith 500 e = true)
  /\ (forall o,
         userRepository.q_search o = Some (String c rest) ->
         exists e, UserService.listUsers o env db = (db, Rejected e)
                   /\ answeredWith 500 e = true).
Proof.
  intros Hc. pose proof (compile_leading_quantifier c rest Hc) as Hnone.
  split; [|split].
  - intros opts userId. unfold SearchService.globalSearch. rewrite Hnone.
    eexists. split; reflexivity.
  - intros o Ho. unfold TaskService.listTasks, taskRepository.findAll, compileSearch.
    rewrite Ho. cbn [truthyOpt truthy orElse]. rewrite Hnone.
    eexists. split; reflexivity.
  - intros o Ho. unfold UserService.listUsers, userRepository.findAll, compileSearch.
    rewrite Ho. cbn [truthyOpt truthy orElse]. rewrite Hnone.
    eexists. split; reflexivity.
Qed.

(** The query ["*report"]. *)
Lemma search_rejects_leading_quantifier_witness :
  exists e,
    SearchService.globalSearch "*report" (SearchService.mkOptions None None) "u1"
                               quietEnv secretDb
    = (secretDb, Rejected e)
    /\ answeredWith 500 e = true.
Proof.
  destruct (search_rejects_leading_quantifier "*"%char "report" quietEnv secretDb
              (or_introl eq_refl)) as (Hsearch & _).
  apply Hsearch.
Defined.

Lemma filter_all {A} (q : A -> bool) (l : list A) :
  (forall x, q x = true) -> filter q l = l.
Proof.
  intros H. induction l as [|x r IH]; simpl; [reflexivity|]. now rewrite H, IH.
Qed.

Lemma count_by_role (us : list User.t) :
  countDocuments (userRepository.activeWithRole Roles.ADMIN) us
  + countDocuments (userRepository.activeWithRole Roles.MEMBER) us
  + countDocuments (userRepository.activeWithRole Roles.VIEWER) us
  = countDocuments User.isActive us.
Proof.
  unfold countDocuments, userRepository.activeWithRole.
  induction us as [|u r IH]; simpl; [reflexivity|].
  destruct (User.isActive u), (User.role u); simpl; lia.
Qed.

Lemma count_le_length {A} (q : A -> bool) (l : list A) :
  countDocuments q l <= List.length l.
Proof. unfold countDocuments. apply filter_length_le. Qed.

(** X16: [getStatistics] always resolves and leaves the store
    unchanged.  Its [total] counts all users, deactivated ones included,
    whereas [byRole] counts the active users of each role; the role counts
    therefore add up to the number of active users, which is at most
    [total]. *)
Theorem statistics_counts (env : Env.t) (db : Db.t) :
  exists s,
    UserService.getStatistics env db = (db, Resolved s)
    /\ UserService.statTotal s = List.length (Db.users db)
    /\ countOf (UserService.byRole s) Roles.ADMIN
       + countOf (UserService.byRole s) Roles.MEMBER
       + countOf (UserService.byRole s) Roles.VIEWER
       = countDocuments User.isActive (Db.users db)
    /\ (forall r, countOf (UserService.byRole s) r
                  = countDocuments (userRepository.activeWithRole r) (Db.users db))
    /\ countOf (UserService.byRole s) Roles.ADMIN
       + countOf (UserService.byRole s) Roles.MEMBER
       + countOf (UserService.byRole s) Roles.VIEWER
       <= UserService.statTotal s.
Proof.
  unfold UserService.getStatistics, userRepository.findAll, compileSearch, skipOf.
  run. cbn -[countDocuments].
  eexists. split; [reflexivity|].
  cbn [UserService.statTotal UserService.byRole snd].
  assert (Hall : filter (userRepository.matchesFilter
                           (userRepository.mkOptions None (Some 1) None None None None None)
                           None) (Db.users db) = Db.users db).
  { apply filter_all. reflexivity. }
  assert (Hcount : forall r,
             countOf (fun r0 => match countDocuments (userRepository.activeWithRole r0)
                                      (Db.users db) with
                                | 0 => None
                                | S n => Some (S n)
                                end) r
             = countDocuments (userRepository.activeWithRole r) (Db.users db)).
  { intros r. unfold countOf.
    now destruct (countDocuments (userRepository.activeWithRole r) (Db.users db)). }
  rewrite Hall, !Hcount, count_by_role.
  repeat split.
  - exact Hcount.
  - apply count_le_length.
Qed.

(** ** Task listings *)






Lemma matchesFilter_overdue (o : taskRepository.options) (now : Date)
      (r : option RegExp.t) (d : Task.t) :
  taskRepository.q_overdue o = Some true ->
  taskRepository.matchesFilter o now r d = true ->
  Task.isOverdue now d = true.
Proof.
  intros Ho. unfold taskRepository.matchesFilter, taskRepository.statusAllowed,
    taskRepository.dueAllowed, taskRepository.wantsOverdue, Task.isOverdue.
  rewrite Ho. intros H.
  repeat (apply andb_true_iff in H; destruct H as [H ?]).
  destruct (Task.dueDate d); [|discriminate].
  match goal with Hs : negb _ = true |- _ => apply negb_true_iff in Hs; rewrite Hs end.
  assumption.
Qed.

(** X18: with [overdue: true] the [status] option of a
    listing is ignored: the answer is the same for every status asked for.
    Every task returned is overdue in the sense of the [isOverdue] virtual,
    so it is neither done nor cancelled; and a listing with no other option
    counts exactly the tasks for which the virtual holds. *)
Theorem overdue_overrides_status (env : Env.t) (db : Db.t) (o : taskRepository.options) :
  taskRepository.q_overdue o = Some true ->
  (forall s, TaskService.listTasks (withStatus s o) env db = TaskService.listTasks o env db)
  /\ (forall d, In d (listed (TaskService.listTasks o env db)) ->
                Task.isOverdue (Env.now env) d = true
                /\ Task.status d <> Status.done /\ Task.status d <> Status.cancelled)
  /\ (exists pg, TaskService.listTasks overdueOnly env db = (db, Resolved pg)
                 /\ TaskService.total pg
                    = countDocuments (Task.isOverdue (Env.now env)) (Db.tasks db)).
Proof.
  intros Ho. split; [|split].
  - intros s. unfold TaskService.listTasks, taskRepository.findAll.
    cbn [withStatus taskRepository.q_page taskRepository.q_limit taskRepository.q_sortBy
           taskRepository.q_sortOrder taskRepository.q_search].
    assert (Hsame : forall now r ts,
               filter (taskRepository.matchesFilter (withStatus s o) now r) ts
               = filter (taskRepository.matchesFilter o now r) ts).
    { intros now r ts. apply filter_ext. intros d.
      unfold taskRepository.matchesFilter, taskRepository.statusAllowed,
        taskRepository.dueAllowed, taskRepository.wantsOverdue.
      cbn [withStatus taskRepository.q_projectId taskRepository.q_status
             taskRepository.q_priority taskRepository.q_assigneeId
             taskRepository.q_overdue].
      now rewrite Ho. }
    unfold bind, getEnv, getDb, ret.
    destruct (compileSearch (taskRepository.q_search o) env db) as [db1 [r|e]];
      [|reflexivity].
    destruct (skipOf _ _ env db1) as [db2 [skip|e]]; [|reflexivity].
    now rewrite !Hsame.
  - intros d Hin.
    assert (Hover : Task.isOverdue (Env.now env) d = true).
    { unfold listed, TaskService.listTasks, taskRepository.findAll in Hin.
      unfold bind, getEnv, getDb, ret in Hin.
      destruct (compileSearch (taskRepository.q_search o) env db) as [db1 [r|e]];
        [|contradiction].
      destruct (skipOf _ _ env db1) as [db2 [skip|e]]; [|contradiction].
      cbn [snd fst TaskService.tasks] in Hin.
      apply In_limitTo in Hin.
      assert (Hin' : In d (sortBy
                             (taskRepository.sortedBefore
                                (orElse (taskRepository.q_sortBy o)
                                        taskRepository.byCreatedAt)
                                (orElse (taskRepository.q_sortOrder o) "desc"))
                             (filter (taskRepository.matchesFilter o (Env.now env) r)
                                     (Db.tasks db2)))).
      { rewrite <- (firstn_skipn skip). apply in_or_app. now right. }
      apply In_sortBy, filter_In in Hin'. destruct Hin' as [_ Hm].
      now apply (matchesFilter_overdue o (Env.now env) r). }
    split; [exact Hover|].
    unfold Task.isOverdue in Hover.
    destruct (Task.dueDate d); [|discriminate].
    destruct (Task.status d); simpl in Hover; split; congruence.
  - unfold TaskService.listTasks, taskRepository.findAll, compileSearch, skipOf, overdueOnly.
    run. cbn -[countDocuments filter].
    eexists. split; [reflexivity|]. cbn [TaskService.total].
    unfold countDocuments. f_equal. apply filter_ext. intros d.
    unfold taskRepository.matchesFilter, taskRepository.statusAllowed,
      taskRepository.dueAllowed, taskRepository.wantsOverdue, Task.isOverdue.
    cbn [taskRepository.q_projectId taskRepository.q_status
           taskRepository.q_priority taskRepository.q_assigneeId
           taskRepository.q_overdue truthyOpt].
    destruct (Task.dueDate d) as [due|];
      destruct (Status.eqb (Task.status d) Status.done
                || Status.eqb (Task.status d) Status.cancelled);
      simpl; rewrite ?andb_true_r; reflexivity.
Qed.

(** Asking for overdue tasks that are done gives the open overdue tasks. *)
Lemma overdue_overrides_status_witness :
  map Task._id (listed (TaskService.listTasks overdueAndDone quietEnv dueDb)) = ["t2"; "t1"]
  /\ TaskService.listTasks overdueAndDone quietEnv dueDb
     = TaskService.listTasks overdueOnly quietEnv dueDb.
Proof.
  destruct (overdue_overrides_status quietEnv dueDb overdueOnly eq_refl)
    as (Hstatus & _ & _).
  split.
  - rewrite <- (Hstatus (Some (taskRepository.oneStatus Status.done))) at 1.
    reflexivity.
  - exact (Hstatus (Some (taskRepository.oneStatus Status.done))).
Defined.

(** X19: for a non-empty user identifier, every task
    [getUserTasks] returns is a task of the store assigned to that user,
    and an [assigneeId] among the options makes no difference. *)
Theorem getUserTasks_only_own (env : Env.t) (db db' : Db.t) (userId : ObjectId)
        (o : taskRepository.options) (pg : TaskService.taskPage) :
  truthy userId = true ->
  TaskService.getUserTasks userId o env db = (db', Resolved pg) ->
  db' = db
  /\ (forall d, In d (TaskService.tasks pg) ->
                In d (Db.tasks db) /\ Task.assignee d = Some userId)
  /\ (forall a, TaskService.getUserTasks userId
                  (taskRepository.mkOptions
                     (taskRepository.q_page o) (taskRepository.q_limit o)
                     (taskRepository.q_sortBy o) (taskRepository.q_sortOrder o)
                     (taskRepository.q_projectId o) (taskRepository.q_status o)
                     (taskRepository.q_priority o) a (taskRepository.q_search o)
                     (taskRepository.q_overdue o)) env db
                = (db', Resolved pg)).
Proof.
  intros Huser Hrun. split; [|split].
  - unfold TaskService.getUserTasks, TaskService.listTasks, taskRepository.findAll,
      compileSearch, skipOf in Hrun.
    unfold bind, getEnv, getDb, ret, throw in Hrun.
    destruct (truthyOpt _); [destruct (RegExp.compile _)|];
      try discriminate;
      destruct (_ && _); try discriminate; now injection Hrun.
  - intros d Hin.
    unfold TaskService.getUserTasks, TaskService.listTasks, taskRepository.findAll in Hrun.
    unfold bind, getEnv, getDb, ret in Hrun.
    destruct (compileSearch _ env db) as [db1 [r|e]] eqn:Hc; [|discriminate].
    assert (db1 = db) as ->.
    { unfold compileSearch, ret, throw in Hc.
      destruct (truthyOpt _); [destruct (RegExp.compile _)|]; now injection Hc. }
    destruct (skipOf _ _ env db) as [db2 [skip|e]] eqn:Hs; [|discriminate].
    assert (db2 = db) as ->.
    { unfold skipOf, ret, throw in Hs. destruct (_ && _); now injection Hs. }
    injection Hrun as <- <-. cbn [TaskService.tasks fst] in Hin.
    apply In_limitTo in Hin.
    match type of Hin with
    | In d (skipn skip ?l) =>
        assert (Hin' : In d l)
          by (rewrite <- (firstn_skipn skip l); apply in_or_app; now right)
    end.
    apply In_sortBy, filter_In in Hin'. destruct Hin' as [Hd Hm]. split; [exact Hd|].
    unfold taskRepository.matchesFilter in Hm.
    cbn [TaskService.withAssignee taskRepository.q_assigneeId truthyOpt] in Hm.
    rewrite Huser in Hm.
    repeat (apply andb_true_iff in Hm; destruct Hm as [Hm ?]).
    match goal with
    | Ha : optStringEqb (Task.assignee d) (Some userId) = true |- _ =>
        destruct (Task.assignee d) as [a|]; [|discriminate];
        simpl in Ha; apply String.eqb_eq in Ha; now subst
    end.
  - intros a. exact Hrun.
Qed.

(** The tasks of ["u2"], although the options ask for those of ["u3"]. *)
Lemma getUserTasks_only_own_witness :
  forallb (fun d => optStringEqb (Task.assignee d) (Some "u2"))
          (listed (TaskService.getUserTasks "u2" tasksOfU3 quietEnv dueDb)) = true
  /\ map Task._id (listed (TaskService.getUserTasks "u2" tasksOfU3 quietEnv dueDb))
     = ["t3"; "t1"].
Proof.
  pose (pg := match snd (TaskService.getUserTasks "u2" tasksOfU3 quietEnv dueDb) with
              | Resolved pg => pg
              | Rejected _ => TaskService.mkPage [] 0 0 0
              end).
  destruct (getUserTasks_only_own quietEnv dueDb dueDb "u2" tasksOfU3 pg eq_refl eq_refl)
    as (_ & Hown & _).
  split; [|reflexivity].
  apply forallb_forall. intros d Hd.
  destruct (Hown d Hd) as (_ & ->). reflexivity.
Defined.

(** ** Bulk update *)


(** ** The audit log *)

Ltac audited :=
  try unfold auditedBy; cbn [fst snd Db.activities Db.set_activities Db.set_users
                           Db.set_projects Db.set_tasks];
  first [ reflexivity | eexists; repeat split; reflexivity ].

Lemma updateRole_audited env db userId newRole actorId :
  auditedBy actorId "user" db (UserService.updateRole userId newRole actorId env db).
Proof.
  unfold UserService.updateRole. run.
  destruct (find (userRepository.hasId userId) (Db.users db)) as [user|] eqn:Hfind;
    [|audited].
  assert (Hrest :
            forall db0,
              Db.activities db0 = Db.activities db ->
              Db.users db0 = Db.users db ->
              auditedBy actorId "user" db
                (bind (userRepository.updateById userId newRole)
                   (fun updatedUser =>
                      bind (ActivityModel.log
                              (ActivityModel.mkData "user.role_change" actorId "user" userId
                                 None
                                 ([("role", Some (UserService.roleString (User.role user)))],
                                  [("role", Some (UserService.roleString newRole))]) []))
                        (fun _ => toJSON updatedUser)) env db0)).
  { intros db0 Hacts Husers. run. simpl. rewrite Husers.
    rewrite (find_updateFirst _ _ (hasId_set_role userId newRole)), Hfind. simpl.
    destruct (Env.activityWriteFails env); simpl.
    - unfold auditedBy. simpl. exact Hacts.
    - unfold auditedBy. simpl. rewrite Hacts. eexists. repeat split. }
  destruct (Roles.eqb (User.role user) Roles.ADMIN && negb (Roles.eqb newRole Roles.ADMIN));
    simpl.
  - destruct (leqOne _); simpl; [audited|]. apply (Hrest db); reflexivity.
  - apply (Hrest db); reflexivity.
Qed.

Lemma deactivateUser_audited env db userId actorId :
  auditedBy actorId "user" db (UserService.deactivateUser userId actorId env db).
Proof.
  unfold UserService.deactivateUser. run.
  destruct (find (userRepository.hasId userId) (Db.users db)) as [user|] eqn:Hfind;
    [|audited].
  destruct (Roles.eqb (User.role user) Roles.ADMIN); simpl.
  - destruct (leqOne _); simpl; [audited|].
    destruct (Env.activityWriteFails env); simpl; audited.
  - destruct (Env.activityWriteFails env); simpl; audited.
Qed.

Lemma createProject_audited env db d ownerId :
  auditedBy ownerId "project" db (ProjectService.createProject d ownerId env db).
Proof.
  unfold ProjectService.createProject, projectRepository.findByKey,
    projectRepository.create.
  run.
  destruct (isSome (find _ (Db.projects db))); simpl; [audited|].
  destruct (negb (projectRepository.valid _)); simpl; [audited|].
  destruct (existsb (projectRepository.hasId _) (Db.projects db)); simpl; [audited|].
  destruct (existsb _ (Db.projects db)); simpl; [audited|].
  destruct (Env.activityWriteFails env); simpl; audited.
Qed.

Lemma updateProject_audited env db projectId u userId :
  auditedBy userId "project" db (ProjectService.updateProject projectId u userId env db).
Proof.
  unfold ProjectService.updateProject. run.
  destruct (find (projectRepository.hasId projectId) (Db.projects db)) as [p|] eqn:Hfind;
    [|audited].
  destruct (negb (Project.owner p =? userId) && _); simpl; [audited|].
  destruct (projectRepository.validUpdate _); simpl; [|audited].
  rewrite (find_updateFirst (projectRepository.hasId projectId)
             (projectRepository.applyUpdate (projectRepository.setters u) (Env.now env))
             (fun x => eq_refl)), Hfind.
  destruct (Env.activityWriteFails env); simpl; audited.
Qed.

Lemma deleteProject_audited env db projectId userId :
  auditedBy userId "project" db (ProjectService.deleteProject projectId userId env db).
Proof.
  unfold ProjectService.deleteProject, projectRepository.deleteById. run.
  destruct (find (projectRepository.hasId projectId) (Db.projects db)) as [p|] eqn:Hfind;
    [|audited].
  destruct (negb (Project.owner p =? userId)); simpl; [audited|].
  destruct (Env.activityWriteFails env); simpl; audited.
Qed.

Lemma addMember_audited env db projectId m actorId :
  auditedBy actorId "project" db (ProjectService.addMember projectId m actorId env db).
Proof.
  unfold ProjectService.addMember, projectRepository.addMember. run.
  destruct (find (projectRepository.hasId projectId) (Db.projects db)) as [p|] eqn:Hfind;
    [|audited].
  destruct (negb (Project.owner p =? actorId) && _); simpl; [audited|].
  destruct (find (userRepository.hasId _) (Db.users db)); simpl; [|audited].
  destruct (Project.isMember p _); simpl; [audited|].
  rewrite (find_updateFirst (projectRepository.hasId projectId)
             (projectRepository.pushMember m (Env.now env)) (fun x => eq_refl)), Hfind.
  destruct (Env.activityWriteFails env); simpl; audited.
Qed.

Lemma removeMember_audited env db projectId memberId actorId :
  auditedBy actorId "project" db
    (ProjectService.removeMember projectId memberId actorId env db).
Proof.
  unfold ProjectService.removeMember. run.
  destruct (find (projectRepository.hasId projectId) (Db.projects db)) as [p|] eqn:Hfind;
    [|audited].
  destruct (negb (actorId =? memberId) && _ && _); simpl; [audited|].
  destruct (Project.owner p =? memberId); simpl; [audited|].
  destruct (negb (Project.isMember p memberId)); simpl; [audited|].
  rewrite (find_updateFirst (projectRepository.hasId projectId)
             (projectRepository.pullMember memberId (Env.now env)) (fun x => eq_refl)),
    Hfind.
  destruct (Env.activityWriteFails env); simpl; audited.
Qed.

Lemma updateMemberRole_audited env db projectId memberId newRole actorId :
  auditedBy actorId "project" db
    (ProjectService.updateMemberRole projectId memberId newRole actorId env db).
Proof.
  unfold ProjectService.updateMemberRole. run.
  destruct (find (projectRepository.hasId projectId) (Db.projects db)) as [p|] eqn:Hfind;
    [|audited].
  destruct (negb (Project.owner p =? actorId)); simpl; [audited|].
  destruct (Project.owner p =? memberId); simpl; [audited|].
  destruct (find (projectRepository.isUser memberId) (Project.members p)) as [member|]
    eqn:Hmember; simpl; [|audited].
  assert (Hlisted : existsb (projectRepository.isUser memberId) (Project.members p) = true).
  { rewrite existsb_isSome_find. now rewrite Hmember. }
  destruct (find_listsUser projectId memberId (Db.projects db) p Hfind Hlisted)
    as [Hlists _].
  rewrite (find_updateFirst (projectRepository.listsUser projectId memberId)
             (projectRepository.setMemberRole memberId newRole (Env.now env))
             (listsUser_setMemberRole projectId memberId newRole (Env.now env))), Hlists.
  destruct (Env.activityWriteFails env); simpl; audited.
Qed.

Lemma updateTask_audited env db taskId u userId :
  auditedBy userId "task" db (TaskService.updateTask taskId u userId env db).
Proof.
  unfold TaskService.updateTask, TaskService.projectIdOf. run.
  destruct (find (TaskModel.hasId taskId) (Db.tasks db)) as [d|] eqn:Htask; [|audited].
  cbn [taskRepository.doc taskRepository.projectDoc].
  pose proof (actionType_valid u d) as Hvalid.
  unfold TaskService.actionType in Hvalid.
  destruct (TaskService.determineAction u d) as [tag changes].
  cbn [fst] in Hvalid. cbv beta iota zeta.
  destruct (taskRepository.validUpdate _); cbn [negb]; cbv beta iota; [|audited].
  destruct (find (projectRepository.hasId (Task.project d)) (Db.projects db)) as [p|];
    [|audited].
  unfold ActivityModel.validate.
  cbn [ActivityModel.action ActivityModel.entityType].
  rewrite Hvalid. simpl.
  rewrite (find_updateFirst (TaskModel.hasId taskId)
             (taskRepository.applyUpdate
                (taskRepository.setters (TaskService.toRepositoryUpdate u)) (Env.now env))
             (fun x => eq_refl)), Htask.
  destruct (Env.activityWriteFails env); simpl; audited.
Qed.

Lemma deleteTask_audited env db taskId userId :
  auditedBy userId "task" db (TaskService.deleteTask taskId userId env db).
Proof.
  unfold TaskService.deleteTask, TaskService.projectIdOf, TaskModel.incTaskCount. run.
  destruct (find (TaskModel.hasId taskId) (Db.tasks db)) as [d|] eqn:Htask; [|audited].
  cbn [taskRepository.doc taskRepository.projectDoc].
  destruct (find (projectRepository.hasId (Task.project d)) (Db.projects db)) as [p|];
    [|audited].
  simpl. destruct (Env.activityWriteFails env); simpl; audited.
Qed.

Lemma trackCompletion_id (now : Date) (modified : bool) (doc : Task.t) :
  Task._id (TaskModel.trackCompletion now modified doc) = Task._id doc.
Proof.
  unfold TaskModel.trackCompletion.
  destruct modified; [|reflexivity].
  destruct (Status.eqb (Task.status doc) Status.done && _); [reflexivity|].
  now destruct (negb _).
Qed.

Lemma createTask_audited env db d reporterId :
  auditedBy reporterId "task" db (TaskService.createTask d reporterId env db).
Proof.
  unfold TaskService.createTask.
  unfold bind at 1. unfold projectRepository.findById at 1. run.
  destruct (find (projectRepository.hasId (TaskService.projectId d)) (Db.projects db))
    as [p|] eqn:Hproject; [|audited].
  destruct (negb (Project.isMember p reporterId) && _); simpl; [audited|].
  assert (Hcreate :
            auditedBy reporterId "task" db
              (bind (taskRepository.create
                       (TaskModel.mkData (TaskService.title d) (TaskService.description d)
                          (TaskService.projectId d)
                          (TaskService.orNull (TaskService.assigneeId d)) reporterId
                          (TaskService.orNull (TaskService.parentTaskId d))
                          (TaskService.status d) (TaskService.priority d)
                          (TaskService.dueDate d) (TaskService.estimatedHours d)))
                 (fun task =>
                    bind (toJSON task)
                      (fun task =>
                         bind (ActivityModel.log
                                 (ActivityModel.mkData "task.create" reporterId "task"
                                    (Task._id (taskRepository.doc task))
                                    (Some (TaskService.projectId d)) ([], [])
                                    (TaskService.taskMetadata (taskRepository.doc task))))
                           (fun _ => ret (taskRepository.doc task)))) env db)).
  { unfold taskRepository.create, TaskModel.create, TaskModel.preSave,
      TaskModel.generateTaskNumber, TaskModel.insert, TaskModel.incTaskCount,
      TaskModel.construct.
    run. cbn -[countDocuments includes append trim].
    destruct (negb (TaskModel.valid _)); cbn -[countDocuments includes append trim];
      [audited|].
    rewrite Hproject. cbn -[countDocuments includes append].
    rewrite !trackCompletion_id. cbn [Task._id Task.set_taskNumber].
    destruct (existsb (TaskModel.hasId (Env.newId env)) (Db.tasks db)) eqn:Hid;
      cbn -[countDocuments includes append]; [audited|].
    match goal with
    | |- context [existsb (fun d0 => optStringEqb (Task.taskNumber d0) ?n) (Db.tasks db)] =>
        destruct (existsb (fun d0 => optStringEqb (Task.taskNumber d0) n) (Db.tasks db))
    end; cbn -[countDocuments includes append]; [audited|].
    rewrite find_app_fresh;
      [|rewrite ?trackCompletion_id; exact Hid
       |unfold TaskModel.hasId; rewrite ?trackCompletion_id; apply String.eqb_refl].
    cbn -[countDocuments includes append].
    destruct (Env.activityWriteFails env); cbn -[countDocuments includes append]; audited. }
  destruct (truthyOpt (TaskService.parentTaskId d)); simpl.
  - destruct (find (TaskModel.hasId _) (Db.tasks db)) as [parent|]; simpl; [|audited].
    destruct (negb (Task.project parent =? TaskService.projectId d)); simpl; [audited|].
    exact Hcreate.
  - exact Hcreate.
Qed.

(** X21: for each of the eleven mutating service methods, a request that
    resolves has appended exactly one entry to the audit log, naming the
    acting user and the kind of entity, and a request that rejects has
    appended none; earlier entries are never changed. *)
Theorem audit_trail (env : Env.t) (db : Db.t) :
  (forall userId newRole actorId,
      auditedBy actorId "user" db (UserService.updateRole userId newRole actorId env db))
  /\ (forall userId actorId,
         auditedBy actorId "user" db (UserService.deactivateUser userId actorId env db))
  /\ (forall d ownerId,
         auditedBy ownerId "project" db (ProjectService.createProject d ownerId env db))
  /\ (forall projectId u userId,
         auditedBy userId "project" db
           (ProjectService.updateProject projectId u userId env db))
  /\ (forall projectId userId,
         auditedBy userId "project" db (ProjectService.deleteProject projectId userId env db))
  /\ (forall projectId m actorId,
         auditedBy actorId "project" db (ProjectService.addMember projectId m actorId env db))
  /\ (forall projectId memberId actorId,
         auditedBy actorId "project" db
           (ProjectService.removeMember projectId memberId actorId env db))
  /\ (forall projectId memberId newRole actorId,
         auditedBy actorId "project" db
           (ProjectService.updateMemberRole projectId memberId newRole actorId env db))
  /\ (forall d reporterId,
         auditedBy reporterId "task" db (TaskService.createTask d reporterId env db))
  /\ (forall taskId u userId,
         auditedBy userId "task" db (TaskService.updateTask taskId u userId env db))
  /\ (forall taskId userId,
         auditedBy userId "task" db (TaskService.deleteTask taskId userId env db)).
Proof.
  repeat split; intros.
  - apply updateRole_audited.
  - apply deactivateUser_audited.
  - apply createProject_audited.
  - apply updateProject_audited.
  - apply deleteProject_audited.
  - apply addMember_audited.
  - apply removeMember_audited.
  - apply updateMemberRole_audited.
  - apply createTask_audited.
  - apply updateTask_audited.
  - apply deleteTask_audited.
Qed.

(** ** Task creation and the task counter *)

Lemma trackCompletion_taskNumber (now : Date) (modified : bool) (doc : Task.t) :
  Task.taskNumber (TaskModel.trackCompletion now modified doc) = Task.taskNumber doc.
Proof.
  unfold TaskModel.trackCompletion.
  destruct modified; [|reflexivity].
  destruct (Status.eqb (Task.status doc) Status.done && _); [reflexivity|].
  now destruct (negb _).
Qed.

Lemma trackCompletion_project (now : Date) (modified : bool) (doc : Task.t) :
  Task.project (TaskModel.trackCompletion now modified doc) = Task.project doc.
Proof.
  unfold TaskModel.trackCompletion.
  destruct modified; [|reflexivity].
  destruct (Status.eqb (Task.status doc) Status.done && _); [reflexivity|].
  now destruct (negb _).
Qed.

Lemma newDocument_fields (env : Env.t) (db : Db.t) (d : TaskService.taskData)
      (reporterId : ObjectId) (p : Project.t) :
  Task._id (newDocument env db d reporterId p) = Env.newId env
  /\ Task.project (newDocument env db d reporterId p) = TaskService.projectId d
  /\ Task.taskNumber (newDocument env db d reporterId p)
     = numberOf (Project.key p)
         (countDocuments (TaskModel.inProject (TaskService.projectId d)) (Db.tasks db) + 1).
Proof.
  unfold newDocument.
  rewrite trackCompletion_id, trackCompletion_project, trackCompletion_taskNumber.
  repeat split.
Qed.

(** [createTask] once the checks of the service have passed. *)
Lemma createTask_unfolded (env : Env.t) (db : Db.t) (d : TaskService.taskData)
      (reporterId : ObjectId) (p : Project.t) :
  find (projectRepository.hasId (TaskService.projectId d)) (Db.projects db) = Some p ->
  mayCreateIn p reporterId = true ->
  parentAccepted db d = true ->
  accepted d = true ->
  let doc := newDocument env db d reporterId p in
  let db1 := counted (Env.now env) (TaskService.projectId d) db in
  TaskService.createTask d reporterId env db
  = if existsb (TaskModel.hasId (Env.newId env)) (Db.tasks db)
    then (db1, Rejected (EDuplicateKey "_id"))
    else if existsb (fun t => optStringEqb (Task.taskNumber t) (Task.taskNumber doc))
                    (Db.tasks db)
         then (db1, Rejected (EDuplicateKey "taskNumber"))
         else if Env.activityWriteFails env
              then (Db.set_tasks (Db.tasks db ++ [doc])%list db1,
                    Rejected (EDriver "activity write failed"))
              else (Db.set_activities
                      (Db.activities db
                       ++ [Activity.new "task.create" reporterId "task" (Task._id doc)
                             (Some (TaskService.projectId d)) ([], [])
                             (TaskService.taskMetadata doc) (Env.now env)])%list
                      (Db.set_tasks (Db.tasks db ++ [doc])%list db1),
                    Resolved doc).
Proof.
  intros Hproject Haccess Hparent Htitle doc db1. unfold db1. clear db1.
  destruct (newDocument_fields env db d reporterId p) as (Hdocid & _ & Hdocnumber).
  fold doc in Hdocid, Hdocnumber.
  unfold mayCreateIn in Haccess. apply (f_equal negb) in Haccess.
  rewrite negb_orb in Haccess. simpl in Haccess.
  unfold parentAccepted in Hparent.
  unfold TaskService.createTask, taskRepository.create, TaskModel.create, TaskModel.preSave,
    TaskModel.generateTaskNumber, TaskModel.insert, TaskModel.incTaskCount.
  assert (Hparentcheck :
            (if truthyOpt (TaskService.parentTaskId d)
             then
               bind (taskRepository.findById (orElse (TaskService.parentTaskId d) ""))
                 (fun parentTask =>
                    match parentTask with
                    | Some parentTask =>
                        throwIf
                          (negb (Task.project (taskRepository.doc parentTask)
                                 =? TaskService.projectId d))
                          (EApi (ApiError.badRequest
                                   "Parent task must be in the same project"))
                    | None => throw (EApi (ApiError.notFound "Parent task not found"))
                    end)
             else ret tt) env db = (db, Resolved tt)).
  { destruct (truthyOpt (TaskService.parentTaskId d)); [|reflexivity].
    run. destruct (find _ (Db.tasks db)); [|discriminate]. simpl.
    now rewrite Hparent. }
  unfold bind at 1. unfold projectRepository.findById at 1.
  unfold bind at 1, getDb at 1, ret at 1. rewrite Hproject.
  unfold bind at 1. rewrite Haccess. unfold throwIf at 1, ret at 1.
  unfold bind at 1. rewrite Hparentcheck.
  run.
  cbn -[countDocuments includes append TaskModel.construct TaskModel.trackCompletion].
  match goal with
  | |- context [TaskModel.valid (TaskModel.construct env ?x)] =>
      change (TaskModel.valid (TaskModel.construct env x)) with (accepted d);
      change (Task.project (TaskModel.construct env x)) with (TaskService.projectId d);
      change (Task.taskNumber (TaskModel.construct env x)) with (@None string)
  end.
  rewrite Htitle.
  cbn -[countDocuments includes append TaskModel.construct TaskModel.trackCompletion].
  rewrite Hproject.
  cbn -[countDocuments includes append TaskModel.construct TaskModel.trackCompletion].
  change (TaskModel.trackCompletion (Env.now env) (isSome (TaskService.status d)) _)
    with doc.
  rewrite Hdocid.
  destruct (existsb (TaskModel.hasId (Env.newId env)) (Db.tasks db)) eqn:Hid;
    cbn -[countDocuments includes append TaskModel.construct TaskModel.trackCompletion];
    [reflexivity|].
  destruct (existsb (fun t => optStringEqb (Task.taskNumber t) (Task.taskNumber doc))
                    (Db.tasks db));
    cbn -[countDocuments includes append TaskModel.construct TaskModel.trackCompletion];
    [reflexivity|].
  rewrite find_app_fresh;
    [|rewrite ?Hdocid; exact Hid|unfold TaskModel.hasId; apply String.eqb_refl].
  cbn -[countDocuments includes append TaskModel.construct TaskModel.trackCompletion].
  unfold ActivityModel.validate.
  cbn [ActivityModel.action ActivityModel.entityType].
  change (includes "task.create" Activity.actionValues) with true.
  change (includes "task" Activity.entityTypeValues) with true.
  rewrite ?Hdocid.
  cbn -[countDocuments includes append TaskModel.construct TaskModel.trackCompletion].
  destruct (Env.activityWriteFails env);
    cbn -[countDocuments includes append TaskModel.construct TaskModel.trackCompletion];
    reflexivity.
Qed.

Lemma createTask_denied (env : Env.t) (db : Db.t) (d : TaskService.taskData)
      (reporterId : ObjectId) (p : Project.t) :
  find (projectRepository.hasId (TaskService.projectId d)) (Db.projects db) = Some p ->
  mayCreateIn p reporterId = false ->
  TaskService.createTask d reporterId env db
  = (db, Rejected (EApi (ApiError.forbidden "You do not have access to this project"))).
Proof.
  intros Hproject Haccess. unfold mayCreateIn in Haccess.
  apply (f_equal negb) in Haccess. rewrite negb_orb in Haccess. simpl in Haccess.
  unfold TaskService.createTask. run. now rewrite Hproject, Haccess.
Qed.

Lemma createTask_bad_parent (env : Env.t) (db : Db.t) (d : TaskService.taskData)
      (reporterId : ObjectId) (p : Project.t) :
  find (projectRepository.hasId (TaskService.projectId d)) (Db.projects db) = Some p ->
  mayCreateIn p reporterId = true ->
  parentAccepted db d = false ->
  exists e, TaskService.createTask d reporterId env db = (db, Rejected e)
            /\ (isNotFound e = true \/ isBadRequest e = true).
Proof.
  intros Hproject Haccess Hparent. unfold mayCreateIn in Haccess.
  apply (f_equal negb) in Haccess. rewrite negb_orb in Haccess. simpl in Haccess.
  unfold parentAccepted in Hparent.
  unfold TaskService.createTask. run. rewrite Hproject, Haccess.
  destruct (truthyOpt (TaskService.parentTaskId d)); [|discriminate]. simpl.
  destruct (find _ (Db.tasks db)) as [parent|]; simpl.
  - rewrite Hparent. simpl. eexists. split; [reflexivity|]. now right.
  - eexists. split; [reflexivity|]. now left.
Qed.

(** A creation the validators refuse is rejected before the hook runs:
    nothing is written and nothing is counted. *)
Lemma createTask_invalid (env : Env.t) (db : Db.t) (d : TaskService.taskData)
      (reporterId : ObjectId) (p : Project.t) :
  find (projectRepository.hasId (TaskService.projectId d)) (Db.projects db) = Some p ->
  mayCreateIn p reporterId = true ->
  parentAccepted db d = true ->
  accepted d = false ->
  TaskService.createTask d reporterId env db
  = (db, Rejected (EValidation "Task validation failed")).
Proof.
  intros Hproject Haccess Hparent Htitle. unfold mayCreateIn in Haccess.
  apply (f_equal negb) in Haccess. rewrite negb_orb in Haccess. simpl in Haccess.
  unfold parentAccepted in Hparent.
  assert (Hvalid : forall x,
             x = TaskModel.mkData (TaskService.title d) (TaskService.description d)
                   (TaskService.projectId d) (TaskService.orNull (TaskService.assigneeId d))
                   reporterId (TaskService.orNull (TaskService.parentTaskId d))
                   (TaskService.status d) (TaskService.priority d) (TaskService.dueDate d)
                   (TaskService.estimatedHours d) ->
             TaskModel.valid (TaskModel.construct env x) = false).
  { intros x ->. exact Htitle. }
  unfold TaskService.createTask, taskRepository.create, TaskModel.create. run.
  rewrite Hproject, Haccess.
  destruct (truthyOpt (TaskService.parentTaskId d)); simpl.
  - destruct (find _ (Db.tasks db)) as [parent|]; [|discriminate]. simpl.
    rewrite Hparent. simpl. now rewrite (Hvalid _ eq_refl).
  - now rewrite (Hvalid _ eq_refl).
Qed.






Lemma count_app_one {A} (q : A -> bool) (l : list A) (x : A) :
  countDocuments q (l ++ [x]) = countDocuments q l + (if q x then 1 else 0).
Proof.
  unfold countDocuments. rewrite filter_app, length_app. simpl.
  now destruct (q x).
Qed.

(** X24: a resolved [createTask] and a resolved [deleteTask]
    change the [taskCount] of the task's project by exactly as much as the
    number of tasks the store holds for it: the difference between the two
    stays what it was. *)
Theorem taskCount_follows_tasks (env : Env.t) (db db' : Db.t) :
  (forall d reporterId doc,
      TaskService.createTask d reporterId env db = (db', Resolved doc) ->
      drift db' (TaskService.projectId d) = drift db (TaskService.projectId d))
  /\ (forall taskId userId d,
         find (TaskModel.hasId taskId) (Db.tasks db) = Some d ->
         TaskService.deleteTask taskId userId env db = (db', Resolved tt) ->
         drift db' (Task.project d) = drift db (Task.project d)).
Proof.
  split.
  - intros d reporterId doc Hrun.
    destruct (find (projectRepository.hasId (TaskService.projectId d)) (Db.projects db))
      as [p|] eqn:Hproject.
    2:{ unfold TaskService.createTask in Hrun. revert Hrun. run. now rewrite Hproject. }
    destruct (mayCreateIn p reporterId) eqn:Haccess.
    2:{ now rewrite (createTask_denied env db d reporterId p Hproject Haccess) in Hrun. }
    destruct (parentAccepted db d) eqn:Hparent.
    2:{ destruct (createTask_bad_parent env db d reporterId p Hproject Haccess Hparent)
          as (e & He & _).
        rewrite He in Hrun. discriminate. }
    destruct (accepted d) eqn:Htitle.
    2:{ now rewrite (createTask_invalid env db d reporterId p Hproject Haccess Hparent
                       Htitle) in Hrun. }
    rewrite (createTask_unfolded env db d reporterId p Hproject Haccess Hparent Htitle)
      in Hrun.
    cbv zeta in Hrun.
    destruct (existsb _ (Db.tasks db)); [discriminate|].
    destruct (existsb _ (Db.tasks db)); [discriminate|].
    destruct (Env.activityWriteFails env); [discriminate|].
    injection Hrun as <- <-.
    destruct (newDocument_fields env db d reporterId p) as (_ & Hdocproject & _).
    unfold drift, counted.
    cbn [Db.projects Db.tasks Db.set_projects Db.set_tasks Db.set_activities].
    rewrite (find_updateFirst _ _
               (hasId_bumpTaskCount (TaskService.projectId d) (Env.now env))),
      Hproject.
    rewrite count_app_one. unfold TaskModel.inProject at 2.
    rewrite Hdocproject, String.eqb_refl. simpl. f_equal. lia.
  - intros taskId userId d Htask Hrun.
    unfold TaskService.deleteTask, TaskService.projectIdOf, TaskModel.incTaskCount in Hrun.
    revert Hrun. run. rewrite Htask.
    cbn [taskRepository.doc taskRepository.projectDoc].
    destruct (find (projectRepository.hasId (Task.project d)) (Db.projects db)) as [p|]
      eqn:Hproject; [|discriminate].
    simpl. destruct (Env.activityWriteFails env); [discriminate|].
    simpl. intros [= <-].
    assert (Hid : Project._id p = Task.project d).
    { apply find_some in Hproject. destruct Hproject as [_ Hp].
      now apply String.eqb_eq in Hp. }
    unfold drift.
    cbn [Db.projects Db.tasks Db.set_activities Db.set_projects Db.set_tasks].
    rewrite ?Hid.
    rewrite (find_updateFirst (projectRepository.hasId (Task.project d))
               (TaskModel.addTaskCount (-1) (Env.now env))
               (fun x => eq_refl)), Hproject.
    simpl. f_equal.
    pose proof (count_after_delete taskId d (Db.tasks db) Htask). lia.
Qed.

(** The counter of [abcProject] after two creations and after a deletion. *)
Lemma taskCount_follows_tasks_witness :
  drift abcTwo "pA" = Some 0%Z /\ drift abcGap "pA" = Some 0%Z.
Proof.
  pose (second := match snd (TaskService.createTask (newTask "second") "u1" (envWithId "t2")
                               (after (TaskService.createTask (newTask "first") "u1")
                                      (envWithId "t1") abcDb)) with
                  | Resolved t => t
                  | Rejected _ => openTask
                  end).
  destruct (taskCount_follows_tasks (envWithId "t2")
              (after (TaskService.createTask (newTask "first") "u1") (envWithId "t1") abcDb)
              abcTwo) as (Hcreate & _).
  destruct (taskCount_follows_tasks quietEnv abcThree abcGap) as (_ & Hdelete).
  split.
  - change (Some 0%Z)
      with (drift (after (TaskService.createTask (newTask "first") "u1") (envWithId "t1")
                         abcDb) "pA").
    apply (Hcreate (newTask "second") "u1" second). reflexivity.
  - change (Some 0%Z) with (drift abcThree "pA").
    apply (Hdelete "t2" "u1"
             (match find (TaskModel.hasId "t2") (Db.tasks abcThree) with
              | Some t => t
              | None => openTask
              end)); reflexivity.
Defined.

(** X25: the task a resolved [createTask] returns is
    stored under its identifier, carries the reporter and the creation
    time, has the requested status ([todo] by default), and is stamped
    [completedAt = now] exactly when it is created in [done]. *)
Theorem creation_runs_completion_hook (env : Env.t) (db db' : Db.t)
        (d : TaskService.taskData) (reporterId : ObjectId) (doc : Task.t) :
  TaskService.createTask d reporterId env db = (db', Resolved doc) ->
  Task.status doc = orElse (TaskService.status d) Status.todo
  /\ Task.completedAt doc
     = (if Status.eqb (Task.status doc) Status.done then Some (Env.now env) else None)
  /\ Task.reporter doc = reporterId
  /\ Task.createdAt doc = Env.now env
  /\ find (TaskModel.hasId (Task._id doc)) (Db.tasks db') = Some doc.
Proof.
  intros Hrun.
  destruct (find (projectRepository.hasId (TaskService.projectId d)) (Db.projects db))
    as [p|] eqn:Hproject.
  2:{ unfold TaskService.createTask in Hrun. revert Hrun. run. now rewrite Hproject. }
  destruct (mayCreateIn p reporterId) eqn:Haccess.
  2:{ now rewrite (createTask_denied env db d reporterId p Hproject Haccess) in Hrun. }
  destruct (parentAccepted db d) eqn:Hparent.
  2:{ destruct (createTask_bad_parent env db d reporterId p Hproject Haccess Hparent)
        as (e & He & _).
      rewrite He in Hrun. discriminate. }
  destruct (accepted d) eqn:Htitle.
  2:{ now rewrite (createTask_invalid env db d reporterId p Hproject Haccess Hparent
                     Htitle) in Hrun. }
  rewrite (createTask_unfolded env db d reporterId p Hproject Haccess Hparent Htitle)
    in Hrun.
  cbv zeta in Hrun.
  destruct (existsb (TaskModel.hasId (Env.newId env)) (Db.tasks db)) eqn:Hid;
    [discriminate|].
  destruct (existsb (fun t => optStringEqb (Task.taskNumber t) _) (Db.tasks db));
    [discriminate|].
  destruct (Env.activityWriteFails env); [discriminate|].
  injection Hrun as <- <-.
  destruct (newDocument_fields env db d reporterId p) as (Hdocid & _ & _).
  assert (Hfields :
            Task.status (newDocument env db d reporterId p)
            = orElse (TaskService.status d) Status.todo
            /\ Task.completedAt (newDocument env db d reporterId p)
               = (if Status.eqb (orElse (TaskService.status d) Status.todo) Status.done
                  then Some (Env.now env) else None)
            /\ Task.reporter (newDocument env db d reporterId p) = reporterId
            /\ Task.createdAt (newDocument env db d reporterId p) = Env.now env).
  { unfold newDocument, TaskModel.trackCompletion.
    destruct (TaskService.status d) as [[]|]; simpl; repeat split. }
  destruct Hfields as (Hs & Hc & Hr & Ht).
  repeat split; try assumption.
  - now rewrite Hs.
  - cbn [Db.tasks Db.set_tasks Db.set_activities].
    apply find_app_fresh; [now rewrite Hdocid|].
    unfold TaskModel.hasId. apply String.eqb_refl.
Qed.

(** The task created in [done] is stamped with the time of creation. *)
Lemma creation_runs_completion_hook_witness :
  option_map Task.completedAt (find (TaskModel.hasId "t1") (Db.tasks createdDone))
  = Some (Some 100).
Proof.
  pose (d := TaskService.mkData "pA" None None "shipped" None (Some Status.done)
                                None None None).
  pose (doc := match snd (TaskService.createTask d "u1" (envWithId "t1") abcDb) with
               | Resolved t => t
               | Rejected _ => openTask
               end).
  destruct (creation_runs_completion_hook (envWithId "t1") abcDb createdDone d "u1" doc
              eq_refl)
    as (_ & Hstamp & _ & _ & Hfound).
  change (find (TaskModel.hasId "t1") (Db.tasks createdDone))
    with (find (TaskModel.hasId (Task._id doc)) (Db.tasks createdDone)).
  rewrite Hfound. cbn [option_map]. rewrite Hstamp. reflexivity.
Defined.

(** ** The audit append, for every mutating method *)















(** ** Plain search queries *)

Lemma append_nil_inv (a b : string) : a ++ b = "" -> a = "" /\ b = "".
Proof. destruct a; simpl; [auto|discriminate]. Qed.

Lemma append_empty_r (a : string) : a ++ "" = a.
Proof. induction a as [|x a IH]; simpl; [reflexivity|now rewrite IH]. Qed.

Lemma append_assoc (a b c : string) : (a ++ b) ++ c = a ++ (b ++ c).
Proof. induction a as [|x a IH]; simpl; [reflexivity|now rewrite IH]. Qed.

Lemma Matches_Eps_inv (w : string) : Matches RegExp.Eps w -> w = "".
Proof. intros H. now inversion H. Qed.

Lemma Matches_Fail_inv (w : string) : ~ Matches RegExp.Fail w.
Proof. intros H. inversion H. Qed.

Lemma Matches_Chr_inv (c : ascii) (w : string) :
  Matches (RegExp.Chr c) w ->
  exists x, w = String x "" /\ RegExp.toLower c = RegExp.toLower x.
Proof. intros H. inversion H; subst. eauto. Qed.

Lemma Matches_Dot_inv (w : string) :
  Matches RegExp.Dot w -> exists x, w = String x "" /\ RegExp.isLineTerminator x = false.
Proof. intros H. inversion H; subst. eauto. Qed.

Lemma Matches_Alt_inv (a b : RegExp.t) (w : string) :
  Matches (RegExp.Alt a b) w -> Matches a w \/ Matches b w.
Proof. intros H. inversion H; subst; auto. Qed.

Lemma Matches_Cat_inv (a b : RegExp.t) (w : string) :
  Matches (RegExp.Cat a b) w ->
  exists s1 s2, w = s1 ++ s2 /\ Matches a s1 /\ Matches b s2.
Proof. intros H. inversion H; subst. eauto. Qed.

Lemma nullable_Matches (r : RegExp.t) : RegExp.nullable r = true <-> Matches r "".
Proof.
  induction r as [| c | | a IHa b IHb | a IHa b IHb | a IHa |]; simpl.
  - split; [constructor|reflexivity].
  - split; [discriminate|]. intros H. apply Matches_Chr_inv in H.
    destruct H as (x & E & _). discriminate E.
  - split; [discriminate|]. intros H. apply Matches_Dot_inv in H.
    destruct H as (x & E & _). discriminate E.
  - rewrite orb_true_iff, IHa, IHb. split.
    + intros [H|H]; [now apply MAltL|now apply MAltR].
    + apply Matches_Alt_inv.
  - rewrite andb_true_iff, IHa, IHb. split.
    + intros [Ha Hb]. change "" with ("" ++ ""). now constructor.
    + intros H. apply Matches_Cat_inv in H. destruct H as (s1 & s2 & E & H1 & H2).
      symmetry in E. apply append_nil_inv in E. destruct E; subst. auto.
  - split; [constructor|reflexivity].
  - split; [discriminate|]. intros H. now apply Matches_Fail_inv in H.
Qed.

Lemma Matches_Star_cons (a : RegExp.t) (w : string) :
  Matches (RegExp.Star a) w ->
  forall x s, w = String x s ->
              exists s1 s2, s = s1 ++ s2 /\ Matches a (String x s1)
                            /\ Matches (RegExp.Star a) s2.
Proof.
  intros H. remember (RegExp.Star a) as r eqn:Hr.
  induction H as [| | | | | | a' | a' s1 s2 H1 _ H2 IH2]; try discriminate.
  injection Hr as ->. intros x s E.
  destruct s1 as [|y s1]; simpl in E.
  - now apply IH2.
  - injection E as -> <-. eauto.
Qed.

Lemma deriv_Matches (r : RegExp.t) :
  forall x s, Matches (RegExp.deriv x r) s <-> Matches r (String x s).
Proof.
  induction r as [| c | | a IHa b IHb | a IHa b IHb | a IHa |]; intros x s; simpl.
  - split; intros H.
    + now apply Matches_Fail_inv in H.
    + apply Matches_Eps_inv in H. discriminate H.
  - destruct (Ascii.eqb_spec (RegExp.toLower c) (RegExp.toLower x)) as [E|E].
    + split; intros H.
      * apply Matches_Eps_inv in H. subst. now constructor.
      * apply Matches_Chr_inv in H. destruct H as (y & [= <- ->] & _). constructor.
    + split; intros H.
      * now apply Matches_Fail_inv in H.
      * apply Matches_Chr_inv in H. destruct H as (y & [= <- ->] & Hy). contradiction.
  - destruct (RegExp.isLineTerminator x) eqn:E.
    + split; intros H.
      * now apply Matches_Fail_inv in H.
      * apply Matches_Dot_inv in H. destruct H as (y & [= <- ->] & Hy). congruence.
    + split; intros H.
      * apply Matches_Eps_inv in H. subst. now constructor.
      * apply Matches_Dot_inv in H. destruct H as (y & [= <- ->] & _). constructor.
  - split; intros H; apply Matches_Alt_inv in H; destruct H as [H|H].
    + apply MAltL. now apply IHa.
    + apply MAltR. now apply IHb.
    + apply MAltL. now apply IHa.
    + apply MAltR. now apply IHb.
  - assert (Hcons : forall w, Matches (RegExp.Cat (RegExp.deriv x a) b) w ->
                              Matches (RegExp.Cat a b) (String x w)).
    { intros w H. apply Matches_Cat_inv in H. destruct H as (s1 & s2 & -> & H1 & H2).
      change (String x (s1 ++ s2)) with (String x s1 ++ s2).
      constructor; [now apply IHa|assumption]. }
    assert (Hsplit : Matches (RegExp.Cat a b) (String x s) ->
                     Matches (RegExp.Cat (RegExp.deriv x a) b) s
                     \/ (Matches a "" /\ Matches b (String x s))).
    { intros H. apply Matches_Cat_inv in H. destruct H as (s1 & s2 & E & H1 & H2).
      destruct s1 as [|y s1]; simpl in E.
      - right. subst. auto.
      - injection E as <- ->. left. constructor; [now apply IHa|assumption]. }
    destruct (RegExp.nullable a) eqn:Hnull.
    + split.
      * intros H. apply Matches_Alt_inv in H. destruct H as [H|H].
        -- now apply Hcons.
        -- change (String x s) with ("" ++ String x s). constructor.
           ++ now apply nullable_Matches.
           ++ now apply IHb.
      * intros H. apply Hsplit in H. destruct H as [H|[_ H2]].
        -- now apply MAltL.
        -- apply MAltR. now apply IHb.
    + split.
      * apply Hcons.
      * intros H. apply Hsplit in H. destruct H as [H|[Ha _]]; [assumption|].
        apply nullable_Matches in Ha. congruence.
  - split.
    + intros H. apply Matches_Cat_inv in H. destruct H as (s1 & s2 & -> & H1 & H2).
      change (String x (s1 ++ s2)) with (String x s1 ++ s2).
      constructor; [now apply IHa|assumption].
    + intros H.
      destruct (Matches_Star_cons a _ H x s eq_refl) as (s1 & s2 & -> & H1 & H2).
      constructor; [now apply IHa|assumption].
  - split; intros H; now apply Matches_Fail_inv in H.
Qed.

Lemma matchesPrefix_Matches (s : string) :
  forall r, RegExp.matchesPrefix r s = true
            <-> exists p rest, s = p ++ rest /\ Matches r p.
Proof.
  induction s as [|x s IH]; intros r; simpl.
  - rewrite orb_false_r, nullable_Matches. split.
    + intros H. exists "", "". auto.
    + intros (p & rest & E & H). symmetry in E. apply append_nil_inv in E.
      destruct E; now subst.
  - rewrite orb_true_iff, nullable_Matches, IH. split.
    + intros [H|(p & rest & -> & H)].
      * exists "", (String x s). auto.
      * exists (String x p), rest. split; [reflexivity|]. now apply deriv_Matches.
    + intros (p & rest & E & H). destruct p as [|y p]; simpl in E.
      * now left.
      * injection E as <- ->. right. exists p, rest. split; [reflexivity|].
        now apply deriv_Matches.
Qed.

Lemma lower_cons (x : ascii) (s : string) :
  LiteralSearch.lower (String x s) = String (RegExp.toLower x) (LiteralSearch.lower s).
Proof. reflexivity. Qed.

Lemma lower_app (a b : string) :
  LiteralSearch.lower (a ++ b) = LiteralSearch.lower a ++ LiteralSearch.lower b.
Proof.
  induction a as [|x a IH]; [reflexivity|].
  simpl append. now rewrite !lower_cons, IH.
Qed.

Lemma lower_nil_inv (s : string) : LiteralSearch.lower s = "" -> s = "".
Proof. destruct s; [reflexivity|]. rewrite lower_cons. discriminate. Qed.

Lemma literal_Matches (cs : list ascii) :
  forall acc w,
    Matches (fold_left (fun a c => RegExp.Cat a (RegExp.Chr c)) cs acc) w
    <-> exists w1 w2, w = w1 ++ w2 /\ Matches acc w1
                      /\ LiteralSearch.lower w2
                         = LiteralSearch.lower (string_of_list_ascii cs).
Proof.
  induction cs as [|c cs IH]; intros acc w; simpl.
  - split.
    + intros H. exists w, "". rewrite append_empty_r. auto.
    + intros (w1 & w2 & -> & H & E). apply lower_nil_inv in E. subst.
      now rewrite append_empty_r.
  - rewrite IH. split.
    + intros (w1 & w2 & -> & H & E).
      apply Matches_Cat_inv in H. destruct H as (u & v & -> & Hu & Hv).
      apply Matches_Chr_inv in Hv. destruct Hv as (x & -> & Hx).
      exists u, (String x w2). rewrite append_assoc. split; [reflexivity|].
      split; [assumption|]. rewrite !lower_cons, E. now rewrite Hx.
    + intros (w1 & w2 & -> & H & E).
      destruct w2 as [|x w2]; [discriminate|].
      rewrite !lower_cons in E. injection E as Hx E.
      exists (w1 ++ String x ""), w2. rewrite append_assoc. split; [reflexivity|].
      split; [|assumption]. constructor; [assumption|]. now constructor.
Qed.

Lemma startsWith_lower (q : string) :
  forall s, LiteralSearch.startsWith (LiteralSearch.lower q) (LiteralSearch.lower s) = true
            <-> exists p rest, s = p ++ rest /\ LiteralSearch.lower p = LiteralSearch.lower q.
Proof.
  induction q as [|a q IH]; intros s.
  - split.
    + intros _. exists "", s. auto.
    + intros _. now destruct (LiteralSearch.lower s).
  - rewrite lower_cons. destruct s as [|b s].
    + split; [discriminate|]. intros (p & rest & E & H).
      symmetry in E. apply append_nil_inv in E. destruct E; subst. discriminate H.
    + rewrite lower_cons. cbn [LiteralSearch.startsWith].
      rewrite andb_true_iff, IH. split.
      * intros [Hab (p & rest & -> & H)]. apply Ascii.eqb_eq in Hab.
        exists (String b p), rest. split; [reflexivity|]. rewrite lower_cons. congruence.
      * intros (p & rest & E & H). destruct p as [|y p]; [discriminate|].
        simpl in E. injection E as <- ->. rewrite lower_cons in H. injection H as Hy H.
        split; [now apply Ascii.eqb_eq|]. eauto.
Qed.

Lemma string_of_list_of_string (s : string) :
  string_of_list_ascii (list_ascii_of_string s) = s.
Proof. induction s as [|x s IH]; simpl; [reflexivity|now rewrite IH]. Qed.

Lemma literal_matchesPrefix (q s : string) :
  RegExp.matchesPrefix (literal (list_ascii_of_string q)) s
  = LiteralSearch.startsWith (LiteralSearch.lower q) (LiteralSearch.lower s).
Proof.
  apply eq_true_iff_eq.
  rewrite matchesPrefix_Matches, startsWith_lower.
  unfold literal. split.
  - intros (p & rest & -> & H). apply literal_Matches in H.
    destruct H as (w1 & w2 & -> & H1 & H2). apply Matches_Eps_inv in H1. subst.
    rewrite string_of_list_of_string in H2. eauto.
  - intros (p & rest & -> & H). exists p, rest. split; [reflexivity|].
    apply literal_Matches. exists "", p. rewrite string_of_list_of_string.
    repeat split; [constructor|assumption].
Qed.

Lemma literal_test (q s : string) :
  RegExp.test (literal (list_ascii_of_string q)) s = LiteralSearch.containsCI q s.
Proof.
  unfold LiteralSearch.containsCI.
  induction s as [|x s IH].
  - simpl. rewrite orb_false_r.
    change (RegExp.nullable (literal (list_ascii_of_string q)) || false)
      with (RegExp.matchesPrefix (literal (list_ascii_of_string q)) "").
    rewrite literal_matchesPrefix. now rewrite orb_false_r.
  - cbn [RegExp.test]. rewrite lower_cons. cbn [LiteralSearch.contains].
    rewrite <- lower_cons, <- literal_matchesPrefix, IH. reflexivity.
Qed.

Lemma plain_char (c : ascii) :
  RegExp.isSyntaxChar c = false ->
  Ascii.eqb c ")" = false /\ Ascii.eqb c "|" = false /\ Ascii.eqb c "(" = false
  /\ Ascii.eqb c "*" = false /\ Ascii.eqb c "+" = false /\ Ascii.eqb c "?" = false
  /\ Ascii.eqb c "." = false /\ Ascii.eqb c RegExp.backslash = false.
Proof.
  unfold RegExp.isSyntaxChar, includes. cbn [existsb String.eqb]. intros H.
  repeat (apply orb_false_iff in H; destruct H as [? H]).
  repeat split;
    match goal with
    | |- Ascii.eqb c ?x = false =>
        first [ assumption | destruct (Ascii.eqb c x); [discriminate|reflexivity] ]
    end.
Qed.

Lemma parse_plain (cs : list ascii) :
  forallb (fun c => negb (RegExp.isSyntaxChar c)) cs = true ->
  forall fuel seq last,
    List.length cs < fuel ->
    RegExp.parse fuel cs None seq last false
    = Some (fold_left (fun a c => RegExp.Cat a (RegExp.Chr c)) cs (RegExp.seqWith seq last),
            []).
Proof.
  induction cs as [|c cs IH]; intros Hplain fuel seq last Hfuel.
  - destruct fuel as [|fuel]; [simpl in Hfuel; lia|]. reflexivity.
  - destruct fuel as [|fuel]; [simpl in Hfuel; lia|].
    simpl in Hplain. apply andb_true_iff in Hplain. destruct Hplain as [Hc Hcs].
    apply negb_true_iff in Hc.
    destruct (plain_char c Hc) as (H1 & H2 & H3 & H4 & H5 & H6 & H7 & H8).
    cbn [RegExp.parse]. rewrite H1, H2, H3, H4, H5, H6, H7, H8, Hc.
    rewrite IH; [reflexivity|assumption|simpl in Hfuel; lia].
Qed.

Lemma compile_plain (query : string) :
  isPlain query = true ->
  RegExp.compile query = Some (literal (list_ascii_of_string query)).
Proof.
  intros Hplain. unfold RegExp.compile.
  rewrite parse_plain; [reflexivity|exact Hplain|lia].
Qed.

(** X26: for a query that holds none of the characters backslash, dot,
    bar, parentheses, star, plus, question mark, opening bracket, opening
    brace, caret and dollar (a task number such as APO-1 is such a query),
    the task search resolves and returns exactly the case-insensitive
    substring search over title, description and task number. *)
Theorem plain_query_is_substring_search (query : string) (limit : option nat)
        (userId : ObjectId) (env : Env.t) (db : Db.t) :
  isPlain query = true ->
  exists resp,
    SearchService.globalSearch query (SearchService.mkOptions (Some "tasks") limit)
                               userId env db
    = (db, Resolved resp)
    /\ SearchService.tasks (SearchService.results resp)
       = Some (LiteralSearch.searchTasks query (orElse limit 10) db).
Proof.
  intros Hplain.
  assert (Hmatch : forall d,
             SearchService.taskMatches (literal (list_ascii_of_string query)) d
             = LiteralSearch.taskMatches query d).
  { intros d. unfold SearchService.taskMatches, LiteralSearch.taskMatches,
      SearchService.regexOpt.
    rewrite !literal_test. destruct (Task.taskNumber d); [|reflexivity].
    now rewrite literal_test. }
  rewrite globalSearch_tasks_scope, (compile_plain query Hplain). cbv zeta.
  eexists. split; [reflexivity|].
  cbn [SearchService.results SearchService.tasks]. unfold LiteralSearch.searchTasks.
  do 3 f_equal. apply filter_ext. exact Hmatch.
Qed.

(** The task number of [secretTask], in lower case, as a query on
    [secretDb]. *)
Lemma plain_query_is_substring_search_witness :
  searchedTaskIds "apo-7" secretDb = Some (literalTaskIds "apo-7" secretDb)
  /\ literalTaskIds "apo-7" secretDb = ["t7"].
Proof.
  destruct (plain_query_is_substring_search "apo-7" None "u1" quietEnv secretDb eq_refl)
    as (resp & Hrun & Hfound).
  split; [|reflexivity].
  unfold searchedTaskIds, literalTaskIds. rewrite Hrun.
  cbv beta iota delta [snd]. rewrite Hfound. reflexivity.
Defined.

(** ** Route gates, deactivation and sequential numbering *)

(** X27: a user with the system role [viewer] is refused with
    Forbidden, store unchanged, on task creation, bulk update and project
    creation, whereas any other role reaches the service; a user who is no
    system admin is refused with Forbidden on role changes, deactivations
    and the user statistics. *)
Theorem route_role_gates (env : Env.t) (db : Db.t) (user : Middleware.reqUser) :
  (Middleware.role user = Roles.VIEWER ->
   (forall body, exists e, TaskRoutes.post user body env db = (db, Rejected e)
                           /\ isForbidden e = true)
   /\ (forall taskIds updates,
          exists e, TaskRoutes.patchBulk user taskIds updates env db = (db, Rejected e)
                    /\ isForbidden e = true)
   /\ (forall body, exists e, ProjectRoutes.post user body env db = (db, Rejected e)
                              /\ isForbidden e = true))
  /\ (Middleware.role user <> Roles.VIEWER ->
      (forall body, TaskRoutes.post user body env db
                    = TaskService.createTask body (Middleware.userId user) env db)
      /\ (forall taskIds updates,
             TaskRoutes.patchBulk user taskIds updates env db
             = TaskService.bulkUpdateTasks taskIds updates (Middleware.userId user) env db)
      /\ (forall body, ProjectRoutes.post user body env db
                       = ProjectService.createProject body (Middleware.userId user) env db))
  /\ (Middleware.role user <> Roles.ADMIN ->
      (forall id newRole,
          exists e, UserRoutes.patchRole user id newRole env db = (db, Rejected e)
                    /\ isForbidden e = true)
      /\ (forall id, exists e, UserRoutes.delete user id env db = (db, Rejected e)
                               /\ isForbidden e = true)
      /\ (exists e, UserRoutes.statistics user env db = (db, Rejected e)
                    /\ isForbidden e = true)).
Proof.
  unfold TaskRoutes.post, TaskRoutes.patchBulk, ProjectRoutes.post, UserRoutes.patchRole,
    UserRoutes.delete, UserRoutes.statistics, Middleware.authorizeMinRole,
    Middleware.authorize.
  split; [|split].
  - intros ->. repeat split; intros; eexists; split; reflexivity.
  - intros Hrole. destruct (Middleware.role user); [| |contradiction];
      repeat split; intros; cbn [Roles.indexOf Nat.ltb Nat.leb throwIf];
      unfold bind, ret;
      match goal with |- _ = ?m env db => destruct (m env db) as [? []] end; reflexivity.
  - intros Hrole. destruct (Middleware.role user); [contradiction| |];
      repeat split; intros; eexists; split; reflexivity.
Qed.

(** A member may not change roles. *)
Lemma route_role_gates_witness :
  exists e,
    UserRoutes.patchRole (Middleware.mkUser "m1" Roles.MEMBER) "m1" Roles.ADMIN
                         quietEnv soleAdminDb
    = (soleAdminDb, Rejected e)
    /\ isForbidden e = true.
Proof.
  destruct (route_role_gates quietEnv soleAdminDb (Middleware.mkUser "m1" Roles.MEMBER))
    as (_ & _ & Hadmin).
  destruct (Hadmin ltac:(discriminate)) as (Hrole & _).
  apply Hrole.
Defined.

(** X28: a resolved [deactivateUser] marks the user inactive
    and keeps the document: the number of users is the same, the user can
    still be read by identifier, and projects (memberships included) and
    tasks (assignments included) are exactly as before. *)
Theorem deactivation_is_soft (env : Env.t) (db db' : Db.t) (userId actorId : ObjectId) :
  UserService.deactivateUser userId actorId env db = (db', Resolved tt) ->
  (exists user,
      find (userRepository.hasId userId) (Db.users db) = Some user
      /\ find (userRepository.hasId userId) (Db.users db')
         = Some (User.set_isActive false user))
  /\ List.length (Db.users db') = List.length (Db.users db)
  /\ Db.projects db' = Db.projects db
  /\ Db.tasks db' = Db.tasks db
  /\ resolved (UserService.getUserById userId env db') = true.
Proof.
  unfold UserService.deactivateUser. run.
  destruct (find (userRepository.hasId userId) (Db.users db)) as [user|] eqn:Hfind;
    [|discriminate].
  assert (Hfound : find (userRepository.hasId userId)
                     (updateFirst (userRepository.hasId userId) (User.set_isActive false)
                                  (Db.users db))
                   = Some (User.set_isActive false user)).
  { now rewrite (find_updateFirst _ _ (hasId_set_isActive userId false)), Hfind. }
  assert (Hdone : forall db0,
             Db.users db0 = updateFirst (userRepository.hasId userId)
                              (User.set_isActive false) (Db.users db) ->
             Db.projects db0 = Db.projects db ->
             Db.tasks db0 = Db.tasks db ->
             (exists user0,
                 Some user = Some user0
                 /\ find (userRepository.hasId userId) (Db.users db0)
                    = Some (User.set_isActive false user0))
             /\ List.length (Db.users db0) = List.length (Db.users db)
             /\ Db.projects db0 = Db.projects db
             /\ Db.tasks db0 = Db.tasks db
             /\ resolved (UserService.getUserById userId env db0) = true).
  { intros db0 Hu Hp Ht. split; [|split; [|split; [|split]]].
    - exists user. split; [reflexivity|]. now rewrite Hu.
    - rewrite Hu. apply length_updateFirst.
    - exact Hp.
    - exact Ht.
    - unfold resolved, UserService.getUserById. run. now rewrite Hu, Hfound. }
  destruct (Roles.eqb (User.role user) Roles.ADMIN); simpl.
  - destruct (leqOne _); simpl; [discriminate|].
    destruct (Env.activityWriteFails env); simpl; [discriminate|].
    intros [= <-]. now apply Hdone.
  - destruct (Env.activityWriteFails env); simpl; [discriminate|].
    intros [= <-]. now apply Hdone.
Qed.

(** The second admin of [twoAdminsDb] is deactivated and kept. *)
Lemma deactivation_is_soft_witness :
  option_map User.isActive
    (find (userRepository.hasId "a2")
       (Db.users (after (UserService.deactivateUser "a2" "a1") quietEnv twoAdminsDb)))
  = Some false
  /\ List.length (Db.users (after (UserService.deactivateUser "a2" "a1") quietEnv
                                  twoAdminsDb)) = 2.
Proof.
  destruct (deactivation_is_soft quietEnv twoAdminsDb
              (after (UserService.deactivateUser "a2" "a1") quietEnv twoAdminsDb)
              "a2" "a1" eq_refl)
    as ((user & _ & Hfound) & Hlength & _).
  split; [|exact Hlength]. rewrite Hfound. reflexivity.
Defined.



